(** * The controller service of the EBS CSI driver (pkg/driver/controller.go)

    A shallow embedding of the controller RPC handlers and of the helpers
    they use, followed by the properties of the reconciliation logic:
    idempotent create and delete, capacity normalisation, zone selection,
    capability negotiation, attachment and response translation.

    Handlers run in a monad that threads the backend state and the log of
    backend calls, and that stops at the first returned error. *)

From Stdlib Require Import ZArith Bool Ascii String List Lia.
From stdpp Require Import base option list strings gmap.

Local Open Scope string_scope.
Local Open Scope Z_scope.

(** ** Errors *)

(** Go [error] values the handlers see.  The four sentinels are the ones
    declared by package [cloud] and compared with [==] in the handlers; every
    other error value (a backend failure, a [strconv] or [ptypes] error) is
    kept by its message. *)
Inductive error : Type :=
| ErrNotFound
| ErrMultiDisks
| ErrDiskExistsDiffSize
| ErrAlreadyExists
| ErrOther (msg : string).

#[global] Instance error_eq_dec : EqDecision error.
Proof. solve_decision. Defined.

(** gRPC status codes used by the handlers ([Unknown] is what the transport
    reports for an error that carries no status). *)
Inductive Code : Type :=
| InvalidArgument | NotFound | AlreadyExists | Internal | Unimplemented | Unknown.

#[global] Instance Code_eq_dec : EqDecision Code.
Proof. solve_decision. Defined.

(** An argument of a [status.Errorf] format string. *)
Inductive FmtArg : Type :=
| ArgString (s : string)
| ArgError (e : error).

(** The message of a status: a literal, [err.Error()], or a format string
    with its arguments (kept unrendered). *)
Inductive Message : Type :=
| Msg (s : string)
| MsgError (e : error)
| Msgf (fmt : string) (args : list FmtArg).

(** What a handler returns in its [error] position: a status built with
    [status.Error]/[status.Errorf], or an error value passed on as it is. *)
Inductive rpcError : Type :=
| StatusError (c : Code) (m : Message)
| PlainError (e : error).

Definition status_Error (c : Code) (m : Message) : rpcError := StatusError c m.
Definition status_Errorf (c : Code) (fmt : string) (args : list FmtArg) : rpcError :=
  StatusError c (Msgf fmt args).

(** [status.Code]: the code of a status, [Unknown] for any other error. *)
Definition status_Code (e : rpcError) : Code :=
  match e with
  | StatusError c _ => c
  | PlainError _ => Unknown
  end.

(** ** Protocol messages (package csi) *)

Inductive VolumeCapability_AccessMode_Mode : Type :=
| VolumeCapability_AccessMode_UNKNOWN
| VolumeCapability_AccessMode_SINGLE_NODE_WRITER
| VolumeCapability_AccessMode_SINGLE_NODE_READER_ONLY
| VolumeCapability_AccessMode_MULTI_NODE_READER_ONLY
| VolumeCapability_AccessMode_MULTI_NODE_SINGLE_WRITER
| VolumeCapability_AccessMode_MULTI_NODE_MULTI_WRITER.

#[global] Instance Mode_eq_dec : EqDecision VolumeCapability_AccessMode_Mode.
Proof. solve_decision. Defined.

Record VolumeCapability_AccessMode : Type := mkAccessMode {
  Mode : VolumeCapability_AccessMode_Mode
}.

(** [GetMode] on a possibly nil access mode: nil yields the zero value. *)
Definition GetMode (m : option VolumeCapability_AccessMode)
  : VolumeCapability_AccessMode_Mode :=
  match m with
  | Some a => Mode a
  | None => VolumeCapability_AccessMode_UNKNOWN
  end.

Record VolumeCapability : Type := mkVolumeCapability {
  AccessMode : option VolumeCapability_AccessMode
}.

Record CapacityRange : Type := mkCapacityRange {
  RequiredBytes : Z;
  LimitBytes : Z
}.

Record Topology : Type := mkTopology {
  Segments : gmap string string
}.

Record TopologyRequirement : Type := mkTopologyRequirement {
  Requisite : list Topology;
  Preferred : list Topology
}.

Record VolumeContentSource_SnapshotSource : Type := mkSnapshotSource {
  SnapshotId : string
}.

Record VolumeContentSource_VolumeSource : Type := mkVolumeSource {
  SourceVolume : string
}.

(** The [Type] oneof of a volume content source; each wrapper holds a
    pointer that may be nil. *)
Inductive VolumeContentSource : Type :=
| VolumeContentSource_NoType
| VolumeContentSource_Snapshot (s : option VolumeContentSource_SnapshotSource)
| VolumeContentSource_Volume (v : option VolumeContentSource_VolumeSource).

Record CreateVolumeRequest : Type := mkCreateVolumeRequest {
  cv_Name : string;
  cv_CapacityRange : option CapacityRange;
  cv_VolumeCapabilities : list VolumeCapability;
  cv_Parameters : gmap string string;
  cv_VolumeContentSource : option VolumeContentSource;
  cv_AccessibilityRequirements : option TopologyRequirement
}.

Record Volume : Type := mkVolume {
  VolumeId : string;
  CapacityBytes : Z;
  VolumeContext : gmap string string;
  AccessibleTopology : list Topology
}.

Record CreateVolumeResponse : Type := mkCreateVolumeResponse {
  cv_Volume : Volume
}.

Record DeleteVolumeRequest : Type := mkDeleteVolumeRequest {
  dv_VolumeId : string
}.

Record DeleteVolumeResponse : Type := mkDeleteVolumeResponse { }.

Record ControllerPublishVolumeRequest : Type := mkControllerPublishVolumeRequest {
  cp_VolumeId : string;
  cp_NodeId : string;
  cp_VolumeCapability : option VolumeCapability
}.

Record ControllerPublishVolumeResponse : Type := mkControllerPublishVolumeResponse {
  PublishContext : gmap string string
}.

Record ControllerUnpublishVolumeRequest : Type := mkControllerUnpublishVolumeRequest {
  cu_VolumeId : string;
  cu_NodeId : string
}.

Record ControllerUnpublishVolumeResponse : Type :=
  mkControllerUnpublishVolumeResponse { }.

Record ValidateVolumeCapabilitiesRequest : Type := mkValidateVolumeCapabilitiesRequest {
  vc_VolumeId : string;
  vc_VolumeCapabilities : list VolumeCapability
}.

Record ValidateVolumeCapabilitiesResponse_Confirmed : Type := mkConfirmed {
  cf_VolumeCapabilities : list VolumeCapability
}.

Record ValidateVolumeCapabilitiesResponse : Type := mkValidateVolumeCapabilitiesResponse {
  Confirmed : option ValidateVolumeCapabilitiesResponse_Confirmed
}.

Record Timestamp : Type := mkTimestamp {
  Seconds : Z;
  Nanos : Z
}.

Record CreateSnapshotRequest : Type := mkCreateSnapshotRequest {
  cs_Name : string;
  cs_SourceVolumeId : string
}.

Record Snapshot : Type := mkSnapshot {
  s_SnapshotId : string;
  s_SourceVolumeId : string;
  s_SizeBytes : Z;
  s_CreationTime : option Timestamp;
  s_ReadyToUse : bool
}.

Record CreateSnapshotResponse : Type := mkCreateSnapshotResponse {
  cs_Snapshot : Snapshot
}.

Record DeleteSnapshotRequest : Type := mkDeleteSnapshotRequest {
  ds_SnapshotId : string
}.

Record DeleteSnapshotResponse : Type := mkDeleteSnapshotResponse { }.

Inductive ControllerServiceCapability_RPC_Type : Type :=
| ControllerServiceCapability_RPC_CREATE_DELETE_VOLUME
| ControllerServiceCapability_RPC_PUBLISH_UNPUBLISH_VOLUME
| ControllerServiceCapability_RPC_CREATE_DELETE_SNAPSHOT.

(** ** Backend records (package cloud) *)

(** A [time.Time] by what the handlers read of it: the Unix seconds and the
    nanosecond offset within the second. *)
Record Time : Type := mkTime {
  Unix : Z;
  Nanosecond : Z
}.

Record Disk : Type := mkDisk {
  VolumeID : string;
  CapacityGiB : Z;
  AvailabilityZone : string;
  FsType : string
}.

Definition Disk_setFsType (disk : Disk) (fsType : string) : Disk :=
  {| VolumeID := VolumeID disk;
     CapacityGiB := CapacityGiB disk;
     AvailabilityZone := AvailabilityZone disk;
     FsType := fsType |}.

Record DiskOptions : Type := mkDiskOptions {
  do_CapacityBytes : Z;
  do_Tags : gmap string string;
  do_VolumeType : string;
  do_IOPSPerGB : Z;
  do_AvailabilityZone : string;
  do_Encrypted : bool;
  do_KmsKeyID : string;
  do_SnapshotID : string
}.

Definition DiskOptions_setSnapshotID (opts : DiskOptions) (id : string) : DiskOptions :=
  {| do_CapacityBytes := do_CapacityBytes opts;
     do_Tags := do_Tags opts;
     do_VolumeType := do_VolumeType opts;
     do_IOPSPerGB := do_IOPSPerGB opts;
     do_AvailabilityZone := do_AvailabilityZone opts;
     do_Encrypted := do_Encrypted opts;
     do_KmsKeyID := do_KmsKeyID opts;
     do_SnapshotID := id |}.

Record cloud_Snapshot : Type := mkCloudSnapshot {
  SnapshotID : string;
  SourceVolumeID : string;
  Size : Z;
  CreationTime : Time;
  ReadyToUse : bool
}.

Record SnapshotOptions : Type := mkSnapshotOptions {
  so_Tags : gmap string string
}.

(** The constants of packages [driver] and [cloud] that the handlers name.
    Their values are declared outside controller.go, so they are taken as
    parameters. *)
Record Constants : Type := mkConstants {
  FsTypeKey : string;
  VolumeTypeKey : string;
  IopsPerGBKey : string;
  EncryptedKey : string;
  KmsKeyIdKey : string;
  TopologyKey : string;
  DevicePathKey : string;
  VolumeTypeIO1 : string;
  VolumeNameTagKey : string;
  SnapshotNameTagKey : string;
  DefaultVolumeSize : Z
}.

(** Indexing a Go [map[string]string]: a missing key yields the empty
    string. *)
Definition index (m : gmap string string) (k : string) : string :=
  default "" (m !! k).

(** ** Library functions the handlers call *)

Definition minInt64 : Z := - 2 ^ 63.
Definition maxInt64 : Z := 2 ^ 63 - 1.

Definition digit_of (a : ascii) : option Z :=
  let n := Z.of_N (N_of_ascii a) in
  if (48 <=? n) && (n <=? 57) then Some (n - 48) else None.

Fixpoint parse_digits (s : string) (acc : Z) : option Z :=
  match s with
  | EmptyString => Some acc
  | String a s' =>
      match digit_of a with
      | Some d => parse_digits s' (acc * 10 + d)
      | None => None
      end
  end.

(** [strconv.Atoi] of the Go standard library: an optional sign followed by
    one or more decimal digits, within the range of a 64-bit [int]. *)
Definition Atoi (s : string) : Z * option error :=
  let syntax := (0, Some (ErrOther "strconv.Atoi: invalid syntax")) in
  let body_of (neg : bool) (body : string) :=
    match body with
    | EmptyString => syntax
    | _ =>
        match parse_digits body 0 with
        | None => syntax
        | Some n =>
            let v := if neg then - n else n in
            if v <? minInt64 then
              (minInt64, Some (ErrOther "strconv.Atoi: value out of range"))
            else if maxInt64 <? v then
              (maxInt64, Some (ErrOther "strconv.Atoi: value out of range"))
            else (v, None)
        end
    end in
  match s with
  | EmptyString => syntax
  | String a rest =>
      if Ascii.eqb a "-"%char then body_of true rest
      else if Ascii.eqb a "+"%char then body_of false rest
      else body_of false s
  end.

Definition minValidSeconds : Z := -62135596800.
Definition maxValidSeconds : Z := 253402300800.

(** [ptypes.TimestampProto] of golang/protobuf: the seconds and nanoseconds
    of the time, refused when the seconds fall before year 1 or from year
    10000 on, or when the nanoseconds are outside [0, 1e9). *)
Definition TimestampProto (t : Time) : option Timestamp * option error :=
  let ts := {| Seconds := Unix t; Nanos := Nanosecond t |} in
  if Seconds ts <? minValidSeconds then
    (None, Some (ErrOther "timestamp: before 0001-01-01"))
  else if maxValidSeconds <=? Seconds ts then
    (None, Some (ErrOther "timestamp: after 10000-01-01"))
  else if (Nanos ts <? 0) || (1000000000 <=? Nanos ts) then
    (None, Some (ErrOther "timestamp: nanos not in range [0, 1e9)"))
  else (Some ts, None).

(** ** Package util *)

(** Modelled from the spec: the allocation granularity of the backend, which
    the spec gives as one GiB and which is declared in package util, outside
    controller.go. *)
Definition GiB : Z := 1024 * 1024 * 1024.

(** The value an int64 computation comes to: the result is kept modulo
    2^64 within [-2^63, 2^63), as Go's signed arithmetic wraps around. *)
Definition wrap64 (x : Z) : Z := (x + 2 ^ 63) mod 2 ^ 64 - 2 ^ 63.

(** Modelled from the spec: util.RoundUpBytes, declared outside
    controller.go.  The spec's Capacity Normalizer rounds the required bytes
    up to the nearest multiple of the allocation granularity.  The bytes and
    the result are int64 values, as [volSizeBytes] is declared in
    CreateVolume: the rounding adds the unit less one, divides by the unit and
    multiplies back, the sum and the product wrapping around and the division
    truncating toward zero, as Go's do. *)
Definition RoundUpBytes (volumeSizeBytes : Z) : Z :=
  wrap64 (Z.quot (wrap64 (volumeSizeBytes + GiB - 1)) GiB * GiB).

(** Modelled from the spec: util.GiBToBytes, declared outside controller.go.
    The spec's Response Translator converts the capacity from the backend's
    unit to bytes; the product is an int64 and wraps around. *)
Definition GiBToBytes (volumeSizeGiB : Z) : Z := wrap64 (volumeSizeGiB * GiB).

(** ** The backend collaborator *)

(** The methods of [cloud.Cloud] the handlers call, over a backend state
    [S].  Results are Go result tuples: a possibly nil record next to a
    possibly nil error. *)
Record Cloud (S : Type) : Type := mkCloud {
  GetDiskByName : string -> Z -> S -> (option Disk * option error) * S;
  CreateDisk : string -> DiskOptions -> S -> (option Disk * option error) * S;
  DeleteDisk : string -> S -> (bool * option error) * S;
  AttachDisk : string -> string -> S -> (string * option error) * S;
  DetachDisk : string -> string -> S -> option error * S;
  IsExistInstance : string -> S -> bool * S;
  GetDiskByID : string -> S -> (option Disk * option error) * S;
  GetSnapshotByName : string -> S -> (option cloud_Snapshot * option error) * S;
  CreateSnapshot_ : string -> SnapshotOptions -> S
                    -> (option cloud_Snapshot * option error) * S;
  DeleteSnapshot_ : string -> S -> (bool * option error) * S
}.

Arguments GetDiskByName {S} _ _ _ _.
Arguments CreateDisk {S} _ _ _ _.
Arguments DeleteDisk {S} _ _ _.
Arguments AttachDisk {S} _ _ _ _.
Arguments DetachDisk {S} _ _ _ _.
Arguments IsExistInstance {S} _ _ _.
Arguments GetDiskByID {S} _ _ _.
Arguments GetSnapshotByName {S} _ _ _.
Arguments CreateSnapshot_ {S} _ _ _ _.
Arguments DeleteSnapshot_ {S} _ _ _.

(** A call made to the backend, with its arguments. *)
Inductive Call : Type :=
| CallGetDiskByName (name : string) (capacityBytes : Z)
| CallCreateDisk (name : string) (opts : DiskOptions)
| CallDeleteDisk (volumeID : string)
| CallAttachDisk (volumeID nodeID : string)
| CallDetachDisk (volumeID nodeID : string)
| CallIsExistInstance (nodeID : string)
| CallGetDiskByID (volumeID : string)
| CallGetSnapshotByName (name : string)
| CallCreateSnapshot (volumeID : string) (opts : SnapshotOptions)
| CallDeleteSnapshot (snapshotID : string).

Definition is_create_disk (c : Call) : bool :=
  match c with CallCreateDisk _ _ => true | _ => false end.

Definition is_create_snapshot (c : Call) : bool :=
  match c with CallCreateSnapshot _ _ => true | _ => false end.

Definition is_attach_disk (c : Call) : bool :=
  match c with CallAttachDisk _ _ => true | _ => false end.

(** ** The handler monad *)

(** What a handler call comes to: a response, a returned error, or a
    run-time panic (a nil record dereferenced). *)
Inductive Result (A : Type) : Type :=
| Ok (a : A)
| Err (e : rpcError)
| Panic.

Arguments Ok {A} a.
Arguments Err {A} e.
Arguments Panic {A}.

(** The world a handler runs in: the backend state and the calls made to
    the backend so far, oldest first. *)
Record World (S : Type) : Type := mkWorld {
  backend : S;
  calls : list Call
}.

Arguments mkWorld {S} _ _.
Arguments backend {S} _.
Arguments calls {S} _.

Definition M (S A : Type) : Type := World S -> Result A * World S.

Definition ret {S A} (a : A) : M S A := fun w => (Ok a, w).

Definition throw {S A} (e : rpcError) : M S A := fun w => (Err e, w).

Definition panic {S A} : M S A := fun w => (Panic, w).

Definition bind {S A B} (m : M S A) (k : A -> M S B) : M S B :=
  fun w =>
    match m w with
    | (Ok a, w') => k a w'
    | (Err e, w') => (Err e, w')
    | (Panic, w') => (Panic, w')
    end.

(** One call to the backend: run it on the backend state and log it. *)
Definition invoke {S A} (c : Call) (f : S -> A * S) : M S A :=
  fun w =>
    let (a, s') := f (backend w) in
    (Ok a, mkWorld s' (calls w ++ [c])).

Declare Scope handler_scope.
Delimit Scope handler_scope with handler.

Notation "x <- m ;; k" := (bind m (fun x => k))
  (at level 100, m at next level, right associativity) : handler_scope.

(** [check cond e]: return the error [e] when [cond] holds, go on
    otherwise. *)
Definition check {S} (cond : bool) (e : rpcError) : M S unit :=
  if cond then throw e else ret tt.

(** ** The handlers *)

(** The supported access modes: single-node writer only. *)
Definition volumeCaps : list VolumeCapability_AccessMode :=
  [ {| Mode := VolumeCapability_AccessMode_SINGLE_NODE_WRITER |} ].

(** The capabilities of the controller service. *)
Definition controllerCaps : list ControllerServiceCapability_RPC_Type :=
  [ ControllerServiceCapability_RPC_CREATE_DELETE_VOLUME;
    ControllerServiceCapability_RPC_PUBLISH_UNPUBLISH_VOLUME;
    ControllerServiceCapability_RPC_CREATE_DELETE_SNAPSHOT ].

(** The closure of [isValidVolumeCapabilities]: some supported mode equals
    the mode of the capability.  The argument is the capability message a
    list element points to; the source dereferences that pointer, and a nil
    element, on which it would panic, is not a value of this model. *)
Definition hasSupport (cap : VolumeCapability) : bool :=
  existsb
    (fun c => bool_decide (GetMode (Some c) = GetMode (AccessMode cap)))
    volumeCaps.

(** [foundAll] starts true and is cleared by every unsupported capability. *)
Definition isValidVolumeCapabilities (volCaps : list VolumeCapability) : bool :=
  fold_left
    (fun foundAll c => if negb (hasSupport c) then false else foundAll)
    volCaps true.

Section Driver.

Context {S : Type}.
Variable cloud : Cloud S.
Variable K : Constants.

Local Open Scope handler_scope.

(** One loop of [pickAvailabilityZone]: the value under the zone key of the
    first topology that has one. *)
Fixpoint scanZone (topologies : list Topology) : option string :=
  match topologies with
  | [] => None
  | topology :: rest =>
      match Segments topology !! TopologyKey K with
      | Some zone => Some zone
      | None => scanZone rest
      end
  end.

(** pickAvailabilityZone selects 1 zone given topology requirement.
    if not found, empty string is returned. *)
Definition pickAvailabilityZone (requirement : option TopologyRequirement) : string :=
  match requirement with
  | None => ""
  | Some requirement =>
      match scanZone (Preferred requirement) with
      | Some zone => zone
      | None =>
          match scanZone (Requisite requirement) with
          | Some zone => zone
          | None => ""
          end
      end
  end.

Definition newCreateVolumeResponse (disk : Disk) : CreateVolumeResponse :=
  {| cv_Volume :=
       {| VolumeId := VolumeID disk;
          CapacityBytes := GiBToBytes (CapacityGiB disk);
          VolumeContext := {[ FsTypeKey K := FsType disk ]};
          AccessibleTopology :=
            [ {| Segments := {[ TopologyKey K := AvailabilityZone disk ]} |} ] |} |}.

(** The snapshot is a pointer: reading the creation time of a nil snapshot
    panics. *)
Definition newCreateSnapshotResponse (snapshot : option cloud_Snapshot)
  : M S CreateSnapshotResponse :=
  match snapshot with
  | None => panic
  | Some snapshot =>
      match TimestampProto (CreationTime snapshot) with
      | (_, Some err) => throw (PlainError err)
      | (ts, None) =>
          ret {| cs_Snapshot :=
                   {| s_SnapshotId := SnapshotID snapshot;
                      s_SourceVolumeId := SourceVolumeID snapshot;
                      s_SizeBytes := Size snapshot;
                      s_CreationTime := ts;
                      s_ReadyToUse := ReadyToUse snapshot |} |}
      end
  end.

(** The second half of [CreateVolume], under its comment "create a new
    volume": build the disk options from the request and create the disk. *)
Definition createNewVolume (req : CreateVolumeRequest) (volName : string)
    (volSizeBytes : Z) (volumeParams : gmap string string) (fsType : string)
  : M S CreateVolumeResponse :=
  let zone := pickAvailabilityZone (cv_AccessibilityRequirements req) in
  let volumeType := index volumeParams (VolumeTypeKey K) in
  iopsPerGB <-
    (if bool_decide (volumeType = VolumeTypeIO1 K) then
       match Atoi (index volumeParams (IopsPerGBKey K)) with
       | (_, Some err) =>
           throw (status_Errorf InvalidArgument
                    "Could not parse invalid iopsPerGB: %v" [ArgError err])
       | (n, None) => ret n
       end
     else ret 0) ;;
  let '(isEncrypted, kmsKeyId) :=
    if bool_decide (index volumeParams (EncryptedKey K) = "true")
    then (true, index volumeParams (KmsKeyIdKey K))
    else (false, "") in
  let opts :=
    {| do_CapacityBytes := volSizeBytes;
       do_Tags := {[ VolumeNameTagKey K := volName ]};
       do_VolumeType := volumeType;
       do_IOPSPerGB := iopsPerGB;
       do_AvailabilityZone := zone;
       do_Encrypted := isEncrypted;
       do_KmsKeyID := kmsKeyId;
       do_SnapshotID := "" |} in
  opts <-
    (match cv_VolumeContentSource req with
     | None => ret opts
     | Some volumeSource =>
         match volumeSource with
         | VolumeContentSource_Snapshot sourceSnapshot =>
             match sourceSnapshot with
             | None =>
                 throw (status_Error InvalidArgument
                          (Msg "Error retrieving snapshot from the volumeContentSource"))
             | Some sourceSnapshot =>
                 ret (DiskOptions_setSnapshotID opts (SnapshotId sourceSnapshot))
             end
         | _ =>
             throw (status_Error InvalidArgument
                      (Msg "Unsupported volumeContentSource type"))
         end
     end) ;;
  r <- invoke (CallCreateDisk volName opts) (CreateDisk cloud volName opts) ;;
  let '(disk, err) := r in
  match err with
  | Some err =>
      throw (status_Errorf Internal "Could not create volume %q: %v"
               [ArgString volName; ArgError err])
  | None =>
      match disk with
      | None => panic
      | Some disk => ret (newCreateVolumeResponse (Disk_setFsType disk fsType))
      end
  end.

Definition CreateVolume (req : CreateVolumeRequest) : M S CreateVolumeResponse :=
  let volName := cv_Name req in
  _ <- check (String.length volName =? 0)%nat
         (status_Error InvalidArgument (Msg "Volume name not provided")) ;;
  volSizeBytes <-
    (match cv_CapacityRange req with
     | None => ret (DefaultVolumeSize K)
     | Some capRange =>
         let volSizeBytes := RoundUpBytes (RequiredBytes capRange) in
         let maxVolSize := LimitBytes capRange in
         _ <- check ((0 <? maxVolSize) && (maxVolSize <? volSizeBytes))
                (status_Error InvalidArgument
                   (Msg "After round-up, volume size exceeds the limit specified")) ;;
         ret volSizeBytes
     end) ;;
  let volCaps := cv_VolumeCapabilities req in
  _ <- check (length volCaps =? 0)%nat
         (status_Error InvalidArgument (Msg "Volume capabilities not provided")) ;;
  _ <- check (negb (isValidVolumeCapabilities volCaps))
         (status_Error InvalidArgument (Msg "Volume capabilities not supported")) ;;
  r <- invoke (CallGetDiskByName volName volSizeBytes)
         (GetDiskByName cloud volName volSizeBytes) ;;
  let '(disk, err) := r in
  _ <- (match err with
        | None => ret tt
        | Some ErrNotFound => ret tt
        | Some ErrMultiDisks => throw (status_Error Internal (MsgError ErrMultiDisks))
        | Some ErrDiskExistsDiffSize =>
            throw (status_Error AlreadyExists (MsgError ErrDiskExistsDiffSize))
        | Some err => throw (status_Error Internal (MsgError err))
        end) ;;
  let volumeParams := cv_Parameters req in
  let fsType := index volumeParams (FsTypeKey K) in
  match disk with
  | Some disk => ret (newCreateVolumeResponse (Disk_setFsType disk fsType))
  | None => createNewVolume req volName volSizeBytes volumeParams fsType
  end.

Definition DeleteVolume (req : DeleteVolumeRequest) : M S DeleteVolumeResponse :=
  let volumeID := dv_VolumeId req in
  _ <- check (String.length volumeID =? 0)%nat
         (status_Error InvalidArgument (Msg "Volume ID not provided")) ;;
  r <- invoke (CallDeleteDisk volumeID) (DeleteDisk cloud volumeID) ;;
  let '(_, err) := r in
  match err with
  | Some err =>
      if bool_decide (err = ErrNotFound) then ret mkDeleteVolumeResponse
      else throw (status_Errorf Internal "Could not delete volume ID %q: %v"
                    [ArgString volumeID; ArgError err])
  | None => ret mkDeleteVolumeResponse
  end.

Definition ControllerPublishVolume (req : ControllerPublishVolumeRequest)
  : M S ControllerPublishVolumeResponse :=
  let volumeID := cp_VolumeId req in
  _ <- check (String.length volumeID =? 0)%nat
         (status_Error InvalidArgument (Msg "Volume ID not provided")) ;;
  let nodeID := cp_NodeId req in
  _ <- check (String.length nodeID =? 0)%nat
         (status_Error InvalidArgument (Msg "Node ID not provided")) ;;
  match cp_VolumeCapability req with
  | None => throw (status_Error InvalidArgument (Msg "Volume capability not provided"))
  | Some volCap =>
      let caps := [volCap] in
      _ <- check (negb (isValidVolumeCapabilities caps))
             (status_Error InvalidArgument (Msg "Volume capability not supported")) ;;
      exists_ <- invoke (CallIsExistInstance nodeID) (IsExistInstance cloud nodeID) ;;
      _ <- check (negb exists_)
             (status_Errorf NotFound "Instance %q not found" [ArgString nodeID]) ;;
      r <- invoke (CallGetDiskByID volumeID) (GetDiskByID cloud volumeID) ;;
      let '(_, err) := r in
      _ <- (match err with
            | Some err =>
                if bool_decide (err = ErrNotFound) then
                  throw (status_Error NotFound (Msg "Volume not found"))
                else
                  throw (status_Errorf Internal "Could not get volume with ID %q: %v"
                           [ArgString volumeID; ArgError err])
            | None => ret tt
            end) ;;
      r <- invoke (CallAttachDisk volumeID nodeID) (AttachDisk cloud volumeID nodeID) ;;
      let '(devicePath, err) := r in
      match err with
      | Some err =>
          if bool_decide (err = ErrAlreadyExists) then
            throw (status_Error AlreadyExists (MsgError err))
          else
            throw (status_Errorf Internal "Could not attach volume %q to node %q: %v"
                     [ArgString volumeID; ArgString nodeID; ArgError err])
      | None =>
          let pvInfo : gmap string string := {[ DevicePathKey K := devicePath ]} in
          ret {| PublishContext := pvInfo |}
      end
  end.

Definition ControllerUnpublishVolume (req : ControllerUnpublishVolumeRequest)
  : M S ControllerUnpublishVolumeResponse :=
  let volumeID := cu_VolumeId req in
  _ <- check (String.length volumeID =? 0)%nat
         (status_Error InvalidArgument (Msg "Volume ID not provided")) ;;
  let nodeID := cu_NodeId req in
  _ <- check (String.length nodeID =? 0)%nat
         (status_Error InvalidArgument (Msg "Node ID not provided")) ;;
  err <- invoke (CallDetachDisk volumeID nodeID) (DetachDisk cloud volumeID nodeID) ;;
  match err with
  | Some err =>
      throw (status_Errorf Internal "Could not detach volume %q from node %q: %v"
               [ArgString volumeID; ArgString nodeID; ArgError err])
  | None => ret mkControllerUnpublishVolumeResponse
  end.

Definition ValidateVolumeCapabilities (req : ValidateVolumeCapabilitiesRequest)
  : M S ValidateVolumeCapabilitiesResponse :=
  let volumeID := vc_VolumeId req in
  _ <- check (String.length volumeID =? 0)%nat
         (status_Error InvalidArgument (Msg "Volume ID not provided")) ;;
  let volCaps := vc_VolumeCapabilities req in
  _ <- check (length volCaps =? 0)%nat
         (status_Error InvalidArgument (Msg "Volume capabilities not provided")) ;;
  r <- invoke (CallGetDiskByID volumeID) (GetDiskByID cloud volumeID) ;;
  let '(_, err) := r in
  _ <- (match err with
        | Some err =>
            if bool_decide (err = ErrNotFound) then
              throw (status_Error NotFound (Msg "Volume not found"))
            else
              throw (status_Errorf Internal "Could not get volume with ID %q: %v"
                       [ArgString volumeID; ArgError err])
        | None => ret tt
        end) ;;
  let confirmed :=
    if isValidVolumeCapabilities volCaps
    then Some {| cf_VolumeCapabilities := volCaps |}
    else None in
  ret {| Confirmed := confirmed |}.

Definition CreateSnapshot (req : CreateSnapshotRequest) : M S CreateSnapshotResponse :=
  let snapshotName := cs_Name req in
  _ <- check (String.length snapshotName =? 0)%nat
         (status_Error InvalidArgument (Msg "Snapshot name not provided")) ;;
  let volumeID := cs_SourceVolumeId req in
  _ <- check (String.length volumeID =? 0)%nat
         (status_Error InvalidArgument (Msg "Snapshot volume source ID not provided")) ;;
  r <- invoke (CallGetSnapshotByName snapshotName)
         (GetSnapshotByName cloud snapshotName) ;;
  let '(snapshot, err) := r in
  _ <- (match err with
        | Some err =>
            if bool_decide (err = ErrNotFound) then ret tt
            else throw (PlainError err)
        | None => ret tt
        end) ;;
  match snapshot with
  | Some snapshot =>
      if negb (bool_decide (SourceVolumeID snapshot = volumeID)) then
        throw (status_Errorf AlreadyExists
                 "Snapshot %s already exists for different volume (%s)"
                 [ArgString snapshotName; ArgString (SourceVolumeID snapshot)])
      else newCreateSnapshotResponse (Some snapshot)
  | None =>
      let opts := {| so_Tags := {[ SnapshotNameTagKey K := snapshotName ]} |} in
      r <- invoke (CallCreateSnapshot volumeID opts)
             (CreateSnapshot_ cloud volumeID opts) ;;
      let '(snapshot, err) := r in
      match err with
      | Some err =>
          throw (status_Errorf Internal "Could not create snapshot %q: %v"
                   [ArgString snapshotName; ArgError err])
      | None => newCreateSnapshotResponse snapshot
      end
  end.

Definition DeleteSnapshot (req : DeleteSnapshotRequest) : M S DeleteSnapshotResponse :=
  let snapshotID := ds_SnapshotId req in
  _ <- check (String.length snapshotID =? 0)%nat
         (status_Error InvalidArgument (Msg "Snapshot ID not provided")) ;;
  r <- invoke (CallDeleteSnapshot snapshotID) (DeleteSnapshot_ cloud snapshotID) ;;
  let '(_, err) := r in
  match err with
  | Some err =>
      if bool_decide (err = ErrNotFound) then ret mkDeleteSnapshotResponse
      else throw (status_Errorf Internal "Could not delete snapshot ID %q: %v"
                    [ArgString snapshotID; ArgError err])
  | None => ret mkDeleteSnapshotResponse
  end.

End Driver.

(** ** Path conditions of the create handlers *)

Section Paths.

Variable K : Constants.

(** The size [CreateVolume] asks the backend for. *)
Definition volSizeBytesOf (req : CreateVolumeRequest) : Z :=
  match cv_CapacityRange req with
  | None => DefaultVolumeSize K
  | Some capRange => RoundUpBytes (RequiredBytes capRange)
  end.

(** The capacity check: a positive limit below the rounded size is refused. *)
Definition exceedsLimit (req : CreateVolumeRequest) : bool :=
  match cv_CapacityRange req with
  | None => false
  | Some capRange =>
      (0 <? LimitBytes capRange)
      && (LimitBytes capRange <? RoundUpBytes (RequiredBytes capRange))
  end.

(** The checks [CreateVolume] makes before it looks the volume up all
    pass. *)
Definition reachesLookup (req : CreateVolumeRequest) : bool :=
  negb (String.length (cv_Name req) =? 0)%nat
  && negb (exceedsLimit req)
  && negb (length (cv_VolumeCapabilities req) =? 0)%nat
  && isValidVolumeCapabilities (cv_VolumeCapabilities req).

(** The checks [CreateSnapshot] makes before it looks the snapshot up. *)
Definition reachesSnapshotLookup (req : CreateSnapshotRequest) : bool :=
  negb (String.length (cs_Name req) =? 0)%nat
  && negb (String.length (cs_SourceVolumeId req) =? 0)%nat.

(** The checks [ControllerPublishVolume] makes before any backend call. *)
Definition publishRequestValid (req : ControllerPublishVolumeRequest) : bool :=
  negb (String.length (cp_VolumeId req) =? 0)%nat
  && negb (String.length (cp_NodeId req) =? 0)%nat
  && match cp_VolumeCapability req with
     | None => false
     | Some volCap => isValidVolumeCapabilities [volCap]
     end.

End Paths.

(** The calls a run made: those logged in [w'] after the ones of [w]. *)
Definition callsSince {S} (w w' : World S) : list Call :=
  drop (length (calls w)) (calls w').

(** The world after one more backend call [c] that left the backend in
    state [s']. *)
Definition logged {S} (w : World S) (c : Call) (s' : S) : World S :=
  mkWorld s' (calls w ++ [c]).

(** The Go convention for a result tuple: the record is nil exactly when
    the error is not. *)
Definition conventional {A} (r : option A * option error) : Prop :=
  fst r = None <-> snd r <> None.

(** ** An in-memory backend *)

(** Modelled from the spec: the remote storage backend, which is outside
    controller.go.  Volumes and snapshots are kept by name, as the spec's
    backend collaborator interface describes them: a by-name lookup answers
    disk, not-found, multiple-found or size-mismatch; deleting what is not
    there answers not-found; attaching an attached volume answers
    already-exists. *)
Module Fake.

Record State : Type := mkState {
  disks : list (string * Disk);
  snapshots : list (string * cloud_Snapshot);
  instances : list string;
  attachments : list (string * string)
}.

Definition named {A} (name : string) (l : list (string * A)) : list A :=
  map snd (filter (fun p => bool_decide (fst p = name)) l).

Definition getDiskByName (name : string) (capacityBytes : Z) (s : State)
  : (option Disk * option error) * State :=
  match named name (disks s) with
  | [] => ((None, Some ErrNotFound), s)
  | [d] =>
      if GiBToBytes (CapacityGiB d) =? capacityBytes
      then ((Some d, None), s)
      else ((None, Some ErrDiskExistsDiffSize), s)
  | _ => ((None, Some ErrMultiDisks), s)
  end.

Definition createDisk (name : string) (opts : DiskOptions) (s : State)
  : (option Disk * option error) * State :=
  let d := {| VolumeID := "vol-" +:+ name;
              CapacityGiB := do_CapacityBytes opts / GiB;
              AvailabilityZone := do_AvailabilityZone opts;
              FsType := "" |} in
  ((Some d, None),
   {| disks := disks s ++ [(name, d)];
      snapshots := snapshots s;
      instances := instances s;
      attachments := attachments s |}).

Definition hasDisk (volumeID : string) (s : State) : bool :=
  existsb (fun p => bool_decide (VolumeID (snd p) = volumeID)) (disks s).

Definition deleteDisk (volumeID : string) (s : State)
  : (bool * option error) * State :=
  if hasDisk volumeID s then
    ((true, None),
     {| disks := filter (fun p => negb (bool_decide (VolumeID (snd p) = volumeID)))
                   (disks s);
        snapshots := snapshots s;
        instances := instances s;
        attachments := attachments s |})
  else ((false, Some ErrNotFound), s).

Definition getDiskByID (volumeID : string) (s : State)
  : (option Disk * option error) * State :=
  match filter (fun p => bool_decide (VolumeID (snd p) = volumeID)) (disks s) with
  | [] => ((None, Some ErrNotFound), s)
  | p :: _ => ((Some (snd p), None), s)
  end.

Definition isExistInstance (nodeID : string) (s : State) : bool * State :=
  (bool_decide (nodeID ∈ instances s), s).

Definition attachDisk (volumeID nodeID : string) (s : State)
  : (string * option error) * State :=
  if existsb (fun p => bool_decide (fst p = volumeID)) (attachments s) then
    (("", Some ErrAlreadyExists), s)
  else
    (("/dev/xvdba", None),
     {| disks := disks s;
        snapshots := snapshots s;
        instances := instances s;
        attachments := (volumeID, nodeID) :: attachments s |}).

Definition detachDisk (volumeID nodeID : string) (s : State)
  : option error * State :=
  (None,
   {| disks := disks s;
      snapshots := snapshots s;
      instances := instances s;
      attachments :=
        filter (fun p => negb (bool_decide (p = (volumeID, nodeID)))) (attachments s) |}).

Definition getSnapshotByName (name : string) (s : State)
  : (option cloud_Snapshot * option error) * State :=
  match named name (snapshots s) with
  | [] => ((None, Some ErrNotFound), s)
  | snap :: _ => ((Some snap, None), s)
  end.

Definition createSnapshot (volumeID : string) (opts : SnapshotOptions) (s : State)
  : (option cloud_Snapshot * option error) * State :=
  match map_to_list (so_Tags opts) with
  | [(_, name)] =>
      let snap := {| SnapshotID := "snap-" +:+ name;
                     SourceVolumeID := volumeID;
                     Size := 0;
                     CreationTime := {| Unix := 1540000000; Nanosecond := 0 |};
                     ReadyToUse := false |} in
      ((Some snap, None),
       {| disks := disks s;
          snapshots := snapshots s ++ [(name, snap)];
          instances := instances s;
          attachments := attachments s |})
  | _ => ((None, Some (ErrOther "snapshot name tag missing")), s)
  end.

Definition deleteSnapshot (snapshotID : string) (s : State)
  : (bool * option error) * State :=
  if existsb (fun p => bool_decide (SnapshotID (snd p) = snapshotID)) (snapshots s) then
    ((true, None),
     {| disks := disks s;
        snapshots :=
          filter (fun p => negb (bool_decide (SnapshotID (snd p) = snapshotID)))
            (snapshots s);
        instances := instances s;
        attachments := attachments s |})
  else ((false, Some ErrNotFound), s).

Definition cloud : Cloud State :=
  {| GetDiskByName := getDiskByName;
     CreateDisk := createDisk;
     DeleteDisk := deleteDisk;
     AttachDisk := attachDisk;
     DetachDisk := detachDisk;
     IsExistInstance := isExistInstance;
     GetDiskByID := getDiskByID;
     GetSnapshotByName := getSnapshotByName;
     CreateSnapshot_ := createSnapshot;
     DeleteSnapshot_ := deleteSnapshot |}.

Definition empty : State :=
  {| disks := []; snapshots := []; instances := ["i-1"]; attachments := [] |}.

(** Values for the constants of the driver, for running the handlers. *)
Definition constants : Constants :=
  {| FsTypeKey := "fstype";
     VolumeTypeKey := "type";
     IopsPerGBKey := "iopsPerGB";
     EncryptedKey := "encrypted";
     KmsKeyIdKey := "kmsKeyId";
     TopologyKey := "topology.ebs.csi.aws.com/zone";
     DevicePathKey := "devicePath";
     VolumeTypeIO1 := "io1";
     VolumeNameTagKey := "CSIVolumeName";
     SnapshotNameTagKey := "CSIVolumeSnapshotName";
     DefaultVolumeSize := 100 * GiB |}.

Definition start : World State := mkWorld empty [].

Definition writer : VolumeCapability :=
  {| AccessMode := Some {| Mode := VolumeCapability_AccessMode_SINGLE_NODE_WRITER |} |}.

Definition multiWriter : VolumeCapability :=
  {| AccessMode := Some {| Mode := VolumeCapability_AccessMode_MULTI_NODE_MULTI_WRITER |} |}.

(** A create-volume request for [name] with the given capacity range. *)
Definition createReq (name : string) (range : option CapacityRange)
  : CreateVolumeRequest :=
  {| cv_Name := name;
     cv_CapacityRange := range;
     cv_VolumeCapabilities := [writer];
     cv_Parameters := {[ "fstype" := "ext4" ]};
     cv_VolumeContentSource := None;
     cv_AccessibilityRequirements :=
       Some {| Requisite := [ {| Segments := {[ "topology.ebs.csi.aws.com/zone" := "b" ]} |} ];
               Preferred := [ {| Segments := {[ "topology.ebs.csi.aws.com/zone" := "a" ]} |} ] |} |}.

(** A world with one volume and two snapshots of it: one still pending,
    and one whose creation time is the first instant of year 10000. *)
Definition volume1 : Disk :=
  {| VolumeID := "vol-1"; CapacityGiB := 1; AvailabilityZone := "a"; FsType := "xfs" |}.

Definition pendingSnapshot : cloud_Snapshot :=
  {| SnapshotID := "snap-1";
     SourceVolumeID := "vol-1";
     Size := GiB;
     CreationTime := {| Unix := 1540000000; Nanosecond := 0 |};
     ReadyToUse := false |}.

Definition lateSnapshot : cloud_Snapshot :=
  {| SnapshotID := "snap-2";
     SourceVolumeID := "vol-1";
     Size := GiB;
     CreationTime := {| Unix := 253402300800; Nanosecond := 0 |};
     ReadyToUse := true |}.

Definition populated : World State :=
  mkWorld
    {| disks := [("one", volume1)];
       snapshots := [("pending", pendingSnapshot); ("late", lateSnapshot)];
       instances := ["i-1"];
       attachments := [] |}
    [].

Definition snapshotReq (name volumeID : string) : CreateSnapshotRequest :=
  {| cs_Name := name; cs_SourceVolumeId := volumeID |}.

Definition publishReq (volumeID nodeID : string) (cap : VolumeCapability)
  : ControllerPublishVolumeRequest :=
  {| cp_VolumeId := volumeID; cp_NodeId := nodeID; cp_VolumeCapability := Some cap |}.

End Fake.

(** ** Specification vocabulary for the zone selector *)

Section ZoneSpec.

Variable K : Constants.

(** The zone a topology carries under the zone key, if any. *)
Definition zoneOf (t : Topology) : option string :=
  Segments t !! TopologyKey K.

(** [zone] is the value of the first entry of [ts] that carries a zone, and
    that entry is at position [i]. *)
Definition firstZoneAt (ts : list Topology) (i : nat) (zone : string) : Prop :=
  (exists t, ts !! i = Some t /\ zoneOf t = Some zone)
  /\ forall j t, (j < i)%nat -> ts !! j = Some t -> zoneOf t = None.

(** No entry of [ts] carries a zone. *)
Definition noZone (ts : list Topology) : Prop :=
  forall t, t ∈ ts -> zoneOf t = None.

End ZoneSpec.

(** ** Handlers that make no backend call *)

Record ControllerServiceCapability_RPC : Type := mkControllerServiceCapability_RPC {
  rpc_Type : ControllerServiceCapability_RPC_Type
}.

(** The [Type] oneof of a controller capability; its only variant holds a
    pointer to the RPC capability. *)
Inductive ControllerServiceCapability_Type : Type :=
| ControllerServiceCapability_Rpc (Rpc : option ControllerServiceCapability_RPC).

Record ControllerServiceCapability : Type := mkControllerServiceCapability {
  csc_Type : option ControllerServiceCapability_Type
}.

(** The requests of these handlers are only logged, none of their fields is
    read; the responses of the unimplemented ones are never built. *)
Record ControllerGetCapabilitiesRequest : Type := mkControllerGetCapabilitiesRequest { }.

Record ControllerGetCapabilitiesResponse : Type := mkControllerGetCapabilitiesResponse {
  Capabilities : list ControllerServiceCapability
}.

Record GetCapacityRequest : Type := mkGetCapacityRequest { }.
Record GetCapacityResponse : Type := mkGetCapacityResponse { }.
Record ListVolumesRequest : Type := mkListVolumesRequest { }.
Record ListVolumesResponse : Type := mkListVolumesResponse { }.
Record ListSnapshotsRequest : Type := mkListSnapshotsRequest { }.
Record ListSnapshotsResponse : Type := mkListSnapshotsResponse { }.

Section Static.

Context {S : Type}.

(** The loop appends one wrapped capability per element of
    [controllerCaps]. *)
Definition ControllerGetCapabilities (req : ControllerGetCapabilitiesRequest)
  : M S ControllerGetCapabilitiesResponse :=
  let caps :=
    fold_left
      (fun (caps : list ControllerServiceCapability) cap =>
         let c := {| csc_Type :=
                       Some (ControllerServiceCapability_Rpc
                               (Some {| rpc_Type := cap |})) |} in
         (caps ++ [c])%list)
      controllerCaps [] in
  ret {| Capabilities := caps |}.

Definition GetCapacity (req : GetCapacityRequest) : M S GetCapacityResponse :=
  throw (status_Error Unimplemented (Msg "")).

Definition ListVolumes (req : ListVolumesRequest) : M S ListVolumesResponse :=
  throw (status_Error Unimplemented (Msg "")).

Definition ListSnapshots (req : ListSnapshotsRequest) : M S ListSnapshotsResponse :=
  throw (status_Error Unimplemented (Msg "")).

End Static.

(** ** A backend that breaks the result convention *)

(** The in-memory backend, except that its two creation calls answer
    neither a record nor an error. *)
Module Faulty.

Definition cloud : Cloud Fake.State :=
  {| GetDiskByName := Fake.getDiskByName;
     CreateDisk := fun _ _ s => ((None, None), s);
     DeleteDisk := Fake.deleteDisk;
     AttachDisk := Fake.attachDisk;
     DetachDisk := Fake.detachDisk;
     IsExistInstance := Fake.isExistInstance;
     GetDiskByID := Fake.getDiskByID;
     GetSnapshotByName := Fake.getSnapshotByName;
     CreateSnapshot_ := fun _ _ s => ((None, None), s);
     DeleteSnapshot_ := Fake.deleteSnapshot |}.

End Faulty.

(** A backend that cannot be reached: every call that can fail fails with
    the same error, and no instance is known. *)
Module Offline.

Definition unreachable : error := ErrOther "backend unreachable".

Definition cloud : Cloud unit :=
  {| GetDiskByName := fun _ _ s => ((None, Some unreachable), s);
     CreateDisk := fun _ _ s => ((None, Some unreachable), s);
     DeleteDisk := fun _ s => ((false, Some unreachable), s);
     AttachDisk := fun _ _ s => (("", Some unreachable), s);
     DetachDisk := fun _ _ s => (Some unreachable, s);
     IsExistInstance := fun _ s => (false, s);
     GetDiskByID := fun _ s => ((None, Some unreachable), s);
     GetSnapshotByName := fun _ s => ((None, Some unreachable), s);
     CreateSnapshot_ := fun _ _ s => ((None, Some unreachable), s);
     DeleteSnapshot_ := fun _ s => ((false, Some unreachable), s) |}.

Definition start : World unit := mkWorld tt [].

End Offline.

(** Requests for running the create path. *)
Module Samples.

(** A create-volume request for [name] with the given parameters and content
    source, the default size and no topology requirement. *)
Definition createWith (name : string) (params : gmap string string)
    (source : option VolumeContentSource) : CreateVolumeRequest :=
  {| cv_Name := name;
     cv_CapacityRange := None;
     cv_VolumeCapabilities := [Fake.writer];
     cv_Parameters := params;
     cv_VolumeContentSource := source;
     cv_AccessibilityRequirements := None |}.

(** The volume type io1 without the IOPS parameter. *)
Definition io1NoIops : CreateVolumeRequest :=
  createWith "v" {[ "type" := "io1" ]} None.

(** An encrypted parameter that is not the string "true", with a key id. *)
Definition encryptedCapital : CreateVolumeRequest :=
  createWith "v" {[ "encrypted" := "True"; "kmsKeyId" := "key-1" ]} None.

(** A content source that is a volume, not a snapshot. *)
Definition fromVolume : CreateVolumeRequest :=
  createWith "v" ∅ (Some (VolumeContentSource_Volume (Some {| SourceVolume := "vol-1" |}))).

(** The options [encryptedCapital] is created with. *)
Definition encryptedCapitalOptions : DiskOptions :=
  {| do_CapacityBytes := 100 * GiB;
     do_Tags := {[ "CSIVolumeName" := "v" ]};
     do_VolumeType := "";
     do_IOPSPerGB := 0;
     do_AvailabilityZone := "";
     do_Encrypted := false;
     do_KmsKeyID := "";
     do_SnapshotID := "" |}.

(** A replay of the volume "one" that asks for io1 without IOPS, from a
    volume source, with the filesystem type of [Fake.createReq]. *)
Definition replayOne : CreateVolumeRequest :=
  {| cv_Name := "one";
     cv_CapacityRange := Some {| RequiredBytes := 1; LimitBytes := 0 |};
     cv_VolumeCapabilities := [Fake.writer];
     cv_Parameters := {[ "type" := "io1"; "fstype" := "ext4" ]};
     cv_VolumeContentSource :=
       Some (VolumeContentSource_Volume (Some {| SourceVolume := "vol-1" |}));
     cv_AccessibilityRequirements := None |}.

End Samples.

(** ** Specification vocabulary for the creation options *)

Section OptionsSpec.

Variable K : Constants.

(** The request has no volume content source, or one that names a
    snapshot. *)
Definition sourceAccepted (req : CreateVolumeRequest) : Prop :=
  cv_VolumeContentSource req = None
  \/ exists s, cv_VolumeContentSource req = Some (VolumeContentSource_Snapshot (Some s)).

(** The volume type is not io1, or the IOPS parameter parses. *)
Definition iopsAccepted (req : CreateVolumeRequest) : Prop :=
  index (cv_Parameters req) (VolumeTypeKey K) = VolumeTypeIO1 K ->
  snd (Atoi (index (cv_Parameters req) (IopsPerGBKey K))) = None.

(** The lookup returned no volume and no error other than not-found. *)
Definition absent {A} (r : option A * option error) : Prop :=
  fst r = None /\ (snd r = None \/ snd r = Some ErrNotFound).

(** What the options of a creation call hold for a request and a size. *)
Definition creationOptions (req : CreateVolumeRequest) (volSizeBytes : Z)
    (opts : DiskOptions) : Prop :=
  let params := cv_Parameters req in
  (do_CapacityBytes opts = volSizeBytes
   /\ do_Tags opts = {[ VolumeNameTagKey K := cv_Name req ]}
   /\ do_AvailabilityZone opts =
        pickAvailabilityZone K (cv_AccessibilityRequirements req)
   /\ do_VolumeType opts = index params (VolumeTypeKey K))
  /\ ((index params (VolumeTypeKey K) <> VolumeTypeIO1 K -> do_IOPSPerGB opts = 0)
      /\ (index params (VolumeTypeKey K) = VolumeTypeIO1 K ->
          Atoi (index params (IopsPerGBKey K)) = (do_IOPSPerGB opts, None)))
  /\ (do_Encrypted opts = bool_decide (index params (EncryptedKey K) = "true")
      /\ do_KmsKeyID opts =
           if bool_decide (index params (EncryptedKey K) = "true")
           then index params (KmsKeyIdKey K) else "")
  /\ ((cv_VolumeContentSource req = None /\ do_SnapshotID opts = "")
      \/ (exists s, cv_VolumeContentSource req
                    = Some (VolumeContentSource_Snapshot (Some s))
                    /\ do_SnapshotID opts = SnapshotId s)).

End OptionsSpec.

(** The access mode of a capability is one of the supported ones. *)
Definition supported (cap : VolumeCapability) : Prop :=
  exists c, c ∈ volumeCaps /\ Mode c = GetMode (AccessMode cap).

(** * Properties *)

(** ** The zone selector *)

Section ZoneProofs.

Variable K : Constants.

Lemma scanZone_omap (ts : list Topology) :
  scanZone K ts = head (omap (zoneOf K) ts).
Proof.
  induction ts as [|t ts IH]; simpl; [reflexivity|].
  unfold zoneOf at 1. destruct (Segments t !! TopologyKey K); simpl; auto.
Qed.

Lemma scanZone_first (ts : list Topology) (i : nat) (zone : string) :
  firstZoneAt K ts i zone -> scanZone K ts = Some zone.
Proof.
  revert i. induction ts as [|t ts IH]; intros i [[t' [Hi Hz]] Hbefore].
  - rewrite lookup_nil in Hi. discriminate.
  - destruct i as [|i]; simpl in *.
    + injection Hi as ->. unfold zoneOf in Hz. rewrite Hz. reflexivity.
    + pose proof (Hbefore 0%nat t ltac:(lia) eq_refl) as H0.
      unfold zoneOf in H0. rewrite H0.
      apply (IH i). split; [eauto|].
      intros j u Hj Hu. apply (Hbefore (Datatypes.S j) u); [lia|exact Hu].
Qed.

Lemma scanZone_none (ts : list Topology) :
  noZone K ts <-> scanZone K ts = None.
Proof.
  induction ts as [|t ts IH]; simpl.
  - split; [reflexivity|]. intros _ t Ht. inversion Ht.
  - split.
    + intros Hno. pose proof (Hno t ltac:(left)) as Ht. unfold zoneOf in Ht.
      rewrite Ht. apply IH. intros u Hu. apply Hno. right. exact Hu.
    + destruct (Segments t !! TopologyKey K) eqn:E; [discriminate|].
      intros Hs u Hu. inversion Hu; subst; [exact E|]. apply IH; assumption.
Qed.

(** Every sequence either has a first zone-bearing entry or has none. *)
Lemma scanZone_cases (ts : list Topology) :
  (exists i zone, firstZoneAt K ts i zone) \/ noZone K ts.
Proof.
  induction ts as [|t ts IH].
  - right. intros t Ht. inversion Ht.
  - destruct (zoneOf K t) as [z|] eqn:E.
    + left. exists 0%nat, z. split; [exists t; auto|]. intros j u Hj. lia.
    + destruct IH as [(i & z & [[u [Hu Hz]] Hb])|Hno].
      * left. exists (Datatypes.S i), z. split; [exists u; auto|].
        intros [|j] v Hj Hv; simpl in Hv.
        -- injection Hv as <-. exact E.
        -- apply (Hb j v); [lia|exact Hv].
      * right. intros u Hu. inversion Hu; subst; [exact E|]. apply Hno; assumption.
Qed.

(** C6. The zone selector returns the first zone value found under the zone
    key in the preferred sequence, scanned in order; if the preferred
    sequence carries none, the first one found in the requisite sequence; and
    the empty string if neither carries one or the requirement is absent.
    Equivalently it is the head of the zone values of preferred followed by
    those of requisite, so preferred takes precedence over requisite. *)
Theorem pickAvailabilityZone_first_match (requirement : option TopologyRequirement) :
  (requirement = None -> pickAvailabilityZone K requirement = "")
  /\ (forall r, requirement = Some r ->
        (forall i zone, firstZoneAt K (Preferred r) i zone ->
           pickAvailabilityZone K requirement = zone)
        /\ (noZone K (Preferred r) ->
            forall i zone, firstZoneAt K (Requisite r) i zone ->
              pickAvailabilityZone K requirement = zone)
        /\ (noZone K (Preferred r) -> noZone K (Requisite r) ->
            pickAvailabilityZone K requirement = "")
        /\ pickAvailabilityZone K requirement =
             default "" (head (omap (zoneOf K) (Preferred r)
                               ++ omap (zoneOf K) (Requisite r)))).
Proof.
  split; [intros ->; reflexivity|].
  intros r ->. unfold pickAvailabilityZone. repeat split.
  - intros i zone H. rewrite (scanZone_first _ _ _ H). reflexivity.
  - intros Hno i zone H. apply scanZone_none in Hno.
    rewrite Hno, (scanZone_first _ _ _ H). reflexivity.
  - intros Hp Hr. apply scanZone_none in Hp. apply scanZone_none in Hr.
    rewrite Hp, Hr. reflexivity.
  - rewrite !scanZone_omap.
    destruct (omap (zoneOf K) (Preferred r)) as [|z zs]; simpl; [|reflexivity].
    destruct (head (omap (zoneOf K) (Requisite r))); reflexivity.
Qed.

(** The three selections the specification lists. *)
Example pickAvailabilityZone_preferred_first :
  pickAvailabilityZone K
    (Some {| Requisite := [ {| Segments := {[ TopologyKey K := "b" ]} |} ];
             Preferred := [ {| Segments := {[ TopologyKey K := "a" ]} |} ] |}) = "a".
Proof. unfold pickAvailabilityZone. simpl. rewrite lookup_singleton_eq. reflexivity. Qed.

Example pickAvailabilityZone_requisite_only :
  pickAvailabilityZone K
    (Some {| Requisite := [ {| Segments := {[ TopologyKey K := "b" ]} |} ];
             Preferred := [] |}) = "b".
Proof. unfold pickAvailabilityZone. simpl. rewrite lookup_singleton_eq. reflexivity. Qed.

Example pickAvailabilityZone_neither :
  pickAvailabilityZone K None = ""
  /\ pickAvailabilityZone K (Some {| Requisite := []; Preferred := [] |}) = "".
Proof. split; reflexivity. Qed.

End ZoneProofs.

Lemma pickAvailabilityZone_first_match_witness :
  pickAvailabilityZone Fake.constants
    (cv_AccessibilityRequirements (Fake.createReq "v" None)) = "a".
Proof.
  pose proof (pickAvailabilityZone_first_match Fake.constants
                (cv_AccessibilityRequirements (Fake.createReq "v" None))) as [_ H].
  destruct (H _ eq_refl) as [Hpref _].
  apply (Hpref 0%nat "a").
  split.
  - eexists. split; [reflexivity|]. vm_compute. reflexivity.
  - intros j t Hj. lia.
Defined.

(** ** Running handlers *)

Lemma length_zero_empty (s : string) : (String.length s =? 0)%nat = true <-> s = "".
Proof.
  destruct s; simpl; split; intros H; try reflexivity; discriminate.
Qed.

Lemma length_nonzero (s : string) : s <> "" -> (String.length s =? 0)%nat = false.
Proof. destruct s; [congruence|reflexivity]. Qed.

Lemma callsSince_logged {S} (w : World S) (cs : list Call) (s' : S) :
  callsSince w (mkWorld s' (calls w ++ cs)) = cs.
Proof. unfold callsSince. simpl. apply drop_app_length. Qed.

Lemma callsSince_refl {S} (w : World S) : callsSince w w = [].
Proof. unfold callsSince. apply drop_all. Qed.

Lemma callsSince_logged1 {S} (w : World S) (c : Call) (s1 : S) :
  callsSince w (logged w c s1) = [c].
Proof. apply callsSince_logged. Qed.

Lemma callsSince_logged2 {S} (w : World S) (c1 c2 : Call) (s1 s2 : S) :
  callsSince w (logged (logged w c1 s1) c2 s2) = [c1; c2].
Proof.
  unfold logged. simpl. rewrite <- app_assoc. apply callsSince_logged.
Qed.

Ltac step := unfold bind, check, invoke, throw, ret, panic, logged; simpl.

(** ** Deletion *)

Section DeleteProofs.

Context {S : Type}.
Variable cloud : Cloud S.

Lemma DeleteVolume_run (req : DeleteVolumeRequest) (w : World S) :
  dv_VolumeId req <> "" ->
  DeleteVolume cloud req w =
    (match snd (fst (DeleteDisk cloud (dv_VolumeId req) (backend w))) with
     | None => Ok mkDeleteVolumeResponse
     | Some err =>
         if bool_decide (err = ErrNotFound) then Ok mkDeleteVolumeResponse
         else Err (status_Errorf Internal "Could not delete volume ID %q: %v"
                     [ArgString (dv_VolumeId req); ArgError err])
     end,
     logged w (CallDeleteDisk (dv_VolumeId req))
       (snd (DeleteDisk cloud (dv_VolumeId req) (backend w)))).
Proof.
  intros Hid. unfold DeleteVolume. step. rewrite (length_nonzero _ Hid). simpl.
  destruct (DeleteDisk cloud (dv_VolumeId req) (backend w)) as [[ok err] s'].
  simpl. destruct err as [err|]; [|reflexivity].
  destruct (bool_decide (err = ErrNotFound)); reflexivity.
Qed.

Lemma DeleteSnapshot_run (req : DeleteSnapshotRequest) (w : World S) :
  ds_SnapshotId req <> "" ->
  DeleteSnapshot cloud req w =
    (match snd (fst (DeleteSnapshot_ cloud (ds_SnapshotId req) (backend w))) with
     | None => Ok mkDeleteSnapshotResponse
     | Some err =>
         if bool_decide (err = ErrNotFound) then Ok mkDeleteSnapshotResponse
         else Err (status_Errorf Internal "Could not delete snapshot ID %q: %v"
                     [ArgString (ds_SnapshotId req); ArgError err])
     end,
     logged w (CallDeleteSnapshot (ds_SnapshotId req))
       (snd (DeleteSnapshot_ cloud (ds_SnapshotId req) (backend w)))).
Proof.
  intros Hid. unfold DeleteSnapshot. step. rewrite (length_nonzero _ Hid). simpl.
  destruct (DeleteSnapshot_ cloud (ds_SnapshotId req) (backend w)) as [[ok err] s'].
  simpl. destruct err as [err|]; [|reflexivity].
  destruct (bool_decide (err = ErrNotFound)); reflexivity.
Qed.

(** C5. For a non-empty volume id or snapshot id, the delete handlers answer
    the empty response when the backend delete reports not-found (or no
    error), and answer an error, of code Internal, exactly when the backend
    reports another failure.  So a delete repeated on a resource that is
    already removed, where the backend reports not-found, succeeds again. *)
Theorem delete_not_found_succeeds (w : World S) :
  (forall req, dv_VolumeId req <> "" ->
     let err := snd (fst (DeleteDisk cloud (dv_VolumeId req) (backend w))) in
     (err = Some ErrNotFound \/ err = None ->
        fst (DeleteVolume cloud req w) = Ok mkDeleteVolumeResponse)
     /\ (forall e, fst (DeleteVolume cloud req w) = Err e ->
           status_Code e = Internal
           /\ exists err', err = Some err' /\ err' <> ErrNotFound)
     /\ (forall err', err = Some err' -> err' <> ErrNotFound ->
           exists m, fst (DeleteVolume cloud req w) = Err (StatusError Internal m))
     /\ (forall w1,
           w1 = snd (DeleteVolume cloud req w) ->
           snd (fst (DeleteDisk cloud (dv_VolumeId req) (backend w1)))
             = Some ErrNotFound ->
           fst (DeleteVolume cloud req w1) = Ok mkDeleteVolumeResponse))
  /\ (forall req, ds_SnapshotId req <> "" ->
     let err := snd (fst (DeleteSnapshot_ cloud (ds_SnapshotId req) (backend w))) in
     (err = Some ErrNotFound \/ err = None ->
        fst (DeleteSnapshot cloud req w) = Ok mkDeleteSnapshotResponse)
     /\ (forall e, fst (DeleteSnapshot cloud req w) = Err e ->
           status_Code e = Internal
           /\ exists err', err = Some err' /\ err' <> ErrNotFound)
     /\ (forall err', err = Some err' -> err' <> ErrNotFound ->
           exists m, fst (DeleteSnapshot cloud req w) = Err (StatusError Internal m))
     /\ (forall w1,
           w1 = snd (DeleteSnapshot cloud req w) ->
           snd (fst (DeleteSnapshot_ cloud (ds_SnapshotId req) (backend w1)))
             = Some ErrNotFound ->
           fst (DeleteSnapshot cloud req w1) = Ok mkDeleteSnapshotResponse)).
Proof.
  split; intros req Hid err.
  - repeat split.
    + intros H. rewrite (DeleteVolume_run req w Hid). simpl. fold err.
      destruct H as [-> | ->]; reflexivity.
    + revert H. rewrite (DeleteVolume_run req w Hid). simpl. fold err.
      destruct err as [e'|]; [|discriminate].
      destruct (bool_decide (e' = ErrNotFound)); [discriminate|].
      intros [= <-]. reflexivity.
    + revert H. rewrite (DeleteVolume_run req w Hid). simpl. fold err.
      destruct err as [e'|]; [|discriminate].
      destruct (bool_decide_reflect (e' = ErrNotFound)); [discriminate|].
      intros _. eauto.
    + intros err' Herr Hne. rewrite (DeleteVolume_run req w Hid). simpl. fold err.
      rewrite Herr. rewrite bool_decide_eq_false_2 by exact Hne. eauto.
    + intros w1 _ H1. rewrite (DeleteVolume_run req w1 Hid). simpl.
      rewrite H1. reflexivity.
  - repeat split.
    + intros H. rewrite (DeleteSnapshot_run req w Hid). simpl. fold err.
      destruct H as [-> | ->]; reflexivity.
    + revert H. rewrite (DeleteSnapshot_run req w Hid). simpl. fold err.
      destruct err as [e'|]; [|discriminate].
      destruct (bool_decide (e' = ErrNotFound)); [discriminate|].
      intros [= <-]. reflexivity.
    + revert H. rewrite (DeleteSnapshot_run req w Hid). simpl. fold err.
      destruct err as [e'|]; [|discriminate].
      destruct (bool_decide_reflect (e' = ErrNotFound)); [discriminate|].
      intros _. eauto.
    + intros err' Herr Hne. rewrite (DeleteSnapshot_run req w Hid). simpl. fold err.
      rewrite Herr. rewrite bool_decide_eq_false_2 by exact Hne. eauto.
    + intros w1 _ H1. rewrite (DeleteSnapshot_run req w1 Hid). simpl.
      rewrite H1. reflexivity.
Qed.

End DeleteProofs.

(** ** Capability negotiation *)

Lemma foundAll_false (volCaps : list VolumeCapability) :
  fold_left (fun foundAll c => if negb (hasSupport c) then false else foundAll)
    volCaps false = false.
Proof.
  induction volCaps as [|c cs IH]; simpl; [reflexivity|].
  destruct (negb (hasSupport c)); exact IH.
Qed.

Lemma hasSupport_supported (cap : VolumeCapability) :
  hasSupport cap = true <-> supported cap.
Proof.
  unfold hasSupport, supported. rewrite existsb_exists. split.
  - intros (c & Hin & Heq). apply bool_decide_eq_true in Heq.
    exists c. split; [apply list_elem_of_In; exact Hin|exact Heq].
  - intros (c & Hin & Heq). exists c. split; [apply list_elem_of_In; exact Hin|].
    apply bool_decide_eq_true. exact Heq.
Qed.

Lemma supported_single_node_writer (cap : VolumeCapability) :
  supported cap <->
  GetMode (AccessMode cap) = VolumeCapability_AccessMode_SINGLE_NODE_WRITER.
Proof.
  unfold supported, volumeCaps. split.
  - intros (c & Hin & Heq). apply list_elem_of_singleton in Hin. subst c.
    symmetry. exact Heq.
  - intros H. eexists. split; [apply list_elem_of_singleton; reflexivity|].
    simpl. symmetry. exact H.
Qed.

Lemma isValidVolumeCapabilities_Forall (volCaps : list VolumeCapability) :
  isValidVolumeCapabilities volCaps = true <-> Forall supported volCaps.
Proof.
  unfold isValidVolumeCapabilities.
  induction volCaps as [|c cs IH]; simpl.
  - split; [constructor|reflexivity].
  - destruct (hasSupport c) eqn:E; simpl.
    + rewrite IH. split.
      * intros H. constructor; [apply hasSupport_supported; exact E|exact H].
      * intros H. inversion H; assumption.
    + rewrite foundAll_false. split; [discriminate|].
      intros H. inversion H as [|? ? Hc _]; subst.
      apply hasSupport_supported in Hc. congruence.
Qed.

Section ValidateProofs.

Context {S : Type}.
Variable cloud : Cloud S.

(** C8. With a non-empty volume id and at least one capability: when the
    by-id lookup reports not-found the handler fails with a NotFound status;
    when the lookup finds the volume it answers without error, confirming
    the full requested capability list if every requested access mode is
    supported and confirming nothing otherwise. *)
Theorem ValidateVolumeCapabilities_confirms
    (req : ValidateVolumeCapabilitiesRequest) (w : World S) :
  vc_VolumeId req <> "" ->
  vc_VolumeCapabilities req <> [] ->
  let err := snd (fst (GetDiskByID cloud (vc_VolumeId req) (backend w))) in
  let run := ValidateVolumeCapabilities cloud req w in
  (err = Some ErrNotFound ->
     fst run = Err (StatusError NotFound (Msg "Volume not found")))
  /\ (err = None ->
      (Forall supported (vc_VolumeCapabilities req) ->
         fst run = Ok {| Confirmed :=
                           Some {| cf_VolumeCapabilities := vc_VolumeCapabilities req |} |})
      /\ (~ Forall supported (vc_VolumeCapabilities req) ->
         fst run = Ok {| Confirmed := None |})
      /\ (forall resp, fst run = Ok resp ->
            (Confirmed resp =
               Some {| cf_VolumeCapabilities := vc_VolumeCapabilities req |}
             <-> Forall supported (vc_VolumeCapabilities req))
            /\ (Confirmed resp = None
                <-> ~ Forall supported (vc_VolumeCapabilities req)))).
Proof.
  intros Hid Hcaps err run.
  assert (Hrun : run =
    (match err with
     | Some e =>
         if bool_decide (e = ErrNotFound)
         then Err (StatusError NotFound (Msg "Volume not found"))
         else Err (status_Errorf Internal "Could not get volume with ID %q: %v"
                     [ArgString (vc_VolumeId req); ArgError e])
     | None =>
         Ok {| Confirmed :=
                 if isValidVolumeCapabilities (vc_VolumeCapabilities req)
                 then Some {| cf_VolumeCapabilities := vc_VolumeCapabilities req |}
                 else None |}
     end,
     logged w (CallGetDiskByID (vc_VolumeId req))
       (snd (GetDiskByID cloud (vc_VolumeId req) (backend w))))).
  { subst run err. unfold ValidateVolumeCapabilities. step.
    rewrite (length_nonzero _ Hid). simpl.
    destruct (vc_VolumeCapabilities req) as [|c cs] eqn:Ecaps; [congruence|]. simpl.
    destruct (GetDiskByID cloud (vc_VolumeId req) (backend w)) as [[d e] s']. simpl.
    destruct e as [e|]; [|reflexivity].
    destruct (bool_decide (e = ErrNotFound)); reflexivity. }
  rewrite Hrun. simpl. split.
  - intros ->. reflexivity.
  - intros ->.
    destruct (isValidVolumeCapabilities (vc_VolumeCapabilities req)) eqn:E.
    + apply isValidVolumeCapabilities_Forall in E.
      split; [reflexivity|]. split; [intros Hn; contradiction|].
      intros resp [= <-]. simpl. split; split; intros H; try tauto; discriminate.
    + assert (Hn : ~ Forall supported (vc_VolumeCapabilities req)).
      { intros H. apply isValidVolumeCapabilities_Forall in H. congruence. }
      split; [intros H; contradiction|]. split; [reflexivity|].
      intros resp [= <-]. simpl. split; split; intros H; try tauto; discriminate.
Qed.

End ValidateProofs.

(** ** Attachment *)

Section PublishProofs.

Context {S : Type}.
Variable cloud : Cloud S.
Variable K : Constants.

Lemma ControllerPublishVolume_invalid (req : ControllerPublishVolumeRequest) (w : World S) :
  publishRequestValid req = false ->
  exists m, ControllerPublishVolume cloud K req w = (Err (StatusError InvalidArgument m), w).
Proof.
  unfold publishRequestValid, ControllerPublishVolume. step.
  destruct (String.length (cp_VolumeId req) =? 0)%nat; simpl; [eauto|].
  destruct (String.length (cp_NodeId req) =? 0)%nat; simpl; [eauto|].
  destruct (cp_VolumeCapability req) as [c|]; [|eauto].
  intros ->. simpl. eauto.
Qed.

Lemma ControllerPublishVolume_run (req : ControllerPublishVolumeRequest) (w : World S) :
  publishRequestValid req = true ->
  let volumeID := cp_VolumeId req in
  let nodeID := cp_NodeId req in
  let inst := IsExistInstance cloud nodeID (backend w) in
  let w1 := logged w (CallIsExistInstance nodeID) (snd inst) in
  let look := GetDiskByID cloud volumeID (snd inst) in
  let w2 := logged w1 (CallGetDiskByID volumeID) (snd look) in
  let att := AttachDisk cloud volumeID nodeID (snd look) in
  let w3 := logged w2 (CallAttachDisk volumeID nodeID) (snd att) in
  ControllerPublishVolume cloud K req w =
    if negb (fst inst) then
      (Err (status_Errorf NotFound "Instance %q not found" [ArgString nodeID]), w1)
    else
      match snd (fst look) with
      | Some e =>
          (if bool_decide (e = ErrNotFound)
           then Err (StatusError NotFound (Msg "Volume not found"))
           else Err (status_Errorf Internal "Could not get volume with ID %q: %v"
                       [ArgString volumeID; ArgError e]),
           w2)
      | None =>
          match snd (fst att) with
          | Some e =>
              (if bool_decide (e = ErrAlreadyExists)
               then Err (StatusError AlreadyExists (MsgError e))
               else Err (status_Errorf Internal
                           "Could not attach volume %q to node %q: %v"
                           [ArgString volumeID; ArgString nodeID; ArgError e]),
               w3)
          | None =>
              (Ok {| PublishContext := {[ DevicePathKey K := fst (fst att) ]} |}, w3)
          end
      end.
Proof.
  unfold publishRequestValid, ControllerPublishVolume. step.
  destruct (String.length (cp_VolumeId req) =? 0)%nat; simpl; [discriminate|].
  destruct (String.length (cp_NodeId req) =? 0)%nat; simpl; [discriminate|].
  destruct (cp_VolumeCapability req) as [c|]; [|discriminate].
  intros ->. simpl.
  destruct (IsExistInstance cloud (cp_NodeId req) (backend w)) as [ex s1]. simpl.
  destruct ex; simpl; [|reflexivity].
  destruct (GetDiskByID cloud (cp_VolumeId req) s1) as [[d e] s2]. simpl.
  destruct e as [e|]; simpl.
  { destruct (bool_decide (e = ErrNotFound)); reflexivity. }
  destruct (AttachDisk cloud (cp_VolumeId req) (cp_NodeId req) s2) as [[p e] s3]. simpl.
  destruct e as [e|]; simpl; [|reflexivity].
  destruct (bool_decide (e = ErrAlreadyExists)); reflexivity.
Qed.

(** C7. ControllerPublishVolume checks the capability shape first (an
    unsupported or missing capability is an InvalidArgument error and no
    backend call is made), then asks the backend whether the instance exists
    (NotFound if not), then looks the volume up by id (NotFound if the
    lookup reports not-found), and only then attaches.  An attach that
    reports already-exists is an AlreadyExists error; a successful attach
    answers the device path under the device-path key of the publish
    context.  The attach call is made only after the two existence calls, in
    that order. *)
Theorem ControllerPublishVolume_checks_before_attach
    (req : ControllerPublishVolumeRequest) (w : World S) :
  let volumeID := cp_VolumeId req in
  let nodeID := cp_NodeId req in
  let run := ControllerPublishVolume cloud K req w in
  let inst := IsExistInstance cloud nodeID (backend w) in
  let w1 := logged w (CallIsExistInstance nodeID) (snd inst) in
  let look := GetDiskByID cloud volumeID (snd inst) in
  let w2 := logged w1 (CallGetDiskByID volumeID) (snd look) in
  let att := AttachDisk cloud volumeID nodeID (snd look) in
  let w3 := logged w2 (CallAttachDisk volumeID nodeID) (snd att) in
  (forall c, cp_VolumeCapability req = Some c -> ~ supported c ->
     exists m, run = (Err (StatusError InvalidArgument m), w))
  /\ (publishRequestValid req = false ->
      exists m, run = (Err (StatusError InvalidArgument m), w))
  /\ (publishRequestValid req = true ->
      (fst inst = false -> exists m, run = (Err (StatusError NotFound m), w1))
      /\ (fst inst = true -> snd (fst look) = Some ErrNotFound ->
          exists m, run = (Err (StatusError NotFound m), w2))
      /\ (fst inst = true -> forall e, snd (fst look) = Some e -> e <> ErrNotFound ->
          exists m, run = (Err (StatusError Internal m), w2))
      /\ (fst inst = true -> snd (fst look) = None ->
          (snd (fst att) = Some ErrAlreadyExists ->
             exists m, run = (Err (StatusError AlreadyExists m), w3))
          /\ (forall e, snd (fst att) = Some e -> e <> ErrAlreadyExists ->
                exists m, run = (Err (StatusError Internal m), w3))
          /\ (snd (fst att) = None ->
                run = (Ok {| PublishContext := {[ DevicePathKey K := fst (fst att) ]} |},
                       w3))))
  /\ (existsb is_attach_disk (callsSince w (snd run)) = true ->
      publishRequestValid req = true
      /\ fst inst = true
      /\ snd (fst look) = None
      /\ callsSince w (snd run) =
           [CallIsExistInstance nodeID; CallGetDiskByID volumeID;
            CallAttachDisk volumeID nodeID]).
Proof.
  intros volumeID nodeID run inst w1 look w2 att w3.
  assert (Hinv : publishRequestValid req = false ->
                 exists m, run = (Err (StatusError InvalidArgument m), w)).
  { apply ControllerPublishVolume_invalid. }
  assert (Hrun := ControllerPublishVolume_run req w).
  cbv zeta in Hrun.
  fold volumeID nodeID inst in Hrun. fold w1 look in Hrun. fold w2 att in Hrun.
  fold w3 run in Hrun.
  split; [|split; [exact Hinv|split]].
  - intros c Hc Hns. apply Hinv. unfold publishRequestValid. rewrite Hc.
    destruct (isValidVolumeCapabilities [c]) eqn:E.
    + apply isValidVolumeCapabilities_Forall in E. inversion E; contradiction.
    + rewrite !andb_false_r. reflexivity.
  - intros Hv. specialize (Hrun Hv). rewrite Hrun.
    split; [|split; [|split]].
    + intros ->. simpl. eauto.
    + intros -> ->. simpl. eauto.
    + intros -> e -> Hne. simpl. rewrite bool_decide_eq_false_2 by exact Hne. eauto.
    + intros -> ->. simpl. split; [|split].
      * intros ->. simpl. eauto.
      * intros e -> Hne. rewrite bool_decide_eq_false_2 by exact Hne. eauto.
      * intros ->. reflexivity.
  - destruct (publishRequestValid req) eqn:Hv.
    + specialize (Hrun eq_refl). rewrite Hrun.
      assert (Hc1 : callsSince w w1 = [CallIsExistInstance nodeID]).
      { apply callsSince_logged. }
      assert (Hc2 : callsSince w w2 =
                    [CallIsExistInstance nodeID; CallGetDiskByID volumeID]).
      { unfold w2, w1, logged. simpl. rewrite <- app_assoc. apply callsSince_logged. }
      assert (Hc3 : callsSince w w3 =
                    [CallIsExistInstance nodeID; CallGetDiskByID volumeID;
                     CallAttachDisk volumeID nodeID]).
      { unfold w3, w2, w1, logged. simpl. rewrite <- !app_assoc.
        apply callsSince_logged. }
      destruct (fst inst); simpl.
      * destruct (snd (fst look)) as [e|]; simpl.
        { rewrite Hc2. simpl. discriminate. }
        destruct (snd (fst att)) as [e|]; simpl; rewrite Hc3; auto.
      * rewrite Hc1. simpl. discriminate.
    + destruct (Hinv eq_refl) as [m Hm]. rewrite Hm. simpl.
      rewrite callsSince_refl. simpl. discriminate.
Qed.

End PublishProofs.

(** ** Capacity rounding *)

Lemma wrap64_range (x : Z) : minInt64 <= wrap64 x <= maxInt64.
Proof.
  unfold wrap64, minInt64, maxInt64.
  pose proof (Z.mod_pos_bound (x + 2 ^ 63) (2 ^ 64) ltac:(reflexivity)). lia.
Qed.

Lemma wrap64_small (x : Z) : minInt64 <= x <= maxInt64 -> wrap64 x = x.
Proof.
  unfold wrap64, minInt64, maxInt64. intros H.
  rewrite Z.mod_small; lia.
Qed.

Lemma wrap64_congruent (x : Z) : exists k, wrap64 x = x + k * 2 ^ 64.
Proof.
  unfold wrap64. exists (- ((x + 2 ^ 63) / 2 ^ 64)).
  pose proof (Z.div_mod (x + 2 ^ 63) (2 ^ 64) ltac:(discriminate)). lia.
Qed.

(** Whatever the bytes, the rounded value is a multiple of the unit within
    the int64 range. *)
Lemma RoundUpBytes_multiple (x : Z) : (GiB | RoundUpBytes x).
Proof.
  unfold RoundUpBytes.
  destruct (wrap64_congruent (Z.quot (wrap64 (x + GiB - 1)) GiB * GiB)) as [k ->].
  exists (Z.quot (wrap64 (x + GiB - 1)) GiB + k * 2 ^ 34).
  unfold GiB. change (2 ^ 64) with (2 ^ 34 * (1024 * 1024 * 1024)). ring.
Qed.

Lemma RoundUpBytes_range (x : Z) : minInt64 <= RoundUpBytes x <= maxInt64.
Proof. apply wrap64_range. Qed.

(** Where no step of the rounding leaves the int64 range, it is the
    mathematical rounding. *)
Lemma RoundUpBytes_exact (x : Z) :
  0 <= x <= maxInt64 - GiB + 1 ->
  RoundUpBytes x = (x + GiB - 1) / GiB * GiB.
Proof.
  intros H. unfold RoundUpBytes.
  assert (HG : GiB = 1073741824) by reflexivity.
  assert (Hmax : maxInt64 = 9223372036854775807) by reflexivity.
  assert (Hmin : minInt64 = -9223372036854775808) by reflexivity.
  rewrite (wrap64_small (x + GiB - 1)) by lia.
  rewrite Z.quot_div_nonneg by lia.
  apply wrap64_small.
  pose proof (Z.mul_div_le (x + GiB - 1) GiB ltac:(lia)).
  assert (0 <= (x + GiB - 1) / GiB) by (apply Z.div_pos; lia).
  nia.
Qed.

Lemma RoundUpBytes_bounds (x : Z) :
  0 <= x <= maxInt64 - GiB + 1 -> x <= RoundUpBytes x < x + GiB.
Proof.
  intros H. rewrite (RoundUpBytes_exact x H).
  unfold GiB. Z.div_mod_to_equations. lia.
Qed.

Lemma RoundUpBytes_least (x m : Z) :
  0 <= x <= maxInt64 - GiB + 1 -> (GiB | m) -> x <= m -> RoundUpBytes x <= m.
Proof.
  intros H [k ->] Hx. pose proof (RoundUpBytes_bounds x H) as [_ Hlt].
  destruct (RoundUpBytes_multiple x) as [q Hq]. rewrite Hq in *.
  unfold GiB in *. nia.
Qed.

Lemma RoundUpBytes_fixed (x : Z) :
  0 <= x <= maxInt64 -> (GiB | x) -> RoundUpBytes x = x.
Proof.
  intros H Hd.
  assert (Hr : 0 <= x <= maxInt64 - GiB + 1).
  { destruct Hd as [k Hk]. unfold maxInt64, GiB in *.
    change (2 ^ 63) with 9223372036854775808 in *. nia. }
  pose proof (RoundUpBytes_bounds x Hr) as [Hle _].
  pose proof (RoundUpBytes_least x x Hr Hd ltac:(lia)). lia.
Qed.

(** ** CreateVolume *)

Section CreateVolumeProofs.

Context {S : Type}.
Variable cloud : Cloud S.
Variable K : Constants.

(** A request that fails one of the checks made before the lookup is refused
    as an invalid argument, and the backend is not called. *)
Lemma CreateVolume_rejects (req : CreateVolumeRequest) (w : World S) :
  reachesLookup req = false ->
  exists m, CreateVolume cloud K req w = (Err (StatusError InvalidArgument m), w).
Proof.
  unfold reachesLookup, exceedsLimit, CreateVolume. step.
  destruct (String.length (cv_Name req) =? 0)%nat; simpl; [eauto|].
  destruct (cv_CapacityRange req) as [capRange|]; simpl.
  - destruct ((0 <? LimitBytes capRange)
              && (LimitBytes capRange <? RoundUpBytes (RequiredBytes capRange)));
      simpl; [eauto|].
    destruct (length (cv_VolumeCapabilities req) =? 0)%nat; simpl; [eauto|].
    intros ->. simpl. eauto.
  - destruct (length (cv_VolumeCapabilities req) =? 0)%nat; simpl; [eauto|].
    intros ->. simpl. eauto.
Qed.

(** A request that passes the checks is looked up by its name and its
    normalised size; the outcome of the lookup decides the rest. *)
Lemma CreateVolume_lookup (req : CreateVolumeRequest) (w : World S) :
  reachesLookup req = true ->
  let volName := cv_Name req in
  let volSizeBytes := volSizeBytesOf K req in
  let look := GetDiskByName cloud volName volSizeBytes (backend w) in
  let w1 := logged w (CallGetDiskByName volName volSizeBytes) (snd look) in
  let fsType := index (cv_Parameters req) (FsTypeKey K) in
  let found :=
    match fst (fst look) with
    | Some disk => (Ok (newCreateVolumeResponse K (Disk_setFsType disk fsType)), w1)
    | None => createNewVolume cloud K req volName volSizeBytes (cv_Parameters req) fsType w1
    end in
  CreateVolume cloud K req w =
    match snd (fst look) with
    | None => found
    | Some ErrNotFound => found
    | Some ErrMultiDisks => (Err (StatusError Internal (MsgError ErrMultiDisks)), w1)
    | Some ErrDiskExistsDiffSize =>
        (Err (StatusError AlreadyExists (MsgError ErrDiskExistsDiffSize)), w1)
    | Some err => (Err (StatusError Internal (MsgError err)), w1)
    end.
Proof.
  unfold reachesLookup, exceedsLimit, volSizeBytesOf, CreateVolume. step.
  destruct (String.length (cv_Name req) =? 0)%nat; simpl; [discriminate|].
  destruct (cv_CapacityRange req) as [capRange|]; simpl.
  - destruct ((0 <? LimitBytes capRange)
              && (LimitBytes capRange <? RoundUpBytes (RequiredBytes capRange)));
      simpl; [discriminate|].
    destruct (length (cv_VolumeCapabilities req) =? 0)%nat; simpl; [discriminate|].
    intros ->. simpl.
    destruct (GetDiskByName cloud (cv_Name req)
                (RoundUpBytes (RequiredBytes capRange)) (backend w))
      as [[disk err] s1]. simpl.
    destruct err as [[]|]; simpl; destruct disk; reflexivity.
  - destruct (length (cv_VolumeCapabilities req) =? 0)%nat; simpl; [discriminate|].
    intros ->. simpl.
    destruct (GetDiskByName cloud (cv_Name req) (DefaultVolumeSize K) (backend w))
      as [[disk err] s1]. simpl.
    destruct err as [[]|]; simpl; destruct disk; reflexivity.
Qed.

(** The create path either refuses the request as an invalid argument before
    any backend call, or calls the backend creation once, with options that
    carry the name tag, the normalised size and the selected zone. *)
Lemma createNewVolume_cases (req : CreateVolumeRequest) (volName : string)
    (volSizeBytes : Z) (fsType : string) (w : World S) :
  let run := createNewVolume cloud K req volName volSizeBytes (cv_Parameters req)
               fsType w in
  (exists m, run = (Err (StatusError InvalidArgument m), w))
  \/ (exists opts,
        do_CapacityBytes opts = volSizeBytes
        /\ do_Tags opts = {[ VolumeNameTagKey K := volName ]}
        /\ do_AvailabilityZone opts =
             pickAvailabilityZone K (cv_AccessibilityRequirements req)
        /\ let made := CreateDisk cloud volName opts (backend w) in
           run =
             (match snd (fst made) with
              | Some err =>
                  Err (status_Errorf Internal "Could not create volume %q: %v"
                         [ArgString volName; ArgError err])
              | None =>
                  match fst (fst made) with
                  | None => Panic
                  | Some disk =>
                      Ok (newCreateVolumeResponse K (Disk_setFsType disk fsType))
                  end
              end,
              logged w (CallCreateDisk volName opts) (snd made))).
Proof.
  unfold createNewVolume. step.
  destruct (bool_decide (index (cv_Parameters req) (VolumeTypeKey K) = VolumeTypeIO1 K));
    [destruct (Atoi (index (cv_Parameters req) (IopsPerGBKey K))) as [n [e|]]|];
    simpl; try (left; eauto; fail);
    destruct (bool_decide (index (cv_Parameters req) (EncryptedKey K) = "true"));
    simpl;
    destruct (cv_VolumeContentSource req) as [[|[src|]|v]|];
    simpl; try (left; eauto; fail);
    right;
    match goal with
    | |- context [CallCreateDisk _ ?o] => exists o
    end;
    (split; [reflexivity|split; [reflexivity|split; [reflexivity|]]]);
    match goal with
    | |- context [CreateDisk cloud ?n ?o ?s] =>
        destruct (CreateDisk cloud n o s) as [[disk err] s']
    end;
    simpl; destruct err; try reflexivity; destruct disk; reflexivity.
Qed.

(** What a run that reaches the lookup comes to: it stops right after the
    lookup (with an error, or with the volume found), or it goes on to the
    create path because the lookup returned no volume and no error other
    than not-found. *)
Lemma CreateVolume_shape (req : CreateVolumeRequest) (w : World S) :
  reachesLookup req = true ->
  let volName := cv_Name req in
  let volSizeBytes := volSizeBytesOf K req in
  let look := GetDiskByName cloud volName volSizeBytes (backend w) in
  let w1 := logged w (CallGetDiskByName volName volSizeBytes) (snd look) in
  let fsType := index (cv_Parameters req) (FsTypeKey K) in
  let run := CreateVolume cloud K req w in
  snd run = w1
  \/ (fst (fst look) = None
      /\ (snd (fst look) = Some ErrNotFound \/ snd (fst look) = None)
      /\ run = createNewVolume cloud K req volName volSizeBytes (cv_Parameters req)
                 fsType w1).
Proof.
  intros Hreach volName volSizeBytes look w1 fsType run.
  pose proof (CreateVolume_lookup req w Hreach) as Hrun. cbv zeta in Hrun.
  fold volName volSizeBytes in Hrun. fold look in Hrun. fold w1 fsType run in Hrun.
  rewrite Hrun. clear Hrun.
  destruct (snd (fst look)) as [[]|]; destruct (fst (fst look)); simpl; auto.
Qed.

(** C1. When the by-name lookup returns an existing volume (the backend
    returns one only when its size matches the normalised size it was given),
    CreateVolume answers success with that volume's identifier and makes no
    backend creation call: the lookup is its only backend call.  Hence, when
    a second call with the same request follows a successful first one and
    the lookup then returns the volume of the first call, the second call
    answers the same volume identifier and creates nothing. *)
Theorem CreateVolume_replay_idempotent (req : CreateVolumeRequest) :
  let volName := cv_Name req in
  let volSizeBytes := volSizeBytesOf K req in
  (forall (w : World S) disk s',
     reachesLookup req = true ->
     GetDiskByName cloud volName volSizeBytes (backend w) = ((Some disk, None), s') ->
     exists resp,
       CreateVolume cloud K req w =
         (Ok resp, logged w (CallGetDiskByName volName volSizeBytes) s')
       /\ VolumeId (cv_Volume resp) = VolumeID disk
       /\ callsSince w (snd (CreateVolume cloud K req w)) =
            [CallGetDiskByName volName volSizeBytes]
       /\ existsb is_create_disk (callsSince w (snd (CreateVolume cloud K req w)))
            = false)
  /\ (forall (w : World S) resp1 w1 disk s2,
     CreateVolume cloud K req w = (Ok resp1, w1) ->
     GetDiskByName cloud volName volSizeBytes (backend w1) = ((Some disk, None), s2) ->
     VolumeID disk = VolumeId (cv_Volume resp1) ->
     exists resp2 w2,
       CreateVolume cloud K req w1 = (Ok resp2, w2)
       /\ VolumeId (cv_Volume resp2) = VolumeId (cv_Volume resp1)
       /\ existsb is_create_disk (callsSince w1 w2) = false).
Proof.
  intros volName volSizeBytes.
  assert (Hreplay : forall (w : World S) disk s',
     reachesLookup req = true ->
     GetDiskByName cloud volName volSizeBytes (backend w) = ((Some disk, None), s') ->
     CreateVolume cloud K req w =
       (Ok (newCreateVolumeResponse K
              (Disk_setFsType disk (index (cv_Parameters req) (FsTypeKey K)))),
        logged w (CallGetDiskByName volName volSizeBytes) s')).
  { intros w disk s' Hreach Hlook.
    rewrite (CreateVolume_lookup req w Hreach). cbv zeta.
    fold volName volSizeBytes. rewrite Hlook. reflexivity. }
  split.
  - intros w disk s' Hreach Hlook. rewrite (Hreplay w disk s' Hreach Hlook).
    eexists. split; [reflexivity|]. split; [reflexivity|]. simpl.
    rewrite callsSince_logged1. split; reflexivity.
  - intros w resp1 w1 disk s2 Hfirst Hlook Hid.
    assert (Hreach : reachesLookup req = true).
    { destruct (reachesLookup req) eqn:E; [reflexivity|].
      destruct (CreateVolume_rejects req w E) as [m Hm]. congruence. }
    rewrite (Hreplay w1 disk s2 Hreach Hlook).
    eexists. eexists. split; [reflexivity|]. split; [simpl; exact Hid|].
    rewrite callsSince_logged1. reflexivity.
Qed.

Lemma reachesLookup_admissible (req : CreateVolumeRequest) :
  cv_Name req <> "" ->
  cv_VolumeCapabilities req <> [] ->
  Forall supported (cv_VolumeCapabilities req) ->
  exceedsLimit req = false ->
  reachesLookup req = true.
Proof.
  intros Hname Hcaps Hsup Hlim. unfold reachesLookup.
  rewrite (length_nonzero _ Hname), Hlim.
  apply isValidVolumeCapabilities_Forall in Hsup. rewrite Hsup.
  destruct (cv_VolumeCapabilities req); [congruence|reflexivity].
Qed.

(** A run that reaches the lookup calls it first, with the request's name
    and the normalised size. *)
Lemma CreateVolume_lookup_logged (req : CreateVolumeRequest) (w : World S) :
  reachesLookup req = true ->
  exists rest,
    callsSince w (snd (CreateVolume cloud K req w)) =
      CallGetDiskByName (cv_Name req) (volSizeBytesOf K req) :: rest.
Proof.
  intros Hreach.
  destruct (CreateVolume_shape req w Hreach) as [Hw|(_ & _ & Hrun)].
  - cbv zeta in Hw. rewrite Hw. rewrite callsSince_logged1. eauto.
  - cbv zeta in Hrun. rewrite Hrun.
    match goal with
    | |- context [createNewVolume cloud K req ?n ?z ?p ?f ?w1] =>
        destruct (createNewVolume_cases req n z f w1)
          as [[m Hm]|(opts & _ & _ & _ & Hmade)]
    end.
    + rewrite Hm. simpl. rewrite callsSince_logged1. eauto.
    + cbv zeta in Hmade. rewrite Hmade. simpl. rewrite callsSince_logged2. eauto.
Qed.

(** C3 (as the code has it).  Without a capacity range the default size is
    asked for.  With one, the required bytes are rounded in int64 arithmetic:
    for required bytes from 0 up to the largest multiple of the allocation
    unit an int64 holds, the rounded size is the least multiple of the unit
    that is not below them, so that one byte becomes one full unit; whatever
    the required bytes, it is an int64 value.  A positive limit below the
    rounded size is refused as an invalid argument before any backend call.
    A request is accepted, that is the lookup is called with the rounded
    size, whenever the limit is not a positive value below the rounded size:
    in particular when the limit equals the rounded size, when the limit is
    the largest int64, and when required equals limit and is a multiple of
    the allocation unit. *)
Theorem CreateVolume_capacity_normalization (req : CreateVolumeRequest) (w : World S) :
  let run := CreateVolume cloud K req w in
  let admissible :=
    cv_Name req <> "" /\ cv_VolumeCapabilities req <> []
    /\ Forall supported (cv_VolumeCapabilities req) in
  let accepted (size : Z) :=
    exists rest, callsSince w (snd run) = CallGetDiskByName (cv_Name req) size :: rest in
  (cv_CapacityRange req = None -> admissible -> accepted (DefaultVolumeSize K))
  /\ (forall capRange, cv_CapacityRange req = Some capRange ->
        let v := RoundUpBytes (RequiredBytes capRange) in
        (minInt64 <= v <= maxInt64)
        /\ (0 <= RequiredBytes capRange <= maxInt64 - GiB + 1 ->
            (GiB | v) /\ RequiredBytes capRange <= v
            /\ forall m, (GiB | m) -> RequiredBytes capRange <= m -> v <= m)
        /\ (0 < LimitBytes capRange -> LimitBytes capRange < v ->
            (exists m, run = (Err (StatusError InvalidArgument m), w))
            /\ (cv_Name req <> "" ->
                run = (Err (StatusError InvalidArgument
                              (Msg "After round-up, volume size exceeds the limit specified")),
                       w)))
        /\ (~ (0 < LimitBytes capRange < v) -> admissible -> accepted v)
        /\ (LimitBytes capRange = v -> admissible -> accepted v)
        /\ (maxInt64 <= LimitBytes capRange -> admissible -> accepted v)
        /\ (RequiredBytes capRange = LimitBytes capRange ->
            0 <= RequiredBytes capRange <= maxInt64 ->
            (GiB | RequiredBytes capRange) -> admissible ->
            accepted (RequiredBytes capRange)))
  /\ RoundUpBytes 1 = GiB.
Proof.
  intros run admissible accepted.
  assert (Hacc : exceedsLimit req = false -> admissible ->
                 accepted (volSizeBytesOf K req)).
  { intros Hlim (Hname & Hcaps & Hsup).
    apply CreateVolume_lookup_logged.
    apply reachesLookup_admissible; assumption. }
  split; [|split; [|reflexivity]].
  - intros Hnone Hadm.
    replace (DefaultVolumeSize K) with (volSizeBytesOf K req)
      by (unfold volSizeBytesOf; rewrite Hnone; reflexivity).
    apply Hacc; [|exact Hadm]. unfold exceedsLimit. rewrite Hnone. reflexivity.
  - intros capRange Hsome v.
    assert (Hsize : volSizeBytesOf K req = v).
    { unfold volSizeBytesOf. rewrite Hsome. reflexivity. }
    assert (Hrange : minInt64 <= v <= maxInt64) by apply RoundUpBytes_range.
    assert (Hin : ~ (0 < LimitBytes capRange < v) -> admissible -> accepted v).
    { intros Hn Hadm. rewrite <- Hsize. apply Hacc; [|exact Hadm].
      unfold exceedsLimit. rewrite Hsome. fold v.
      destruct (0 <? LimitBytes capRange) eqn:E1;
        destruct (LimitBytes capRange <? v) eqn:E2; simpl; try reflexivity.
      apply Z.ltb_lt in E1. apply Z.ltb_lt in E2. lia. }
    split; [exact Hrange|]. split; [|split; [|split; [|split; [|split]]]].
    + intros Hreq. split; [apply RoundUpBytes_multiple|].
      split; [apply RoundUpBytes_bounds; exact Hreq|].
      intros m. apply RoundUpBytes_least. exact Hreq.
    + intros Hpos Hlt.
      assert (Hex : exceedsLimit req = true).
      { unfold exceedsLimit. rewrite Hsome. fold v.
        apply andb_true_intro. split; apply Z.ltb_lt; assumption. }
      split.
      * apply CreateVolume_rejects. unfold reachesLookup. rewrite Hex.
        rewrite andb_false_r. reflexivity.
      * intros Hname. unfold run, CreateVolume. step.
        rewrite (length_nonzero _ Hname). simpl. rewrite Hsome. fold v.
        unfold exceedsLimit in Hex. rewrite Hsome in Hex. fold v in Hex.
        rewrite Hex. reflexivity.
    + exact Hin.
    + intros Heq. apply Hin. lia.
    + intros Hmax. apply Hin. lia.
    + intros Heq Hreq Hdiv Hadm.
      assert (Hv : v = RequiredBytes capRange)
        by (apply RoundUpBytes_fixed; assumption).
      rewrite <- Hv. apply Hin; [lia|exact Hadm].
Qed.

(** C10. In every successful CreateVolume response, whether the volume was
    found by the lookup or freshly created, the volume context holds under
    the filesystem-type key the value of the request's parameters (the
    filesystem type of the backend record is overwritten by it), and the
    accessible topology is the one-entry list that carries the zone of the
    backend record under the zone key. *)
Theorem CreateVolume_response_context (req : CreateVolumeRequest) (w w' : World S)
    (resp : CreateVolumeResponse) :
  CreateVolume cloud K req w = (Ok resp, w') ->
  let volName := cv_Name req in
  let volSizeBytes := volSizeBytesOf K req in
  let look := GetDiskByName cloud volName volSizeBytes (backend w) in
  let fsType := index (cv_Parameters req) (FsTypeKey K) in
  exists disk,
    (fst (fst look) = Some disk
     \/ (fst (fst look) = None
         /\ exists opts, fst (CreateDisk cloud volName opts (snd look))
                         = (Some disk, None)))
    /\ VolumeId (cv_Volume resp) = VolumeID disk
    /\ VolumeContext (cv_Volume resp) = {[ FsTypeKey K := fsType ]}
    /\ AccessibleTopology (cv_Volume resp) =
         [ {| Segments := {[ TopologyKey K := AvailabilityZone disk ]} |} ]
    /\ (forall other,
          resp = newCreateVolumeResponse K
                   (Disk_setFsType (Disk_setFsType disk other) fsType)).
Proof.
  intros Hrun volName volSizeBytes look fsType.
  assert (Hreach : reachesLookup req = true).
  { destruct (reachesLookup req) eqn:E; [reflexivity|].
    destruct (CreateVolume_rejects req w E) as [m Hm]. congruence. }
  pose proof (CreateVolume_lookup req w Hreach) as Heq. cbv zeta in Heq.
  fold volName volSizeBytes in Heq. fold look in Heq. fold fsType in Heq.
  rewrite Hrun in Heq.
  assert (Hfound :
    (Ok resp, w') =
      match fst (fst look) with
      | Some disk => (Ok (newCreateVolumeResponse K (Disk_setFsType disk fsType)),
                      logged w (CallGetDiskByName volName volSizeBytes) (snd look))
      | None => createNewVolume cloud K req volName volSizeBytes (cv_Parameters req)
                  fsType (logged w (CallGetDiskByName volName volSizeBytes) (snd look))
      end).
  { destruct (snd (fst look)) as [[]|]; try exact Heq; discriminate. }
  clear Heq. destruct (fst (fst look)) as [disk|] eqn:Hdisk.
  - injection Hfound as -> _. exists disk. simpl. auto 10.
  - destruct (createNewVolume_cases req volName volSizeBytes fsType
                (logged w (CallGetDiskByName volName volSizeBytes) (snd look)))
      as [[m Hm]|(opts & _ & _ & _ & Hmade)].
    + rewrite Hm in Hfound. discriminate.
    + cbv zeta in Hmade. rewrite Hmade in Hfound. simpl in Hfound.
      destruct (CreateDisk cloud volName opts (snd look)) as [[d e] s2] eqn:Hc.
      simpl in Hfound. destruct e; [discriminate|]. destruct d as [disk|]; [|discriminate].
      injection Hfound as -> _. exists disk. simpl.
      split; [right; split; [reflexivity|exists opts; rewrite Hc; reflexivity]|].
      auto 10.
Qed.

End CreateVolumeProofs.

(** ** CreateSnapshot *)

Section CreateSnapshotProofs.

Context {S : Type}.
Variable cloud : Cloud S.
Variable K : Constants.

(** Translating a snapshot makes no backend call. *)
Lemma newCreateSnapshotResponse_world (snapshot : option cloud_Snapshot) (w : World S) :
  snd (newCreateSnapshotResponse snapshot w) = w.
Proof.
  unfold newCreateSnapshotResponse.
  destruct snapshot as [snap|]; [|reflexivity].
  destruct (TimestampProto (CreationTime snap)) as [ts [e|]]; reflexivity.
Qed.

Lemma newCreateSnapshotResponse_ok (snap : cloud_Snapshot) (ts : option Timestamp)
    (w : World S) :
  TimestampProto (CreationTime snap) = (ts, None) ->
  newCreateSnapshotResponse (Some snap) w =
    (Ok {| cs_Snapshot :=
             {| s_SnapshotId := SnapshotID snap;
                s_SourceVolumeId := SourceVolumeID snap;
                s_SizeBytes := Size snap;
                s_CreationTime := ts;
                s_ReadyToUse := ReadyToUse snap |} |}, w).
Proof. intros H. unfold newCreateSnapshotResponse. rewrite H. reflexivity. Qed.

Lemma newCreateSnapshotResponse_fails (snap : cloud_Snapshot) (ts : option Timestamp)
    (err : error) (w : World S) :
  TimestampProto (CreationTime snap) = (ts, Some err) ->
  newCreateSnapshotResponse (Some snap) w = (Err (PlainError err), w).
Proof. intros H. unfold newCreateSnapshotResponse. rewrite H. reflexivity. Qed.

Lemma CreateSnapshot_lookup (req : CreateSnapshotRequest) (w : World S) :
  reachesSnapshotLookup req = true ->
  let snapshotName := cs_Name req in
  let volumeID := cs_SourceVolumeId req in
  let look := GetSnapshotByName cloud snapshotName (backend w) in
  let w1 := logged w (CallGetSnapshotByName snapshotName) (snd look) in
  let opts := {| so_Tags := {[ SnapshotNameTagKey K := snapshotName ]} |} in
  let made := CreateSnapshot_ cloud volumeID opts (snd look) in
  let w2 := logged w1 (CallCreateSnapshot volumeID opts) (snd made) in
  let resolved :=
    match fst (fst look) with
    | Some snap =>
        if bool_decide (SourceVolumeID snap = volumeID)
        then newCreateSnapshotResponse (Some snap) w1
        else (Err (status_Errorf AlreadyExists
                     "Snapshot %s already exists for different volume (%s)"
                     [ArgString snapshotName; ArgString (SourceVolumeID snap)]), w1)
    | None =>
        match snd (fst made) with
        | Some e =>
            (Err (status_Errorf Internal "Could not create snapshot %q: %v"
                    [ArgString snapshotName; ArgError e]), w2)
        | None => newCreateSnapshotResponse (fst (fst made)) w2
        end
    end in
  CreateSnapshot cloud K req w =
    match snd (fst look) with
    | Some e =>
        if bool_decide (e = ErrNotFound) then resolved else (Err (PlainError e), w1)
    | None => resolved
    end.
Proof.
  unfold reachesSnapshotLookup, CreateSnapshot. step.
  destruct (String.length (cs_Name req) =? 0)%nat; simpl; [discriminate|].
  destruct (String.length (cs_SourceVolumeId req) =? 0)%nat; simpl; [discriminate|].
  intros _.
  destruct (GetSnapshotByName cloud (cs_Name req) (backend w)) as [[snap e] s1]. simpl.
  destruct e as [e|]; simpl;
    [destruct (bool_decide (e = ErrNotFound)); simpl; [|reflexivity]|];
    (destruct snap as [snap|]; simpl;
     [destruct (bool_decide (SourceVolumeID snap = cs_SourceVolumeId req)); reflexivity
     |destruct (CreateSnapshot_ cloud (cs_SourceVolumeId req)
                  {| so_Tags := {[ SnapshotNameTagKey K := cs_Name req ]} |} s1)
        as [[snap' e'] s2];
      simpl; destruct e'; reflexivity]).
Qed.

(** C4 (as the code has it).  For a request that reaches the lookup: when
    the lookup finds a snapshot with the requested source volume id, no
    backend creation is called and the handler answers the translation of
    that record, which is a success carrying its identifier and its
    readiness flag as it is, ready or not, whenever its creation time
    converts; when the source volume id differs the handler fails with an
    AlreadyExists status; when the lookup reports not-found the backend is
    asked to create the snapshot of the requested volume under the name
    tag, a failure of which is an Internal status. *)
Theorem CreateSnapshot_lookup_classification (req : CreateSnapshotRequest) (w : World S) :
  reachesSnapshotLookup req = true ->
  let snapshotName := cs_Name req in
  let volumeID := cs_SourceVolumeId req in
  let look := GetSnapshotByName cloud snapshotName (backend w) in
  let w1 := logged w (CallGetSnapshotByName snapshotName) (snd look) in
  let opts := {| so_Tags := {[ SnapshotNameTagKey K := snapshotName ]} |} in
  let made := CreateSnapshot_ cloud volumeID opts (snd look) in
  let w2 := logged w1 (CallCreateSnapshot volumeID opts) (snd made) in
  let run := CreateSnapshot cloud K req w in
  (forall snap, fst look = (Some snap, None) ->
     (SourceVolumeID snap = volumeID ->
        run = newCreateSnapshotResponse (Some snap) w1
        /\ callsSince w (snd run) = [CallGetSnapshotByName snapshotName]
        /\ existsb is_create_snapshot (callsSince w (snd run)) = false
        /\ (forall ts, TimestampProto (CreationTime snap) = (ts, None) ->
              fst run =
                Ok {| cs_Snapshot :=
                        {| s_SnapshotId := SnapshotID snap;
                           s_SourceVolumeId := SourceVolumeID snap;
                           s_SizeBytes := Size snap;
                           s_CreationTime := ts;
                           s_ReadyToUse := ReadyToUse snap |} |}))
     /\ (SourceVolumeID snap <> volumeID ->
         exists m, run = (Err (StatusError AlreadyExists m), w1)))
  /\ (fst look = (None, Some ErrNotFound) ->
      callsSince w (snd run) =
        [CallGetSnapshotByName snapshotName; CallCreateSnapshot volumeID opts]
      /\ run =
           match snd (fst made) with
           | Some e =>
               (Err (status_Errorf Internal "Could not create snapshot %q: %v"
                       [ArgString snapshotName; ArgError e]), w2)
           | None => newCreateSnapshotResponse (fst (fst made)) w2
           end).
Proof.
  intros Hreach snapshotName volumeID look w1 opts made w2 run.
  pose proof (CreateSnapshot_lookup req w Hreach) as Hrun. cbv zeta in Hrun.
  fold snapshotName volumeID in Hrun. fold look in Hrun. fold w1 opts in Hrun.
  fold made in Hrun. fold w2 run in Hrun.
  split.
  - intros snap Hlook. rewrite Hlook in Hrun. cbn [fst snd] in Hrun. split.
    + intros Hsrc. rewrite bool_decide_eq_true_2 in Hrun by exact Hsrc.
      assert (Hcalls : callsSince w (snd run) = [CallGetSnapshotByName snapshotName]).
      { rewrite Hrun, newCreateSnapshotResponse_world. apply callsSince_logged1. }
      split; [exact Hrun|]. split; [exact Hcalls|]. split.
      * rewrite Hcalls. reflexivity.
      * intros ts Hts. rewrite Hrun, (newCreateSnapshotResponse_ok snap ts w1 Hts).
        reflexivity.
    + intros Hsrc. rewrite bool_decide_eq_false_2 in Hrun by exact Hsrc. eauto.
  - intros Hlook. rewrite Hlook in Hrun. cbn [fst snd] in Hrun.
    rewrite bool_decide_eq_true_2 in Hrun by reflexivity. split; [|exact Hrun].
    rewrite Hrun. destruct (snd (fst made)).
    + apply callsSince_logged2.
    + rewrite newCreateSnapshotResponse_world. apply callsSince_logged2.
Qed.

(** C9 (as the code has it).  When the creation time of the snapshot does
    not convert, the translation answers the conversion error itself, with
    no status attached to it, and no snapshot descriptor; CreateSnapshot
    passes that answer on unchanged, both for a snapshot found by the lookup
    and for one just created. *)
Theorem CreateSnapshot_timestamp_failure (req : CreateSnapshotRequest) (w : World S)
    (snap : cloud_Snapshot) (ts : option Timestamp) (err : error) :
  reachesSnapshotLookup req = true ->
  TimestampProto (CreationTime snap) = (ts, Some err) ->
  let snapshotName := cs_Name req in
  let volumeID := cs_SourceVolumeId req in
  let look := GetSnapshotByName cloud snapshotName (backend w) in
  let w1 := logged w (CallGetSnapshotByName snapshotName) (snd look) in
  let opts := {| so_Tags := {[ SnapshotNameTagKey K := snapshotName ]} |} in
  let made := CreateSnapshot_ cloud volumeID opts (snd look) in
  let w2 := logged w1 (CallCreateSnapshot volumeID opts) (snd made) in
  let run := CreateSnapshot cloud K req w in
  let lookupPassed := snd (fst look) = None \/ snd (fst look) = Some ErrNotFound in
  newCreateSnapshotResponse (Some snap) w = (Err (PlainError err), w)
  /\ (fst (fst look) = Some snap -> lookupPassed -> SourceVolumeID snap = volumeID ->
      run = (Err (PlainError err), w1))
  /\ (fst (fst look) = None -> lookupPassed -> fst made = (Some snap, None) ->
      run = (Err (PlainError err), w2))
  /\ status_Code (PlainError err) = Unknown.
Proof.
  intros Hreach Hts snapshotName volumeID look w1 opts made w2 run lookupPassed.
  pose proof (CreateSnapshot_lookup req w Hreach) as Hrun. cbv zeta in Hrun.
  fold snapshotName volumeID in Hrun. fold look in Hrun. fold w1 opts in Hrun.
  fold made in Hrun. fold w2 run in Hrun.
  split; [apply (newCreateSnapshotResponse_fails snap ts err w Hts)|].
  split; [|split; [|reflexivity]].
  - intros Hsnap Hpass Hsrc. rewrite Hrun, Hsnap.
    rewrite bool_decide_eq_true_2 by exact Hsrc.
    rewrite (newCreateSnapshotResponse_fails snap ts err w1 Hts).
    destruct Hpass as [-> | ->]; reflexivity.
  - intros Hnone Hpass Hmade. rewrite Hrun, Hnone, Hmade. cbn [fst snd].
    rewrite (newCreateSnapshotResponse_fails snap ts err w2 Hts).
    destruct Hpass as [-> | ->]; reflexivity.
Qed.

End CreateSnapshotProofs.

(** ** Runs on the in-memory backend *)

Lemma writer_supported : Forall supported [Fake.writer].
Proof. apply isValidVolumeCapabilities_Forall. reflexivity. Qed.

Lemma multiWriter_unsupported : ~ Forall supported [Fake.multiWriter].
Proof.
  intros H. apply isValidVolumeCapabilities_Forall in H. discriminate H.
Qed.

Lemma CreateVolume_replay_idempotent_witness :
  (exists resp,
     CreateVolume Fake.cloud Fake.constants
       (Fake.createReq "one" (Some {| RequiredBytes := 1; LimitBytes := 0 |}))
       Fake.populated
     = (Ok resp,
        logged Fake.populated (CallGetDiskByName "one" GiB) (backend Fake.populated))
     /\ VolumeId (cv_Volume resp) = "vol-1")
  /\ (exists resp1 resp2,
        fst (CreateVolume Fake.cloud Fake.constants (Fake.createReq "v" None) Fake.start)
          = Ok resp1
        /\ fst (CreateVolume Fake.cloud Fake.constants (Fake.createReq "v" None)
                  (snd (CreateVolume Fake.cloud Fake.constants
                          (Fake.createReq "v" None) Fake.start)))
           = Ok resp2
        /\ VolumeId (cv_Volume resp2) = VolumeId (cv_Volume resp1)).
Proof.
  split.
  - destruct (CreateVolume_replay_idempotent Fake.cloud Fake.constants
                (Fake.createReq "one" (Some {| RequiredBytes := 1; LimitBytes := 0 |})))
      as [Hreplay _].
    destruct (Hreplay Fake.populated Fake.volume1 (backend Fake.populated))
      as (resp & Hrun & Hid & _).
    + vm_compute. reflexivity.
    + vm_compute. reflexivity.
    + exists resp. split; [exact Hrun|exact Hid].
  - destruct (CreateVolume_replay_idempotent Fake.cloud Fake.constants
                (Fake.createReq "v" None)) as [_ Htwice].
    pose (created := {| VolumeID := "vol-v"; CapacityGiB := 100;
                        AvailabilityZone := "a"; FsType := "" |}).
    pose (w1 := snd (CreateVolume Fake.cloud Fake.constants
                       (Fake.createReq "v" None) Fake.start)).
    destruct (Htwice Fake.start
                (newCreateVolumeResponse Fake.constants (Disk_setFsType created "ext4"))
                w1 created (backend w1))
      as (resp2 & w2 & Hrun2 & Hid & _).
    + vm_compute. reflexivity.
    + vm_compute. reflexivity.
    + reflexivity.
    + exists (newCreateVolumeResponse Fake.constants (Disk_setFsType created "ext4")),
        resp2.
      split; [vm_compute; reflexivity|].
      split; [fold w1; rewrite Hrun2; reflexivity|exact Hid].
Defined.

Lemma CreateVolume_capacity_normalization_witness :
  exists rest,
    callsSince Fake.start
      (snd (CreateVolume Fake.cloud Fake.constants
              (Fake.createReq "v" (Some {| RequiredBytes := GiB; LimitBytes := GiB |}))
              Fake.start))
    = CallGetDiskByName "v" GiB :: rest.
Proof.
  destruct (CreateVolume_capacity_normalization Fake.cloud Fake.constants
              (Fake.createReq "v" (Some {| RequiredBytes := GiB; LimitBytes := GiB |}))
              Fake.start) as (_ & Hrange & _).
  destruct (Hrange {| RequiredBytes := GiB; LimitBytes := GiB |} eq_refl)
    as (_ & _ & _ & _ & _ & _ & Hequal).
  apply Hequal.
  - reflexivity.
  - split; vm_compute; discriminate.
  - exists 1. reflexivity.
  - split; [discriminate|]. split; [discriminate|exact writer_supported].
Defined.

(** Required bytes equal to limit bytes do not make a request acceptable:
    one byte required under a one-byte limit rounds up to a full unit, above
    the limit, and is refused. *)
Lemma CreateVolume_required_equals_limit_refused :
  RequiredBytes {| RequiredBytes := 1; LimitBytes := 1 |}
    = LimitBytes {| RequiredBytes := 1; LimitBytes := 1 |}
  /\ CreateVolume Fake.cloud Fake.constants
       (Fake.createReq "v" (Some {| RequiredBytes := 1; LimitBytes := 1 |})) Fake.start
     = (Err (StatusError InvalidArgument
               (Msg "After round-up, volume size exceeds the limit specified")),
        Fake.start).
Proof. split; [reflexivity|]. vm_compute. reflexivity. Qed.

Lemma CreateVolume_response_context_witness :
  exists resp,
    fst (CreateVolume Fake.cloud Fake.constants
           (Fake.createReq "one" (Some {| RequiredBytes := 1; LimitBytes := 0 |}))
           Fake.populated) = Ok resp
    /\ FsType Fake.volume1 = "xfs"
    /\ VolumeContext (cv_Volume resp) = {[ "fstype" := "ext4" ]}
    /\ AccessibleTopology (cv_Volume resp) =
         [ {| Segments := {[ "topology.ebs.csi.aws.com/zone" := "a" ]} |} ].
Proof.
  pose (resp := newCreateVolumeResponse Fake.constants
                  (Disk_setFsType Fake.volume1 "ext4")).
  pose (w' := logged Fake.populated (CallGetDiskByName "one" GiB)
                (backend Fake.populated)).
  destruct (CreateVolume_response_context Fake.cloud Fake.constants
              (Fake.createReq "one" (Some {| RequiredBytes := 1; LimitBytes := 0 |}))
              Fake.populated w' resp ltac:(vm_compute; reflexivity))
    as (disk & Hdisk & _ & Hctx & Htopo & _).
  exists resp. split; [vm_compute; reflexivity|]. split; [reflexivity|].
  split; [exact Hctx|].
  destruct Hdisk as [Hfound|[Hnone _]]; [|vm_compute in Hnone; discriminate].
  vm_compute in Hfound. injection Hfound as <-. exact Htopo.
Defined.

Lemma delete_not_found_succeeds_witness :
  fst (DeleteVolume Fake.cloud {| dv_VolumeId := "vol-gone" |} Fake.start)
    = Ok mkDeleteVolumeResponse
  /\ fst (DeleteSnapshot Fake.cloud {| ds_SnapshotId := "snap-gone" |} Fake.start)
     = Ok mkDeleteSnapshotResponse.
Proof.
  destruct (delete_not_found_succeeds Fake.cloud Fake.start) as [Hvol Hsnap].
  split.
  - destruct (Hvol {| dv_VolumeId := "vol-gone" |} ltac:(discriminate)) as [Hok _].
    apply Hok. left. vm_compute. reflexivity.
  - destruct (Hsnap {| ds_SnapshotId := "snap-gone" |} ltac:(discriminate)) as [Hok _].
    apply Hok. left. vm_compute. reflexivity.
Defined.

Lemma ControllerPublishVolume_checks_before_attach_witness :
  ControllerPublishVolume Fake.cloud Fake.constants
    (Fake.publishReq "vol-1" "i-1" Fake.writer) Fake.populated
  = (Ok {| PublishContext := {[ "devicePath" := "/dev/xvdba" ]} |},
     snd (ControllerPublishVolume Fake.cloud Fake.constants
            (Fake.publishReq "vol-1" "i-1" Fake.writer) Fake.populated))
  /\ (exists m,
        fst (ControllerPublishVolume Fake.cloud Fake.constants
               (Fake.publishReq "vol-1" "i-1" Fake.multiWriter) Fake.populated)
        = Err (StatusError InvalidArgument m)).
Proof.
  split.
  - destruct (ControllerPublishVolume_checks_before_attach Fake.cloud Fake.constants
                (Fake.publishReq "vol-1" "i-1" Fake.writer) Fake.populated)
      as (_ & _ & Hvalid & _).
    destruct (Hvalid ltac:(vm_compute; reflexivity)) as (_ & _ & _ & Hattach).
    destruct (Hattach ltac:(vm_compute; reflexivity) ltac:(vm_compute; reflexivity))
      as (_ & _ & Hok).
    rewrite (Hok ltac:(vm_compute; reflexivity)). vm_compute. reflexivity.
  - destruct (ControllerPublishVolume_checks_before_attach Fake.cloud Fake.constants
                (Fake.publishReq "vol-1" "i-1" Fake.multiWriter) Fake.populated)
      as (Hshape & _).
    destruct (Hshape Fake.multiWriter eq_refl) as [m Hm].
    + intros Hs. apply multiWriter_unsupported. constructor; [exact Hs|constructor].
    + exists m. rewrite Hm. reflexivity.
Defined.

Lemma ValidateVolumeCapabilities_confirms_witness :
  fst (ValidateVolumeCapabilities Fake.cloud
         {| vc_VolumeId := "vol-1"; vc_VolumeCapabilities := [Fake.multiWriter] |}
         Fake.populated)
    = Ok {| Confirmed := None |}
  /\ fst (ValidateVolumeCapabilities Fake.cloud
            {| vc_VolumeId := "vol-9"; vc_VolumeCapabilities := [Fake.multiWriter] |}
            Fake.populated)
     = Err (StatusError NotFound (Msg "Volume not found")).
Proof.
  split.
  - destruct (ValidateVolumeCapabilities_confirms Fake.cloud
                {| vc_VolumeId := "vol-1"; vc_VolumeCapabilities := [Fake.multiWriter] |}
                Fake.populated ltac:(discriminate) ltac:(discriminate))
      as [_ Hfound].
    destruct (Hfound ltac:(vm_compute; reflexivity)) as (_ & Hnone & _).
    apply Hnone. exact multiWriter_unsupported.
  - destruct (ValidateVolumeCapabilities_confirms Fake.cloud
                {| vc_VolumeId := "vol-9"; vc_VolumeCapabilities := [Fake.multiWriter] |}
                Fake.populated ltac:(discriminate) ltac:(discriminate))
      as [Habsent _].
    apply Habsent. vm_compute. reflexivity.
Defined.

Lemma CreateSnapshot_lookup_classification_witness :
  fst (CreateSnapshot Fake.cloud Fake.constants
         (Fake.snapshotReq "pending" "vol-1") Fake.populated)
    = Ok {| cs_Snapshot :=
              {| s_SnapshotId := "snap-1";
                 s_SourceVolumeId := "vol-1";
                 s_SizeBytes := GiB;
                 s_CreationTime := Some {| Seconds := 1540000000; Nanos := 0 |};
                 s_ReadyToUse := false |} |}.
Proof.
  destruct (CreateSnapshot_lookup_classification Fake.cloud Fake.constants
              (Fake.snapshotReq "pending" "vol-1") Fake.populated
              ltac:(vm_compute; reflexivity)) as [Hfound _].
  destruct (Hfound Fake.pendingSnapshot ltac:(vm_compute; reflexivity)) as [Hsame _].
  destruct (Hsame eq_refl) as (_ & _ & _ & Hok).
  apply (Hok (Some {| Seconds := 1540000000; Nanos := 0 |})).
  vm_compute. reflexivity.
Defined.

(** A snapshot found with the requested source volume id does not always
    make the call succeed: when its creation time does not convert, the call
    fails. *)
Lemma CreateSnapshot_found_matching_fails :
  fst (GetSnapshotByName Fake.cloud "late" (backend Fake.populated))
    = (Some Fake.lateSnapshot, None)
  /\ SourceVolumeID Fake.lateSnapshot
     = cs_SourceVolumeId (Fake.snapshotReq "late" "vol-1")
  /\ fst (CreateSnapshot Fake.cloud Fake.constants
            (Fake.snapshotReq "late" "vol-1") Fake.populated)
     = Err (PlainError (ErrOther "timestamp: after 10000-01-01")).
Proof. repeat split; vm_compute; reflexivity. Qed.

Lemma CreateSnapshot_timestamp_failure_witness :
  CreateSnapshot Fake.cloud Fake.constants (Fake.snapshotReq "late" "vol-1")
    Fake.populated
  = (Err (PlainError (ErrOther "timestamp: after 10000-01-01")),
     logged Fake.populated (CallGetSnapshotByName "late") (backend Fake.populated)).
Proof.
  destruct (CreateSnapshot_timestamp_failure Fake.cloud Fake.constants
              (Fake.snapshotReq "late" "vol-1") Fake.populated Fake.lateSnapshot
              None (ErrOther "timestamp: after 10000-01-01")
              ltac:(vm_compute; reflexivity) ltac:(vm_compute; reflexivity))
    as (_ & Hfound & _).
  apply Hfound.
  - vm_compute. reflexivity.
  - left. vm_compute. reflexivity.
  - reflexivity.
Defined.

(** The failure of the timestamp conversion is not reported as an Internal
    status: the call answers the conversion error as it is, which carries no
    status. *)
Lemma CreateSnapshot_timestamp_failure_not_internal :
  TimestampProto (CreationTime Fake.lateSnapshot)
    = (None, Some (ErrOther "timestamp: after 10000-01-01"))
  /\ fst (CreateSnapshot Fake.cloud Fake.constants
            (Fake.snapshotReq "late" "vol-1") Fake.populated)
     = Err (PlainError (ErrOther "timestamp: after 10000-01-01"))
  /\ (forall m,
        fst (CreateSnapshot Fake.cloud Fake.constants
               (Fake.snapshotReq "late" "vol-1") Fake.populated)
        <> Err (StatusError Internal m))
  /\ status_Code (PlainError (ErrOther "timestamp: after 10000-01-01")) <> Internal.
Proof.
  split; [vm_compute; reflexivity|].
  assert (H : fst (CreateSnapshot Fake.cloud Fake.constants
                     (Fake.snapshotReq "late" "vol-1") Fake.populated)
              = Err (PlainError (ErrOther "timestamp: after 10000-01-01")))
    by (vm_compute; reflexivity).
  split; [exact H|]. split; [|discriminate].
  intros m. rewrite H. discriminate.
Qed.

(** * Further properties of the handlers *)

(** ** Which requests are refused before the backend is called *)

Lemma empty_or_not (s : string) : s = "" \/ s <> "".
Proof. destruct s; [left; reflexivity|right; discriminate]. Qed.

Lemma reachesLookup_false_iff (req : CreateVolumeRequest) :
  reachesLookup req = false <->
  cv_Name req = "" \/ exceedsLimit req = true \/ cv_VolumeCapabilities req = []
  \/ ~ Forall supported (cv_VolumeCapabilities req).
Proof.
  unfold reachesLookup. split.
  - intros H. destruct (empty_or_not (cv_Name req)) as [Hn|Hn]; [auto|].
    rewrite (length_nonzero _ Hn) in H. simpl in H.
    destruct (exceedsLimit req); [auto|]. simpl in H.
    destruct (cv_VolumeCapabilities req) as [|c cs] eqn:E; [auto|].
    simpl in H. right. right. right. intros HF.
    apply isValidVolumeCapabilities_Forall in HF. congruence.
  - intros [Hn|[Hl|[Hc|Hs]]].
    + rewrite Hn. reflexivity.
    + rewrite Hl. simpl. rewrite andb_false_r. reflexivity.
    + rewrite Hc. simpl. rewrite andb_false_r. reflexivity.
    + destruct (isValidVolumeCapabilities (cv_VolumeCapabilities req)) eqn:E.
      * apply isValidVolumeCapabilities_Forall in E. contradiction.
      * apply andb_false_r.
Qed.

Lemma reachesSnapshotLookup_false_iff (req : CreateSnapshotRequest) :
  reachesSnapshotLookup req = false <-> cs_Name req = "" \/ cs_SourceVolumeId req = "".
Proof.
  unfold reachesSnapshotLookup. split.
  - intros H. destruct (empty_or_not (cs_Name req)) as [Hn|Hn]; [auto|].
    destruct (empty_or_not (cs_SourceVolumeId req)) as [Hv|Hv]; [auto|].
    rewrite (length_nonzero _ Hn), (length_nonzero _ Hv) in H. discriminate.
  - intros [-> | ->]; [reflexivity|apply andb_false_r].
Qed.

Lemma publishRequestValid_false_iff (req : ControllerPublishVolumeRequest) :
  publishRequestValid req = false <->
  cp_VolumeId req = "" \/ cp_NodeId req = "" \/ cp_VolumeCapability req = None
  \/ exists c, cp_VolumeCapability req = Some c /\ ~ supported c.
Proof.
  unfold publishRequestValid. split.
  - intros H. destruct (empty_or_not (cp_VolumeId req)) as [Hv|Hv]; [auto|].
    destruct (empty_or_not (cp_NodeId req)) as [Hn|Hn]; [auto|].
    rewrite (length_nonzero _ Hv), (length_nonzero _ Hn) in H. simpl in H.
    destruct (cp_VolumeCapability req) as [c|]; [|auto].
    right. right. right. exists c. split; [reflexivity|]. intros Hs.
    assert (HF : Forall supported [c]) by (constructor; [exact Hs|constructor]).
    apply isValidVolumeCapabilities_Forall in HF. congruence.
  - intros [Hv|[Hn|[Hc|(c & Hc & Hs)]]].
    + rewrite Hv. reflexivity.
    + rewrite Hn. simpl. rewrite andb_false_r. reflexivity.
    + rewrite Hc. apply andb_false_r.
    + rewrite Hc. destruct (isValidVolumeCapabilities [c]) eqn:E.
      * apply isValidVolumeCapabilities_Forall in E. inversion E. contradiction.
      * apply andb_false_r.
Qed.

Section Footprints.

Context {S : Type}.
Variable cloud : Cloud S.
Variable K : Constants.

Lemma DeleteVolume_invalid (req : DeleteVolumeRequest) (w : World S) :
  dv_VolumeId req = "" ->
  DeleteVolume cloud req w =
    (Err (StatusError InvalidArgument (Msg "Volume ID not provided")), w).
Proof. intros H. unfold DeleteVolume. step. rewrite H. reflexivity. Qed.

Lemma DeleteSnapshot_invalid (req : DeleteSnapshotRequest) (w : World S) :
  ds_SnapshotId req = "" ->
  DeleteSnapshot cloud req w =
    (Err (StatusError InvalidArgument (Msg "Snapshot ID not provided")), w).
Proof. intros H. unfold DeleteSnapshot. step. rewrite H. reflexivity. Qed.

Lemma ControllerUnpublishVolume_invalid (req : ControllerUnpublishVolumeRequest)
    (w : World S) :
  cu_VolumeId req = "" \/ cu_NodeId req = "" ->
  exists m,
    ControllerUnpublishVolume cloud req w = (Err (StatusError InvalidArgument m), w).
Proof.
  intros H. unfold ControllerUnpublishVolume. step.
  destruct (empty_or_not (cu_VolumeId req)) as [Hv|Hv].
  - rewrite Hv. simpl. eauto.
  - rewrite (length_nonzero _ Hv). simpl.
    destruct H as [H|H]; [contradiction|]. rewrite H. simpl. eauto.
Qed.

Lemma ControllerUnpublishVolume_run (req : ControllerUnpublishVolumeRequest)
    (w : World S) :
  cu_VolumeId req <> "" -> cu_NodeId req <> "" ->
  let detached := DetachDisk cloud (cu_VolumeId req) (cu_NodeId req) (backend w) in
  ControllerUnpublishVolume cloud req w =
    (match fst detached with
     | Some err =>
         Err (status_Errorf Internal "Could not detach volume %q from node %q: %v"
                [ArgString (cu_VolumeId req); ArgString (cu_NodeId req); ArgError err])
     | None => Ok mkControllerUnpublishVolumeResponse
     end,
     logged w (CallDetachDisk (cu_VolumeId req) (cu_NodeId req)) (snd detached)).
Proof.
  intros Hv Hn. unfold ControllerUnpublishVolume. step.
  rewrite (length_nonzero _ Hv), (length_nonzero _ Hn). simpl.
  destruct (DetachDisk cloud (cu_VolumeId req) (cu_NodeId req) (backend w)) as [e s'].
  simpl. destruct e; reflexivity.
Qed.

Lemma ValidateVolumeCapabilities_invalid (req : ValidateVolumeCapabilitiesRequest)
    (w : World S) :
  vc_VolumeId req = "" \/ vc_VolumeCapabilities req = [] ->
  exists m,
    ValidateVolumeCapabilities cloud req w = (Err (StatusError InvalidArgument m), w).
Proof.
  intros H. unfold ValidateVolumeCapabilities. step.
  destruct (empty_or_not (vc_VolumeId req)) as [Hv|Hv].
  - rewrite Hv. simpl. eauto.
  - rewrite (length_nonzero _ Hv). simpl.
    destruct H as [H|H]; [contradiction|]. rewrite H. simpl. eauto.
Qed.

Lemma ValidateVolumeCapabilities_run (req : ValidateVolumeCapabilitiesRequest)
    (w : World S) :
  vc_VolumeId req <> "" -> vc_VolumeCapabilities req <> [] ->
  let look := GetDiskByID cloud (vc_VolumeId req) (backend w) in
  ValidateVolumeCapabilities cloud req w =
    (match snd (fst look) with
     | Some e =>
         if bool_decide (e = ErrNotFound)
         then Err (StatusError NotFound (Msg "Volume not found"))
         else Err (status_Errorf Internal "Could not get volume with ID %q: %v"
                     [ArgString (vc_VolumeId req); ArgError e])
     | None =>
         Ok {| Confirmed :=
                 if isValidVolumeCapabilities (vc_VolumeCapabilities req)
                 then Some {| cf_VolumeCapabilities := vc_VolumeCapabilities req |}
                 else None |}
     end,
     logged w (CallGetDiskByID (vc_VolumeId req)) (snd look)).
Proof.
  intros Hid Hcaps. unfold ValidateVolumeCapabilities. step.
  rewrite (length_nonzero _ Hid). simpl.
  destruct (vc_VolumeCapabilities req) as [|c cs] eqn:Ecaps; [congruence|]. simpl.
  destruct (GetDiskByID cloud (vc_VolumeId req) (backend w)) as [[d e] s']. simpl.
  destruct e as [e|]; [|reflexivity].
  destruct (bool_decide (e = ErrNotFound)); reflexivity.
Qed.

Lemma CreateSnapshot_rejects (req : CreateSnapshotRequest) (w : World S) :
  reachesSnapshotLookup req = false ->
  exists m, CreateSnapshot cloud K req w = (Err (StatusError InvalidArgument m), w).
Proof.
  unfold reachesSnapshotLookup, CreateSnapshot. step.
  destruct (String.length (cs_Name req) =? 0)%nat; simpl; [eauto|].
  destruct (String.length (cs_SourceVolumeId req) =? 0)%nat; simpl; [eauto|].
  discriminate.
Qed.

(** The calls a snapshot creation makes once its request is accepted: the
    lookup, then possibly the creation. *)
Lemma CreateSnapshot_calls (req : CreateSnapshotRequest) (w : World S) :
  reachesSnapshotLookup req = true ->
  let snapshotName := cs_Name req in
  let volumeID := cs_SourceVolumeId req in
  let look := GetSnapshotByName cloud snapshotName (backend w) in
  let opts := {| so_Tags := {[ SnapshotNameTagKey K := snapshotName ]} |} in
  let absent :=
    fst (fst look) = None
    /\ (snd (fst look) = None \/ snd (fst look) = Some ErrNotFound) in
  let since := callsSince w (snd (CreateSnapshot cloud K req w)) in
  (absent /\ since = [CallGetSnapshotByName snapshotName;
                     CallCreateSnapshot volumeID opts])
  \/ (~ absent /\ since = [CallGetSnapshotByName snapshotName]).
Proof.
  intros Hreach snapshotName volumeID look opts absent since.
  pose proof (CreateSnapshot_lookup cloud K req w Hreach) as Hrun. cbv zeta in Hrun.
  fold snapshotName volumeID in Hrun. fold look in Hrun. fold opts in Hrun.
  subst since. rewrite Hrun. clear Hrun. subst absent.
  destruct (fst (fst look)) as [snap|] eqn:Hsnap.
  - right. split; [intros [H _]; discriminate|].
    destruct (snd (fst look)) as [e|]; [destruct (bool_decide (e = ErrNotFound))|];
      try destruct (bool_decide (SourceVolumeID snap = volumeID));
      rewrite ?newCreateSnapshotResponse_world; apply callsSince_logged1.
  - destruct (snd (fst look)) as [e|] eqn:He.
    + destruct (bool_decide_reflect (e = ErrNotFound)) as [->|Hne].
      * left. split; [auto|].
        destruct (snd (fst (CreateSnapshot_ cloud volumeID opts (snd look))));
          rewrite ?newCreateSnapshotResponse_world; apply callsSince_logged2.
      * right. split; [|apply callsSince_logged1].
        intros [_ [H|H]]; congruence.
    + left. split; [auto|].
      destruct (snd (fst (CreateSnapshot_ cloud volumeID opts (snd look))));
        rewrite ?newCreateSnapshotResponse_world; apply callsSince_logged2.
Qed.

Lemma ControllerPublishVolume_first_call (req : ControllerPublishVolumeRequest)
    (w : World S) :
  publishRequestValid req = true ->
  exists rest,
    callsSince w (snd (ControllerPublishVolume cloud K req w)) =
      CallIsExistInstance (cp_NodeId req) :: rest.
Proof.
  intros Hv. rewrite (ControllerPublishVolume_run cloud K req w Hv). cbv zeta.
  destruct (negb _).
  - simpl. rewrite callsSince_logged1. eauto.
  - destruct (snd (fst (GetDiskByID cloud _ _))).
    + simpl. rewrite callsSince_logged2. eauto.
    + destruct (snd (fst (AttachDisk cloud _ _ _))); simpl;
        unfold logged; simpl; rewrite <- !app_assoc; rewrite callsSince_logged;
        simpl; eauto.
Qed.

End Footprints.

(** ** The options of a volume creation *)

Section CreateOptions.

Context {S : Type}.
Variable cloud : Cloud S.
Variable K : Constants.

(** The create path in full: either the request is refused before any
    backend call, because the volume type is io1 and the IOPS parameter does
    not parse or because the content source is not a snapshot, or the
    backend creation is called once with options read off the request. *)
Lemma createNewVolume_options (req : CreateVolumeRequest) (volName : string)
    (volSizeBytes : Z) (fsType : string) (w : World S) :
  let params := cv_Parameters req in
  let run := createNewVolume cloud K req volName volSizeBytes params fsType w in
  (exists m,
     run = (Err (StatusError InvalidArgument m), w)
     /\ ((index params (VolumeTypeKey K) = VolumeTypeIO1 K
          /\ snd (Atoi (index params (IopsPerGBKey K))) <> None)
         \/ (exists src, cv_VolumeContentSource req = Some src
                         /\ forall s, src <> VolumeContentSource_Snapshot (Some s))))
  \/ (exists opts,
        (do_CapacityBytes opts = volSizeBytes
         /\ do_Tags opts = {[ VolumeNameTagKey K := volName ]}
         /\ do_AvailabilityZone opts =
              pickAvailabilityZone K (cv_AccessibilityRequirements req)
         /\ do_VolumeType opts = index params (VolumeTypeKey K))
        /\ ((index params (VolumeTypeKey K) <> VolumeTypeIO1 K -> do_IOPSPerGB opts = 0)
            /\ (index params (VolumeTypeKey K) = VolumeTypeIO1 K ->
                Atoi (index params (IopsPerGBKey K)) = (do_IOPSPerGB opts, None)))
        /\ (do_Encrypted opts = bool_decide (index params (EncryptedKey K) = "true")
            /\ do_KmsKeyID opts =
                 if bool_decide (index params (EncryptedKey K) = "true")
                 then index params (KmsKeyIdKey K) else "")
        /\ ((cv_VolumeContentSource req = None /\ do_SnapshotID opts = "")
            \/ (exists s, cv_VolumeContentSource req
                          = Some (VolumeContentSource_Snapshot (Some s))
                          /\ do_SnapshotID opts = SnapshotId s))
        /\ let made := CreateDisk cloud volName opts (backend w) in
           run =
             (match snd (fst made) with
              | Some err =>
                  Err (status_Errorf Internal "Could not create volume %q: %v"
                         [ArgString volName; ArgError err])
              | None =>
                  match fst (fst made) with
                  | None => Panic
                  | Some disk =>
                      Ok (newCreateVolumeResponse K (Disk_setFsType disk fsType))
                  end
              end,
              logged w (CallCreateDisk volName opts) (snd made))).
Proof.
  unfold createNewVolume. step.
  destruct (bool_decide_reflect
              (index (cv_Parameters req) (VolumeTypeKey K) = VolumeTypeIO1 K))
    as [Hio|Hio];
    [destruct (Atoi (index (cv_Parameters req) (IopsPerGBKey K))) as [n [e|]] eqn:HA|];
    simpl;
    try (left; eexists; split; [reflexivity|left; split; [exact Hio|discriminate]]; fail);
    destruct (bool_decide (index (cv_Parameters req) (EncryptedKey K) = "true"));
    simpl;
    destruct (cv_VolumeContentSource req) as [[|[src|]|v]|];
    simpl;
    try (left; eexists; split; [reflexivity|];
         right; eexists; split; [reflexivity|]; intros s; discriminate);
    right;
    match goal with
    | |- context [CallCreateDisk _ ?o] => exists o
    end;
    (split; [repeat split|]);
    (split; [split; simpl; [intros; try reflexivity; contradiction
                           |intros; try reflexivity; contradiction]|]);
    (split; [split; reflexivity|]);
    (split; [first [left; split; reflexivity
                   |right; eexists; split; reflexivity]|]);
    match goal with
    | |- context [CreateDisk cloud ?n ?o ?s] =>
        destruct (CreateDisk cloud n o s) as [[disk err] s']
    end;
    simpl; destruct err; try reflexivity; destruct disk; reflexivity.
Qed.

End CreateOptions.

(** ** The course of a volume creation *)

Section CreateVolumeTrace.

Context {S : Type}.
Variable cloud : Cloud S.
Variable K : Constants.

(** The four ways a CreateVolume call can go: refused before the lookup;
    stopped by the lookup, with an error or with the volume found; refused on
    the create path; or carried through to the backend creation. *)
Lemma CreateVolume_trace (req : CreateVolumeRequest) (w : World S) :
  let volName := cv_Name req in
  let size := volSizeBytesOf K req in
  let look := GetDiskByName cloud volName size (backend w) in
  let w1 := logged w (CallGetDiskByName volName size) (snd look) in
  let fsType := index (cv_Parameters req) (FsTypeKey K) in
  let run := CreateVolume cloud K req w in
  (reachesLookup req = false
   /\ exists m, run = (Err (StatusError InvalidArgument m), w))
  \/ (reachesLookup req = true /\ ~ absent (fst look) /\ snd run = w1
      /\ ((exists e, snd (fst look) = Some e /\ e <> ErrNotFound
                     /\ fst run =
                          Err (StatusError
                                 (if bool_decide (e = ErrDiskExistsDiffSize)
                                  then AlreadyExists else Internal)
                                 (MsgError e)))
          \/ (exists disk, fst (fst look) = Some disk
                           /\ (snd (fst look) = None
                               \/ snd (fst look) = Some ErrNotFound)
                           /\ fst run =
                                Ok (newCreateVolumeResponse K
                                      (Disk_setFsType disk fsType)))))
  \/ (reachesLookup req = true /\ absent (fst look)
      /\ (~ iopsAccepted K req \/ ~ sourceAccepted req)
      /\ exists m, run = (Err (StatusError InvalidArgument m), w1))
  \/ (reachesLookup req = true /\ absent (fst look)
      /\ iopsAccepted K req /\ sourceAccepted req
      /\ exists opts,
           creationOptions K req size opts
           /\ let made := CreateDisk cloud volName opts (snd look) in
              run =
                (match snd (fst made) with
                 | Some err =>
                     Err (status_Errorf Internal "Could not create volume %q: %v"
                            [ArgString volName; ArgError err])
                 | None =>
                     match fst (fst made) with
                     | None => Panic
                     | Some disk =>
                         Ok (newCreateVolumeResponse K (Disk_setFsType disk fsType))
                     end
                 end,
                 logged w1 (CallCreateDisk volName opts) (snd made))).
Proof.
  intros volName size look w1 fsType run.
  destruct (reachesLookup req) eqn:Hreach;
    [|left; split; [reflexivity|apply CreateVolume_rejects; exact Hreach]].
  right.
  pose proof (CreateVolume_lookup cloud K req w Hreach) as Hrun. cbv zeta in Hrun.
  fold volName size in Hrun. fold look in Hrun. fold w1 fsType run in Hrun.
  assert (Hcreate :
    fst (fst look) = None ->
    (snd (fst look) = None \/ snd (fst look) = Some ErrNotFound) ->
    run = createNewVolume cloud K req volName size (cv_Parameters req) fsType w1 ->
    (true = true /\ absent (fst look)
     /\ (~ iopsAccepted K req \/ ~ sourceAccepted req)
     /\ exists m, run = (Err (StatusError InvalidArgument m), w1))
    \/ (true = true /\ absent (fst look)
        /\ iopsAccepted K req /\ sourceAccepted req
        /\ exists opts,
             creationOptions K req size opts
             /\ let made := CreateDisk cloud volName opts (snd look) in
                run =
                  (match snd (fst made) with
                   | Some err =>
                       Err (status_Errorf Internal "Could not create volume %q: %v"
                              [ArgString volName; ArgError err])
                   | None =>
                       match fst (fst made) with
                       | None => Panic
                       | Some disk =>
                           Ok (newCreateVolumeResponse K (Disk_setFsType disk fsType))
                       end
                   end,
                   logged w1 (CallCreateDisk volName opts) (snd made)))).
  { intros Hd He Hnew.
    destruct (createNewVolume_options cloud K req volName size fsType w1)
      as [(m & Hm & Hwhy)|(opts & H1 & H2 & H3 & H4 & Hmade)].
    - left. split; [reflexivity|]. split; [split; assumption|].
      split; [|exists m; rewrite Hnew; exact Hm].
      destruct Hwhy as [[Hio Hparse]|(src & Hsrc & Hno)].
      + left. intros Hacc. apply Hparse, Hacc, Hio.
      + right. intros [Hnone|[s Hs]]; [congruence|].
        rewrite Hs in Hsrc. injection Hsrc as <-. apply (Hno s). reflexivity.
    - right. split; [reflexivity|]. split; [split; assumption|].
      split; [|split].
      + intros Hio. destruct H2 as [_ H2]. rewrite (H2 Hio). reflexivity.
      + destruct H4 as [[Hn _]|(s & Hs & _)]; [left; exact Hn|right; eauto].
      + exists opts. split; [unfold creationOptions; fold volName; tauto|].
        rewrite Hnew. exact Hmade. }
  destruct (snd (fst look)) as [e|] eqn:He.
  - destruct (bool_decide_reflect (e = ErrNotFound)) as [->|Hne].
    + destruct (fst (fst look)) as [disk|] eqn:Hd.
      * left. split; [reflexivity|]. split; [unfold absent; intros [H _]; congruence|].
        rewrite Hrun. split; [reflexivity|]. right. exists disk. auto.
      * right. apply Hcreate; auto.
    + left. split; [reflexivity|]. split; [unfold absent; intros [_ [H|H]]; congruence|].
      assert (Herr : run =
        (Err (StatusError (if bool_decide (e = ErrDiskExistsDiffSize)
                           then AlreadyExists else Internal) (MsgError e)), w1)).
      { rewrite Hrun. destruct e; try reflexivity. congruence. }
      rewrite Herr. split; [reflexivity|]. left. exists e. auto.
  - destruct (fst (fst look)) as [disk|] eqn:Hd.
    + left. split; [reflexivity|]. split; [unfold absent; intros [H _]; congruence|].
      rewrite Hrun. split; [reflexivity|]. right. exists disk. auto.
    + right. apply Hcreate; auto.
Qed.

End CreateVolumeTrace.

(** ** What CreateVolume asks of the backend *)

Section CreateVolumeCalls.

Context {S : Type}.
Variable cloud : Cloud S.
Variable K : Constants.

(** The backend calls of a CreateVolume call, by the way the call went. *)
Lemma CreateVolume_since (req : CreateVolumeRequest) (w : World S) :
  let volName := cv_Name req in
  let size := volSizeBytesOf K req in
  let look := GetDiskByName cloud volName size (backend w) in
  let since := callsSince w (snd (CreateVolume cloud K req w)) in
  (since = [] /\ reachesLookup req = false)
  \/ (since = [CallGetDiskByName volName size] /\ reachesLookup req = true
      /\ (~ absent (fst look) \/ ~ iopsAccepted K req \/ ~ sourceAccepted req))
  \/ (exists opts,
        since = [CallGetDiskByName volName size; CallCreateDisk volName opts]
        /\ reachesLookup req = true /\ absent (fst look)
        /\ iopsAccepted K req /\ sourceAccepted req
        /\ creationOptions K req size opts).
Proof.
  intros volName size look since.
  destruct (CreateVolume_trace cloud K req w)
    as [(Hr & m & Hm)
       |[(Hr & Hna & Hw & _)
        |[(Hr & Hab & Hwhy & m & Hm)
         |(Hr & Hab & Hio & Hsrc & opts & Hopts & Hrun)]]].
  - left. subst since. rewrite Hm. simpl. rewrite callsSince_refl. auto.
  - right. left. subst since. fold volName size in Hw. fold look in Hw.
    rewrite Hw. rewrite callsSince_logged1. auto.
  - right. left. subst since. fold volName size in Hm. fold look in Hm.
    rewrite Hm. simpl. rewrite callsSince_logged1. tauto.
  - right. right. exists opts. cbv zeta in Hrun. subst since.
    fold volName size in Hrun. fold look in Hrun. rewrite Hrun. simpl.
    rewrite callsSince_logged2. auto 10.
Qed.

(** Every backend creation call of CreateVolume carries the request's name
    and options read off the request, and is made only for a request that
    passed every check and whose lookup found nothing. *)
Lemma CreateVolume_created (req : CreateVolumeRequest) (w : World S)
    (n : string) (opts : DiskOptions) :
  In (CallCreateDisk n opts) (callsSince w (snd (CreateVolume cloud K req w))) ->
  n = cv_Name req
  /\ creationOptions K req (volSizeBytesOf K req) opts
  /\ reachesLookup req = true
  /\ absent (fst (GetDiskByName cloud (cv_Name req) (volSizeBytesOf K req) (backend w)))
  /\ iopsAccepted K req /\ sourceAccepted req.
Proof.
  intros Hin.
  destruct (CreateVolume_since req w)
    as [[Hs _]|[(Hs & _)|(opts' & Hs & Hr & Hab & Hio & Hsrc & Hopts)]];
    cbv zeta in Hs; rewrite Hs in Hin; simpl in Hin.
  - contradiction.
  - destruct Hin as [Hin|[]]. discriminate.
  - destruct Hin as [Hin|[Hin|[]]]; [discriminate|].
    injection Hin as <- <-. auto 10.
Qed.

(** C2. For a request that reaches the lookup, the outcome of the lookup is
    classified so.  Not-found goes on to the create path: when the IOPS
    parameter and the content source are acceptable the backend creation is
    called, as the second and last backend call, with the request's name, the
    normalised size and the options read off the request, and its result
    decides the answer; otherwise the create path refuses the request as an
    invalid argument.  A volume of a different size is an AlreadyExists
    error; several matching records are an Internal error; any other lookup
    failure is an Internal error.  The backend creation is called only when
    the lookup returned no volume and no error other than not-found, which
    for a lookup that returns a volume or an error, never neither, is the
    not-found outcome. *)
Theorem CreateVolume_lookup_classification (req : CreateVolumeRequest) (w : World S) :
  let volName := cv_Name req in
  let volSizeBytes := volSizeBytesOf K req in
  let look := GetDiskByName cloud volName volSizeBytes (backend w) in
  let w1 := logged w (CallGetDiskByName volName volSizeBytes) (snd look) in
  let fsType := index (cv_Parameters req) (FsTypeKey K) in
  let run := CreateVolume cloud K req w in
  (reachesLookup req = true ->
     (fst look = (None, Some ErrNotFound) ->
        run = createNewVolume cloud K req volName volSizeBytes (cv_Parameters req)
                fsType w1
        /\ (iopsAccepted K req -> sourceAccepted req ->
            exists opts,
              creationOptions K req volSizeBytes opts
              /\ callsSince w (snd run) =
                   [CallGetDiskByName volName volSizeBytes;
                    CallCreateDisk volName opts]
              /\ let made := CreateDisk cloud volName opts (snd look) in
                 run =
                   (match snd (fst made) with
                    | Some err =>
                        Err (status_Errorf Internal "Could not create volume %q: %v"
                               [ArgString volName; ArgError err])
                    | None =>
                        match fst (fst made) with
                        | None => Panic
                        | Some disk =>
                            Ok (newCreateVolumeResponse K (Disk_setFsType disk fsType))
                        end
                    end,
                    logged w1 (CallCreateDisk volName opts) (snd made)))
        /\ (~ iopsAccepted K req \/ ~ sourceAccepted req ->
            exists m, run = (Err (StatusError InvalidArgument m), w1)))
     /\ (snd (fst look) = Some ErrDiskExistsDiffSize ->
         run = (Err (StatusError AlreadyExists (MsgError ErrDiskExistsDiffSize)), w1))
     /\ (snd (fst look) = Some ErrMultiDisks ->
         run = (Err (StatusError Internal (MsgError ErrMultiDisks)), w1))
     /\ (forall e, snd (fst look) = Some e ->
           e <> ErrNotFound -> e <> ErrMultiDisks -> e <> ErrDiskExistsDiffSize ->
           run = (Err (StatusError Internal (MsgError e)), w1)))
  /\ (existsb is_create_disk (callsSince w (snd run)) = true ->
      reachesLookup req = true
      /\ fst (fst look) = None
      /\ (snd (fst look) = Some ErrNotFound \/ snd (fst look) = None))
  /\ (conventional (fst look) ->
      existsb is_create_disk (callsSince w (snd run)) = true ->
      fst look = (None, Some ErrNotFound)).
Proof.
  intros volName volSizeBytes look w1 fsType run.
  assert (Hcreate :
    existsb is_create_disk (callsSince w (snd run)) = true ->
    reachesLookup req = true
    /\ fst (fst look) = None
    /\ (snd (fst look) = Some ErrNotFound \/ snd (fst look) = None)).
  { intros Hc.
    destruct (CreateVolume_since req w)
      as [[Hs _]|[(Hs & _)|(opts & _ & Hr & [Hd He] & _)]];
      try (cbv zeta in Hs; fold run in Hs; rewrite Hs in Hc; discriminate Hc).
    fold volName volSizeBytes in Hd, He. fold look in Hd, He. tauto. }
  split; [|split; [exact Hcreate|]].
  - intros Hreach.
    pose proof (CreateVolume_lookup cloud K req w Hreach) as Hrun. cbv zeta in Hrun.
    fold volName volSizeBytes in Hrun. fold look in Hrun. fold w1 fsType run in Hrun.
    split; [|split; [|split]].
    + intros Hl. rewrite Hl in Hrun. simpl in Hrun. split; [exact Hrun|].
      destruct (CreateVolume_trace cloud K req w)
        as [(Hr' & _)
           |[(_ & Hna & _)
            |[(_ & _ & Hwhy & m & Hm)
             |(_ & _ & Hio & Hsrc & opts & Hopts & Hmade)]]].
      * congruence.
      * exfalso. apply Hna. fold volName volSizeBytes. fold look. rewrite Hl.
        split; [reflexivity|right; reflexivity].
      * split; [tauto|]. intros _. exists m. exact Hm.
      * split; [|tauto]. intros _ _. exists opts. split; [exact Hopts|].
        cbv zeta in Hmade. fold volName volSizeBytes in Hmade. fold look in Hmade.
        fold w1 fsType run in Hmade. split; [|exact Hmade].
        rewrite Hmade. simpl. apply callsSince_logged2.
    + intros He. rewrite He in Hrun. exact Hrun.
    + intros He. rewrite He in Hrun. exact Hrun.
    + intros e He H1 H2 H3. rewrite He in Hrun. destruct e; congruence.
  - intros Hconv Hc. destruct (Hcreate Hc) as (_ & Hd & He).
    destruct (fst look) as [d e]. simpl in *. subst d.
    destruct He as [->| ->]; [reflexivity|].
    exfalso. apply (proj1 Hconv); reflexivity.
Qed.

(** X3. CreateVolume makes no backend call, or the by-name lookup alone, or
    the lookup followed by one creation, always with the request's name and
    the normalised size; the creation is called exactly when the request
    passes the checks, the lookup returns no volume and no error other than
    not-found, the IOPS parameter is acceptable and the content source is
    absent or a snapshot. *)
Theorem CreateVolume_call_footprint (req : CreateVolumeRequest) (w : World S) :
  let volName := cv_Name req in
  let size := volSizeBytesOf K req in
  let look := GetDiskByName cloud volName size (backend w) in
  let since := callsSince w (snd (CreateVolume cloud K req w)) in
  (since = []
   \/ since = [CallGetDiskByName volName size]
   \/ exists opts,
        since = [CallGetDiskByName volName size; CallCreateDisk volName opts]
        /\ do_CapacityBytes opts = size
        /\ do_Tags opts = {[ VolumeNameTagKey K := volName ]}
        /\ do_AvailabilityZone opts =
             pickAvailabilityZone K (cv_AccessibilityRequirements req))
  /\ (existsb is_create_disk since = true <->
      reachesLookup req = true /\ absent (fst look)
      /\ iopsAccepted K req /\ sourceAccepted req).
Proof.
  intros volName size look since.
  destruct (CreateVolume_since req w)
    as [[Hs Hr]|[(Hs & Hr & Hwhy)|(opts & Hs & Hr & Hab & Hio & Hsrc & Hopts)]];
    cbv zeta in Hs; fold volName size in Hs; fold since in Hs; rewrite Hs.
  - split; [auto|]. simpl. split; [discriminate|]. intros [H _]. congruence.
  - split; [auto|]. simpl. split; [discriminate|].
    intros (_ & Hab & Hio & Hsrc). fold volName size in Hwhy. fold look in Hwhy.
    tauto.
  - split.
    + right. right. exists opts. split; [reflexivity|].
      destruct Hopts as [(H1 & H2 & H3 & _) _]. auto.
    + simpl. split; [|reflexivity]. intros _. auto.
Qed.

(** X4. When the request carries a positive limit, every size CreateVolume
    passes to the backend, to the lookup and to the creation alike, is within
    that limit; and CreateVolume makes no backend call of another kind. *)
Theorem CreateVolume_respects_limit (req : CreateVolumeRequest) (w : World S)
    (capRange : CapacityRange) :
  cv_CapacityRange req = Some capRange ->
  0 < LimitBytes capRange ->
  forall c, In c (callsSince w (snd (CreateVolume cloud K req w))) ->
    match c with
    | CallGetDiskByName _ capacityBytes => capacityBytes <= LimitBytes capRange
    | CallCreateDisk _ opts => do_CapacityBytes opts <= LimitBytes capRange
    | _ => False
    end.
Proof.
  intros Hrange Hpos c Hin.
  assert (Hbound : reachesLookup req = true ->
                   volSizeBytesOf K req <= LimitBytes capRange).
  { unfold reachesLookup, exceedsLimit, volSizeBytesOf. rewrite Hrange.
    intros H. apply Z.ltb_lt in Hpos. rewrite Hpos in H. simpl in H.
    destruct (LimitBytes capRange <? RoundUpBytes (RequiredBytes capRange)) eqn:E.
    - simpl in H. rewrite andb_false_r in H. discriminate.
    - apply Z.ltb_ge in E. exact E. }
  destruct (CreateVolume_since req w)
    as [[Hs _]|[(Hs & Hr & _)|(opts & Hs & Hr & _ & _ & _ & Hopts)]];
    cbv zeta in Hs; rewrite Hs in Hin; simpl in Hin.
  - contradiction.
  - destruct Hin as [<-|[]]. auto.
  - destruct Hopts as [(Hcap & _) _].
    destruct Hin as [<-|[<-|[]]]; [auto|]. rewrite Hcap. auto.
Qed.

(** X5. The IOPS figure of a creation is zero unless the volume type is io1,
    whatever the IOPS parameter holds, and is the parsed IOPS parameter when
    the type is io1.  An io1 request whose IOPS parameter does not parse, as
    when it is missing, is refused as an invalid argument once the lookup
    has found nothing, and nothing is created. *)
Theorem CreateVolume_iops (req : CreateVolumeRequest) (w : World S) :
  let params := cv_Parameters req in
  let volName := cv_Name req in
  let size := volSizeBytesOf K req in
  let look := GetDiskByName cloud volName size (backend w) in
  let w1 := logged w (CallGetDiskByName volName size) (snd look) in
  let run := CreateVolume cloud K req w in
  (forall n opts, In (CallCreateDisk n opts) (callsSince w (snd run)) ->
     (index params (VolumeTypeKey K) <> VolumeTypeIO1 K -> do_IOPSPerGB opts = 0)
     /\ (index params (VolumeTypeKey K) = VolumeTypeIO1 K ->
         Atoi (index params (IopsPerGBKey K)) = (do_IOPSPerGB opts, None)))
  /\ (reachesLookup req = true -> absent (fst look) ->
      index params (VolumeTypeKey K) = VolumeTypeIO1 K ->
      (snd (Atoi (index params (IopsPerGBKey K))) <> None
       \/ params !! IopsPerGBKey K = None) ->
      exists m, run = (Err (StatusError InvalidArgument m), w1)).
Proof.
  intros params volName size look w1 run. split.
  - intros n opts Hin.
    destruct (CreateVolume_created req w n opts Hin) as (_ & Hopts & _).
    destruct Hopts as (_ & Hiops & _). exact Hiops.
  - intros Hr Hab Hio Hbad.
    assert (Hparse : snd (Atoi (index params (IopsPerGBKey K))) <> None).
    { destruct Hbad as [H|H]; [exact H|].
      unfold index. rewrite H. simpl. discriminate. }
    destruct (CreateVolume_trace cloud K req w)
      as [(Hr' & _)
         |[(_ & Hna & _)
          |[(_ & _ & _ & m & Hm)
           |(_ & _ & Hacc & _)]]].
    + congruence.
    + contradiction.
    + exists m. exact Hm.
    + exfalso. apply Hparse, Hacc, Hio.
Qed.

(** X6. A creation is encrypted exactly when the encrypted parameter is the
    string "true"; the key id parameter is passed on only then, and the key
    id is empty otherwise, whatever the request holds under the key-id
    parameter. *)
Theorem CreateVolume_encryption (req : CreateVolumeRequest) (w : World S)
    (n : string) (opts : DiskOptions) :
  In (CallCreateDisk n opts) (callsSince w (snd (CreateVolume cloud K req w))) ->
  let params := cv_Parameters req in
  (do_Encrypted opts = true <-> index params (EncryptedKey K) = "true")
  /\ (do_Encrypted opts = true -> do_KmsKeyID opts = index params (KmsKeyIdKey K))
  /\ (do_Encrypted opts = false -> do_KmsKeyID opts = "").
Proof.
  intros Hin params.
  destruct (CreateVolume_created req w n opts Hin) as (_ & Hopts & _).
  destruct Hopts as (_ & _ & (Henc & Hkey) & _). fold params in Henc, Hkey.
  rewrite Henc, Hkey.
  destruct (bool_decide_reflect (index params (EncryptedKey K) = "true")) as [He|He].
  - split; [tauto|]. split; [reflexivity|discriminate].
  - split; [split; [discriminate|contradiction]|].
    split; [discriminate|reflexivity].
Qed.

(** X7. A creation carries the snapshot id of the request's content source,
    and the empty id when the request has no content source.  A content
    source that is not a snapshot, or that names no snapshot, is refused as an
    invalid argument once the lookup has found nothing, and nothing is
    created. *)
Theorem CreateVolume_content_source (req : CreateVolumeRequest) (w : World S) :
  let volName := cv_Name req in
  let size := volSizeBytesOf K req in
  let look := GetDiskByName cloud volName size (backend w) in
  let w1 := logged w (CallGetDiskByName volName size) (snd look) in
  let run := CreateVolume cloud K req w in
  (forall n opts, In (CallCreateDisk n opts) (callsSince w (snd run)) ->
     (cv_VolumeContentSource req = None /\ do_SnapshotID opts = "")
     \/ (exists s, cv_VolumeContentSource req
                   = Some (VolumeContentSource_Snapshot (Some s))
                   /\ do_SnapshotID opts = SnapshotId s))
  /\ (reachesLookup req = true -> absent (fst look) ->
      forall src, cv_VolumeContentSource req = Some src ->
        (forall s, src <> VolumeContentSource_Snapshot (Some s)) ->
        exists m, run = (Err (StatusError InvalidArgument m), w1)).
Proof.
  intros volName size look w1 run. split.
  - intros n opts Hin.
    destruct (CreateVolume_created req w n opts Hin) as (_ & Hopts & _).
    destruct Hopts as (_ & _ & _ & Hsrc). exact Hsrc.
  - intros Hr Hab src Hsrc Hno.
    destruct (CreateVolume_trace cloud K req w)
      as [(Hr' & _)
         |[(_ & Hna & _)
          |[(_ & _ & _ & m & Hm)
           |(_ & _ & _ & Hacc & _)]]].
    + congruence.
    + contradiction.
    + exists m. exact Hm.
    + exfalso. destruct Hacc as [Hnone|[s Hs]]; [congruence|].
      rewrite Hs in Hsrc. injection Hsrc as <-. apply (Hno s). reflexivity.
Qed.

(** X8. When CreateVolume goes through to the backend creation, a backend
    error is an Internal status, and a created disk is answered with its
    identifier, its capacity converted to bytes and its zone; in both cases
    the creation call has been made.  A creation that returns neither a disk
    nor an error makes the handler panic. *)
Theorem CreateVolume_fresh_outcome (req : CreateVolumeRequest) (w : World S) :
  let volName := cv_Name req in
  let size := volSizeBytesOf K req in
  let look := GetDiskByName cloud volName size (backend w) in
  let w1 := logged w (CallGetDiskByName volName size) (snd look) in
  let run := CreateVolume cloud K req w in
  reachesLookup req = true -> absent (fst look) ->
  iopsAccepted K req -> sourceAccepted req ->
  exists opts,
    creationOptions K req size opts
    /\ let made := CreateDisk cloud volName opts (snd look) in
       snd run = logged w1 (CallCreateDisk volName opts) (snd made)
       /\ (forall err, snd (fst made) = Some err ->
             fst run = Err (StatusError Internal
                              (Msgf "Could not create volume %q: %v"
                                 [ArgString volName; ArgError err])))
       /\ (forall disk, fst made = (Some disk, None) ->
             exists resp, fst run = Ok resp
               /\ VolumeId (cv_Volume resp) = VolumeID disk
               /\ CapacityBytes (cv_Volume resp) = GiBToBytes (CapacityGiB disk)
               /\ AccessibleTopology (cv_Volume resp) =
                    [ {| Segments := {[ TopologyKey K := AvailabilityZone disk ]} |} ])
       /\ (fst made = (None, None) -> fst run = Panic).
Proof.
  intros volName size look w1 run Hr Hab Hio Hsrc.
  destruct (CreateVolume_trace cloud K req w)
    as [(Hr' & _)
       |[(_ & Hna & _)
        |[(_ & _ & Hwhy & _)
         |(_ & _ & _ & _ & opts & Hopts & Hrun)]]].
  - congruence.
  - contradiction.
  - tauto.
  - exists opts. split; [exact Hopts|]. cbv zeta in Hrun.
    fold volName size in Hrun. fold look in Hrun. fold w1 run in Hrun.
    cbv zeta. rewrite Hrun. simpl. split; [reflexivity|]. split; [|split].
    + intros err ->. reflexivity.
    + intros disk ->. simpl. eexists. split; [reflexivity|]. simpl. auto.
    + intros ->. reflexivity.
Qed.

End CreateVolumeCalls.

Lemma CreateVolume_lookup_classification_witness :
  (exists opts,
     creationOptions Fake.constants (Fake.createReq "v" None) (100 * GiB) opts
     /\ callsSince Fake.start
          (snd (CreateVolume Fake.cloud Fake.constants (Fake.createReq "v" None)
                  Fake.start))
        = [CallGetDiskByName "v" (100 * GiB); CallCreateDisk "v" opts]
     /\ exists resp,
          fst (CreateVolume Fake.cloud Fake.constants (Fake.createReq "v" None)
                 Fake.start) = Ok resp
          /\ VolumeId (cv_Volume resp) = "vol-v")
  /\ fst (CreateVolume Fake.cloud Fake.constants
            (Fake.createReq "one" (Some {| RequiredBytes := 2 * GiB; LimitBytes := 0 |}))
            Fake.populated)
     = Err (StatusError AlreadyExists (MsgError ErrDiskExistsDiffSize)).
Proof.
  split.
  - destruct (CreateVolume_lookup_classification Fake.cloud Fake.constants
                (Fake.createReq "v" None) Fake.start) as [Hclass _].
    destruct (Hclass ltac:(vm_compute; reflexivity)) as [Habsent _].
    destruct (Habsent ltac:(vm_compute; reflexivity)) as (_ & Hcreate & _).
    destruct Hcreate as (opts & Hopts & Hcalls & Hrun).
    + intros H. vm_compute in H. discriminate H.
    + left. reflexivity.
    + exists opts. split; [exact Hopts|]. split; [exact Hcalls|].
      cbv zeta in Hrun. rewrite Hrun. simpl. eexists. split; reflexivity.
  - destruct (CreateVolume_lookup_classification Fake.cloud Fake.constants
                (Fake.createReq "one"
                   (Some {| RequiredBytes := 2 * GiB; LimitBytes := 0 |}))
                Fake.populated) as [Hclass _].
    destruct (Hclass ltac:(vm_compute; reflexivity)) as (_ & Hdiff & _).
    rewrite (Hdiff ltac:(vm_compute; reflexivity)). reflexivity.
Defined.

(** ** Validation and the backend *)

Section Validation.

Context {S : Type}.
Variable cloud : Cloud S.
Variable K : Constants.

(** X1. Every handler refuses a request with a missing identifier or
    capability as an invalid argument and leaves the world as it was, and it
    makes no backend call only then: a request that passes validation always
    reaches the backend. *)
Theorem backend_called_iff_request_valid (w : World S) :
  (forall req,
     let run := CreateVolume cloud K req w in
     let invalid :=
       cv_Name req = "" \/ exceedsLimit req = true
       \/ cv_VolumeCapabilities req = []
       \/ ~ Forall supported (cv_VolumeCapabilities req) in
     (invalid -> exists m, run = (Err (StatusError InvalidArgument m), w))
     /\ (callsSince w (snd run) = [] <-> invalid))
  /\ (forall req,
     let run := DeleteVolume cloud req w in
     (dv_VolumeId req = "" -> exists m, run = (Err (StatusError InvalidArgument m), w))
     /\ (callsSince w (snd run) = [] <-> dv_VolumeId req = ""))
  /\ (forall req,
     let run := ControllerPublishVolume cloud K req w in
     let invalid :=
       cp_VolumeId req = "" \/ cp_NodeId req = "" \/ cp_VolumeCapability req = None
       \/ exists c, cp_VolumeCapability req = Some c /\ ~ supported c in
     (invalid -> exists m, run = (Err (StatusError InvalidArgument m), w))
     /\ (callsSince w (snd run) = [] <-> invalid))
  /\ (forall req,
     let run := ControllerUnpublishVolume cloud req w in
     let invalid := cu_VolumeId req = "" \/ cu_NodeId req = "" in
     (invalid -> exists m, run = (Err (StatusError InvalidArgument m), w))
     /\ (callsSince w (snd run) = [] <-> invalid))
  /\ (forall req,
     let run := ValidateVolumeCapabilities cloud req w in
     let invalid := vc_VolumeId req = "" \/ vc_VolumeCapabilities req = [] in
     (invalid -> exists m, run = (Err (StatusError InvalidArgument m), w))
     /\ (callsSince w (snd run) = [] <-> invalid))
  /\ (forall req,
     let run := CreateSnapshot cloud K req w in
     let invalid := cs_Name req = "" \/ cs_SourceVolumeId req = "" in
     (invalid -> exists m, run = (Err (StatusError InvalidArgument m), w))
     /\ (callsSince w (snd run) = [] <-> invalid))
  /\ (forall req,
     let run := DeleteSnapshot cloud req w in
     (ds_SnapshotId req = "" -> exists m, run = (Err (StatusError InvalidArgument m), w))
     /\ (callsSince w (snd run) = [] <-> ds_SnapshotId req = "")).
Proof.
  assert (Hnone : forall A (r : Result A),
            callsSince w (snd (r, w)) = []).
  { intros. simpl. apply callsSince_refl. }
  repeat apply conj.
  - intros req run invalid.
    assert (Hrej : invalid -> exists m, run = (Err (StatusError InvalidArgument m), w)).
    { intros H. apply CreateVolume_rejects, reachesLookup_false_iff, H. }
    split; [exact Hrej|]. split.
    + intros Hs. apply reachesLookup_false_iff.
      destruct (reachesLookup req) eqn:E; [|reflexivity].
      destruct (CreateVolume_lookup_logged cloud K req w E) as [rest Hrest].
      fold run in Hrest. congruence.
    + intros H. destruct (Hrej H) as [m ->]. apply Hnone.
  - intros req run.
    split; [intros H; eexists; apply DeleteVolume_invalid; exact H|]. split.
    + intros Hs. destruct (empty_or_not (dv_VolumeId req)) as [H|H]; [exact H|].
      unfold run in Hs. rewrite (DeleteVolume_run cloud req w H) in Hs.
      simpl in Hs. rewrite callsSince_logged1 in Hs. discriminate.
    + intros H. unfold run. rewrite (DeleteVolume_invalid cloud req w H). apply Hnone.
  - intros req run invalid.
    assert (Hrej : invalid -> exists m, run = (Err (StatusError InvalidArgument m), w)).
    { intros H. apply ControllerPublishVolume_invalid, publishRequestValid_false_iff, H. }
    split; [exact Hrej|]. split.
    + intros Hs. apply publishRequestValid_false_iff.
      destruct (publishRequestValid req) eqn:E; [|reflexivity].
      destruct (ControllerPublishVolume_first_call cloud K req w E) as [rest Hrest].
      fold run in Hrest. congruence.
    + intros H. destruct (Hrej H) as [m ->]. apply Hnone.
  - intros req run invalid.
    assert (Hrej : invalid -> exists m, run = (Err (StatusError InvalidArgument m), w)).
    { apply ControllerUnpublishVolume_invalid. }
    split; [exact Hrej|]. split.
    + intros Hs. destruct (empty_or_not (cu_VolumeId req)) as [Hv|Hv]; [left; exact Hv|].
      destruct (empty_or_not (cu_NodeId req)) as [Hn|Hn]; [right; exact Hn|].
      unfold run in Hs. rewrite (ControllerUnpublishVolume_run cloud req w Hv Hn) in Hs.
      simpl in Hs. rewrite callsSince_logged1 in Hs. discriminate.
    + intros H. destruct (Hrej H) as [m ->]. apply Hnone.
  - intros req run invalid.
    assert (Hrej : invalid -> exists m, run = (Err (StatusError InvalidArgument m), w)).
    { apply ValidateVolumeCapabilities_invalid. }
    split; [exact Hrej|]. split.
    + intros Hs. destruct (empty_or_not (vc_VolumeId req)) as [Hv|Hv]; [left; exact Hv|].
      destruct (vc_VolumeCapabilities req) as [|c cs] eqn:Hc; [right; reflexivity|].
      unfold run in Hs.
      rewrite (ValidateVolumeCapabilities_run cloud req w Hv) in Hs
        by (rewrite Hc; discriminate).
      simpl in Hs. rewrite callsSince_logged1 in Hs. discriminate.
    + intros H. destruct (Hrej H) as [m ->]. apply Hnone.
  - intros req run invalid.
    assert (Hrej : invalid -> exists m, run = (Err (StatusError InvalidArgument m), w)).
    { intros H. apply CreateSnapshot_rejects, reachesSnapshotLookup_false_iff, H. }
    split; [exact Hrej|]. split.
    + intros Hs. apply reachesSnapshotLookup_false_iff.
      destruct (reachesSnapshotLookup req) eqn:E; [|reflexivity].
      destruct (CreateSnapshot_calls cloud K req w E) as [[_ Hc]|[_ Hc]];
        cbv zeta in Hc; fold run in Hc; congruence.
    + intros H. destruct (Hrej H) as [m ->]. apply Hnone.
  - intros req run.
    split; [intros H; eexists; apply DeleteSnapshot_invalid; exact H|]. split.
    + intros Hs. destruct (empty_or_not (ds_SnapshotId req)) as [H|H]; [exact H|].
      unfold run in Hs. rewrite (DeleteSnapshot_run cloud req w H) in Hs.
      simpl in Hs. rewrite callsSince_logged1 in Hs. discriminate.
    + intros H. unfold run. rewrite (DeleteSnapshot_invalid cloud req w H). apply Hnone.
Qed.

(** X2. With both identifiers present, ControllerUnpublishVolume makes one
    backend call, the detach of that volume from that node, and answers the
    empty response exactly when the backend reports no error.  Every backend
    error is an Internal status, not-found included: unlike the delete
    handlers, detaching what is not there is not turned into a success. *)
Theorem ControllerUnpublishVolume_detaches
    (req : ControllerUnpublishVolumeRequest) (w : World S) :
  cu_VolumeId req <> "" -> cu_NodeId req <> "" ->
  let detached := DetachDisk cloud (cu_VolumeId req) (cu_NodeId req) (backend w) in
  let run := ControllerUnpublishVolume cloud req w in
  callsSince w (snd run) = [CallDetachDisk (cu_VolumeId req) (cu_NodeId req)]
  /\ backend (snd run) = snd detached
  /\ (fst run = Ok mkControllerUnpublishVolumeResponse <-> fst detached = None)
  /\ (forall e, fst detached = Some e ->
        fst run = Err (StatusError Internal
                         (Msgf "Could not detach volume %q from node %q: %v"
                            [ArgString (cu_VolumeId req); ArgString (cu_NodeId req);
                             ArgError e])))
  /\ (fst detached = Some ErrNotFound -> forall resp, fst run <> Ok resp).
Proof.
  intros Hv Hn detached run. unfold run.
  rewrite (ControllerUnpublishVolume_run cloud req w Hv Hn). cbv zeta. fold detached.
  simpl. rewrite callsSince_logged1. split; [reflexivity|]. split; [reflexivity|].
  destruct (fst detached) as [e|].
  - split; [split; discriminate|]. split; [intros e' [= <-]; reflexivity|].
    intros _ resp. discriminate.
  - split; [tauto|]. split; discriminate.
Qed.

End Validation.

(** ** Snapshots *)

Section SnapshotCalls.

Context {S : Type}.
Variable cloud : Cloud S.
Variable K : Constants.

(** X9. A lookup failure other than not-found stops CreateSnapshot right
    after the lookup, whether or not the lookup also returned a snapshot: the
    backend error is answered as it is, with no status attached, and nothing
    is created. *)
Theorem CreateSnapshot_lookup_failure (req : CreateSnapshotRequest) (w : World S)
    (e : error) :
  reachesSnapshotLookup req = true ->
  let look := GetSnapshotByName cloud (cs_Name req) (backend w) in
  let run := CreateSnapshot cloud K req w in
  snd (fst look) = Some e -> e <> ErrNotFound ->
  run = (Err (PlainError e), logged w (CallGetSnapshotByName (cs_Name req)) (snd look))
  /\ callsSince w (snd run) = [CallGetSnapshotByName (cs_Name req)]
  /\ status_Code (PlainError e) = Unknown.
Proof.
  intros Hreach look run He Hne.
  assert (Hrun : run = (Err (PlainError e),
                        logged w (CallGetSnapshotByName (cs_Name req)) (snd look))).
  { unfold run. rewrite (CreateSnapshot_lookup cloud K req w Hreach). cbv zeta.
    fold look. rewrite He. rewrite bool_decide_eq_false_2 by exact Hne. reflexivity. }
  rewrite Hrun. simpl. rewrite callsSince_logged1. auto.
Qed.

(** X10. For a request that reaches the lookup, CreateSnapshot calls the
    backend creation exactly when the lookup returned no snapshot and no
    error other than not-found; the creation is then its second and last
    backend call, for the requested source volume and with the name tag as
    its only tag.  A backend error of the creation is an Internal status, and
    a created snapshot is answered by its translation. *)
Theorem CreateSnapshot_creates_iff_absent (req : CreateSnapshotRequest) (w : World S) :
  reachesSnapshotLookup req = true ->
  let snapshotName := cs_Name req in
  let volumeID := cs_SourceVolumeId req in
  let look := GetSnapshotByName cloud snapshotName (backend w) in
  let w1 := logged w (CallGetSnapshotByName snapshotName) (snd look) in
  let opts := {| so_Tags := {[ SnapshotNameTagKey K := snapshotName ]} |} in
  let made := CreateSnapshot_ cloud volumeID opts (snd look) in
  let w2 := logged w1 (CallCreateSnapshot volumeID opts) (snd made) in
  let run := CreateSnapshot cloud K req w in
  let since := callsSince w (snd run) in
  (existsb is_create_snapshot since = true <-> absent (fst look))
  /\ (absent (fst look) ->
      since = [CallGetSnapshotByName snapshotName; CallCreateSnapshot volumeID opts]
      /\ (forall e, snd (fst made) = Some e ->
            run = (Err (StatusError Internal
                          (Msgf "Could not create snapshot %q: %v"
                             [ArgString snapshotName; ArgError e])), w2))
      /\ (snd (fst made) = None ->
            run = newCreateSnapshotResponse (fst (fst made)) w2))
  /\ (~ absent (fst look) -> since = [CallGetSnapshotByName snapshotName]).
Proof.
  intros Hreach snapshotName volumeID look w1 opts made w2 run since.
  assert (Hcalls := CreateSnapshot_calls cloud K req w Hreach). cbv zeta in Hcalls.
  fold snapshotName volumeID in Hcalls. fold look in Hcalls.
  fold opts run in Hcalls. fold since in Hcalls.
  change (fst (fst look) = None
          /\ (snd (fst look) = None \/ snd (fst look) = Some ErrNotFound))
    with (absent (fst look)) in Hcalls.
  split; [|split].
  - destruct Hcalls as [[Hab ->]|[Hna ->]]; simpl.
    + tauto.
    + split; [discriminate|contradiction].
  - intros Hab. destruct Hcalls as [[_ Hs]|[Hna _]]; [|contradiction].
    split; [exact Hs|].
    pose proof (CreateSnapshot_lookup cloud K req w Hreach) as Hrun. cbv zeta in Hrun.
    fold snapshotName volumeID in Hrun. fold look in Hrun. fold w1 opts in Hrun.
    fold made in Hrun. fold w2 run in Hrun.
    destruct Hab as [Hnone Herr]. rewrite Hnone in Hrun.
    assert (Hrun' : run =
      match snd (fst made) with
      | Some e =>
          (Err (status_Errorf Internal "Could not create snapshot %q: %v"
                  [ArgString snapshotName; ArgError e]), w2)
      | None => newCreateSnapshotResponse (fst (fst made)) w2
      end).
    { destruct Herr as [He|He]; rewrite He in Hrun; exact Hrun. }
    rewrite Hrun'. split.
    + intros e ->. reflexivity.
    + intros ->. reflexivity.
  - intros Hna. destruct Hcalls as [[Hab _]|[_ Hs]]; [contradiction|exact Hs].
Qed.

End SnapshotCalls.

(** ** Panics *)

Section Panics.

Context {S : Type}.
Variable cloud : Cloud S.
Variable K : Constants.

Lemma newCreateSnapshotResponse_no_panic (snap : cloud_Snapshot) (w : World S) :
  fst (newCreateSnapshotResponse (Some snap) w) <> Panic.
Proof.
  unfold newCreateSnapshotResponse.
  destruct (TimestampProto (CreationTime snap)) as [ts [e|]]; discriminate.
Qed.

(** X11. CreateSnapshot and DeleteSnapshot read their request through its
    getters only and take no capability list.  CreateSnapshot panics exactly
    when the request has a name and a source volume id, the lookup returned
    no snapshot and no error other than not-found, and the backend creation
    then returned neither a snapshot nor an error: the translation reads the
    creation time of a nil snapshot.  So with a backend whose snapshot
    creation always returns a snapshot or an error it never panics.
    DeleteSnapshot never panics. *)
Theorem snapshot_handlers_panic_only_on_empty_creation (w : World S) :
  (forall req,
     let look := GetSnapshotByName cloud (cs_Name req) (backend w) in
     let opts := {| so_Tags := {[ SnapshotNameTagKey K := cs_Name req ]} |} in
     let made := CreateSnapshot_ cloud (cs_SourceVolumeId req) opts (snd look) in
     fst (CreateSnapshot cloud K req w) = Panic <->
     reachesSnapshotLookup req = true /\ absent (fst look)
     /\ fst made = (None, None))
  /\ ((forall v opts s, conventional (fst (CreateSnapshot_ cloud v opts s))) ->
      forall req, fst (CreateSnapshot cloud K req w) <> Panic)
  /\ (forall req, fst (DeleteSnapshot cloud req w) <> Panic).
Proof.
  assert (Hiff : forall req,
     let look := GetSnapshotByName cloud (cs_Name req) (backend w) in
     let opts := {| so_Tags := {[ SnapshotNameTagKey K := cs_Name req ]} |} in
     let made := CreateSnapshot_ cloud (cs_SourceVolumeId req) opts (snd look) in
     fst (CreateSnapshot cloud K req w) = Panic <->
     reachesSnapshotLookup req = true /\ absent (fst look)
     /\ fst made = (None, None)).
  { intros req look opts made. unfold absent.
    destruct (reachesSnapshotLookup req) eqn:Hreach.
    - rewrite (CreateSnapshot_lookup cloud K req w Hreach). cbv zeta.
      fold look. fold opts. fold made.
      destruct (snd (fst look)) as [e0|];
        [destruct (bool_decide_reflect (e0 = ErrNotFound)) as [->|Hne];
         [|split; [discriminate|intros (_ & (_ & [H|H]) & _); congruence]]|];
        (destruct (fst (fst look)) as [snap|];
         [split;
          [destruct (bool_decide (SourceVolumeID snap = cs_SourceVolumeId req));
           [intros Hp; exfalso; exact (newCreateSnapshotResponse_no_panic _ _ Hp)
           |discriminate]
          |intros (_ & (H & _) & _); discriminate H]
         |destruct (fst made) as [d e]; cbn [fst snd];
          destruct e as [e|];
          [split; [discriminate|intros (_ & _ & H); discriminate H]|];
          destruct d as [snap|];
          [split;
           [intros Hp; exfalso; exact (newCreateSnapshotResponse_no_panic _ _ Hp)
           |intros (_ & _ & H); discriminate H]
          |split; [intros _; auto|intros _; reflexivity]]]).
    - destruct (CreateSnapshot_rejects cloud K req w Hreach) as [m ->].
      split; [discriminate|intros [H _]; discriminate H]. }
  split; [exact Hiff|]. split.
  - intros Hconv req Hp. apply Hiff in Hp. destruct Hp as (_ & _ & Hnn).
    match type of Hnn with
    | fst (CreateSnapshot_ cloud ?v ?o ?s) = _ => specialize (Hconv v o s)
    end.
    rewrite Hnn in Hconv. apply (proj1 Hconv); reflexivity.
  - intros req. destruct (empty_or_not (ds_SnapshotId req)) as [H|H].
    + rewrite (DeleteSnapshot_invalid cloud req w H). discriminate.
    + rewrite (DeleteSnapshot_run cloud req w H). simpl.
      destruct (snd (fst (DeleteSnapshot_ cloud _ _))) as [e|]; [|discriminate].
      destruct (bool_decide (e = ErrNotFound)); discriminate.
Qed.

End Panics.

(** ** Capability lists *)

(** X12. The capability check accepts a list exactly when every capability
    in it is supported: it is the conjunction over the list, so the empty
    list is accepted (which is why the handlers check for it apart), a list
    is accepted when both halves of it are, the order of the list does not
    matter, and one capability without an access mode, or with a mode other
    than single-node writer, makes the whole list unsupported. *)
Theorem isValidVolumeCapabilities_conjunction :
  isValidVolumeCapabilities [] = true
  /\ (forall volCaps,
        isValidVolumeCapabilities volCaps = forallb hasSupport volCaps)
  /\ (forall l1 l2,
        isValidVolumeCapabilities (l1 ++ l2) =
          isValidVolumeCapabilities l1 && isValidVolumeCapabilities l2)
  /\ (forall l1 l2, Permutation l1 l2 ->
        isValidVolumeCapabilities l1 = isValidVolumeCapabilities l2)
  /\ (forall cap l1 l2,
        GetMode (AccessMode cap) <> VolumeCapability_AccessMode_SINGLE_NODE_WRITER ->
        isValidVolumeCapabilities (l1 ++ cap :: l2) = false)
  /\ (forall cap l1 l2,
        AccessMode cap = None ->
        isValidVolumeCapabilities (l1 ++ cap :: l2) = false).
Proof.
  assert (Hall : forall volCaps,
            isValidVolumeCapabilities volCaps = forallb hasSupport volCaps).
  { unfold isValidVolumeCapabilities. induction volCaps as [|c cs IH]; simpl.
    - reflexivity.
    - destruct (hasSupport c); simpl; [exact IH|apply foundAll_false]. }
  assert (Hbad : forall cap l1 l2,
            GetMode (AccessMode cap) <> VolumeCapability_AccessMode_SINGLE_NODE_WRITER ->
            isValidVolumeCapabilities (l1 ++ cap :: l2) = false).
  { intros cap l1 l2 Hm. rewrite Hall, forallb_app. simpl.
    assert (Hs : hasSupport cap = false).
    { destruct (hasSupport cap) eqn:E; [|reflexivity].
      apply hasSupport_supported, supported_single_node_writer in E. contradiction. }
    rewrite Hs. simpl. apply andb_false_r. }
  split; [reflexivity|]. split; [exact Hall|]. split; [|split; [|split]].
  - intros l1 l2. rewrite !Hall. apply forallb_app.
  - intros l1 l2 Hperm. rewrite !Hall.
    induction Hperm as [|x l l' _ IH|x y l|l l' l'' _ IH1 _ IH2]; simpl.
    + reflexivity.
    + rewrite IH. reflexivity.
    + destruct (hasSupport x), (hasSupport y); reflexivity.
    + congruence.
  - exact Hbad.
  - intros cap l1 l2 Hnone. apply Hbad. rewrite Hnone. discriminate.
Qed.

(** ** The zone selector, further *)

Section ZoneFurther.

Variable K : Constants.

Lemma omap_zoneOf_skip (l1 l2 : list Topology) (t : Topology) :
  zoneOf K t = None ->
  omap (zoneOf K) (l1 ++ t :: l2)%list = omap (zoneOf K) (l1 ++ l2)%list.
Proof.
  intros Hz. rewrite !omap_app. simpl. rewrite Hz. reflexivity.
Qed.

Lemma scanZone_offered (ts : list Topology) (z : string) :
  scanZone K ts = Some z -> exists t, In t ts /\ zoneOf K t = Some z.
Proof.
  induction ts as [|t ts IH]; simpl; [discriminate|].
  destruct (Segments t !! TopologyKey K) as [z'|] eqn:E.
  - intros [= ->]. exists t. split; [left; reflexivity|exact E].
  - intros H. destruct (IH H) as (u & Hu & Hz). exists u. split; [right; exact Hu|exact Hz].
Qed.

(** X13. A zone the selector returns, unless it is the empty string, is one
    that an entry of the requirement carries under the zone key: the selector
    never invents a zone.  Entries that carry no zone are skipped: adding or
    removing one, anywhere in either sequence, does not change the
    selection. *)
Theorem pickAvailabilityZone_offered_and_skips :
  (forall requirement z,
     pickAvailabilityZone K requirement = z -> z <> "" ->
     exists r t, requirement = Some r
                 /\ In t (Preferred r ++ Requisite r)%list /\ zoneOf K t = Some z)
  /\ (forall t l1 l2 requisite,
        zoneOf K t = None ->
        pickAvailabilityZone K
          (Some {| Requisite := requisite; Preferred := l1 ++ t :: l2 |})
        = pickAvailabilityZone K
            (Some {| Requisite := requisite; Preferred := l1 ++ l2 |}))
  /\ (forall t l1 l2 preferred,
        zoneOf K t = None ->
        pickAvailabilityZone K
          (Some {| Requisite := l1 ++ t :: l2; Preferred := preferred |})
        = pickAvailabilityZone K
            (Some {| Requisite := l1 ++ l2; Preferred := preferred |})).
Proof.
  split; [|split].
  - intros [r|] z Hpick Hne; [|simpl in Hpick; congruence].
    exists r. unfold pickAvailabilityZone in Hpick.
    destruct (scanZone K (Preferred r)) as [z1|] eqn:E1.
    + subst z1. destruct (scanZone_offered _ _ E1) as (t & Hin & Hz).
      exists t. split; [reflexivity|]. split; [apply in_or_app; left; exact Hin|exact Hz].
    + destruct (scanZone K (Requisite r)) as [z2|] eqn:E2; [|congruence].
      subst z2. destruct (scanZone_offered _ _ E2) as (t & Hin & Hz).
      exists t. split; [reflexivity|]. split; [apply in_or_app; right; exact Hin|exact Hz].
  - intros t l1 l2 requisite Hz. unfold pickAvailabilityZone. simpl.
    rewrite !scanZone_omap, (omap_zoneOf_skip l1 l2 t Hz). reflexivity.
  - intros t l1 l2 preferred Hz. unfold pickAvailabilityZone. simpl.
    rewrite !scanZone_omap, (omap_zoneOf_skip l1 l2 t Hz). reflexivity.
Qed.

End ZoneFurther.

(** ** The status codes of the handlers *)

Section StatusCodes.

Context {S : Type}.
Variable cloud : Cloud S.
Variable K : Constants.

(** X14. The errors each handler can answer.  CreateVolume: InvalidArgument,
    AlreadyExists or Internal.  DeleteVolume, DeleteSnapshot and
    ControllerUnpublishVolume: InvalidArgument or Internal.
    ControllerPublishVolume: InvalidArgument, NotFound, AlreadyExists or
    Internal.  ValidateVolumeCapabilities: InvalidArgument, NotFound or
    Internal.  CreateSnapshot: InvalidArgument, AlreadyExists, Internal, or
    an error passed on without a status.  GetCapacity, ListVolumes and
    ListSnapshots answer Unimplemented to every request, and
    ControllerGetCapabilities answers every request with one entry per
    controller capability, in order; these four never call the backend. *)
Theorem handler_status_codes (w : World S) :
  (forall req e, fst (CreateVolume cloud K req w) = Err e ->
     exists c m, e = StatusError c m /\ In c [InvalidArgument; AlreadyExists; Internal])
  /\ (forall req e, fst (DeleteVolume cloud req w) = Err e ->
     exists c m, e = StatusError c m /\ In c [InvalidArgument; Internal])
  /\ (forall req e, fst (ControllerPublishVolume cloud K req w) = Err e ->
     exists c m, e = StatusError c m
                 /\ In c [InvalidArgument; NotFound; AlreadyExists; Internal])
  /\ (forall req e, fst (ControllerUnpublishVolume cloud req w) = Err e ->
     exists c m, e = StatusError c m /\ In c [InvalidArgument; Internal])
  /\ (forall req e, fst (ValidateVolumeCapabilities cloud req w) = Err e ->
     exists c m, e = StatusError c m /\ In c [InvalidArgument; NotFound; Internal])
  /\ (forall req e, fst (CreateSnapshot cloud K req w) = Err e ->
     (exists err, e = PlainError err)
     \/ exists c m, e = StatusError c m /\ In c [InvalidArgument; AlreadyExists; Internal])
  /\ (forall req e, fst (DeleteSnapshot cloud req w) = Err e ->
     exists c m, e = StatusError c m /\ In c [InvalidArgument; Internal])
  /\ (forall req, GetCapacity req w = (Err (StatusError Unimplemented (Msg "")), w))
  /\ (forall req, ListVolumes req w = (Err (StatusError Unimplemented (Msg "")), w))
  /\ (forall req, ListSnapshots req w = (Err (StatusError Unimplemented (Msg "")), w))
  /\ (forall req,
        ControllerGetCapabilities req w =
          (Ok {| Capabilities :=
                   map (fun cap =>
                          {| csc_Type :=
                               Some (ControllerServiceCapability_Rpc
                                       (Some {| rpc_Type := cap |})) |})
                     controllerCaps |}, w)).
Proof.
  repeat apply conj; try (intros req; reflexivity).
  - intros req e He.
    destruct (CreateVolume_trace cloud K req w)
      as [(_ & m & Hm)
         |[(_ & _ & _ & [(e' & _ & _ & He')|(d & _ & _ & Hd)])
          |[(_ & _ & _ & m & Hm)
           |(_ & _ & _ & _ & opts & _ & Hrun)]]].
    + rewrite Hm in He. injection He as <-. eexists _, _. split; [reflexivity|].
      simpl. auto.
    + rewrite He' in He. injection He as <-. eexists _, _. split; [reflexivity|].
      destruct (bool_decide (e' = ErrDiskExistsDiffSize)); simpl; auto.
    + rewrite Hd in He. discriminate.
    + rewrite Hm in He. injection He as <-. eexists _, _. split; [reflexivity|].
      simpl. auto.
    + cbv zeta in Hrun. rewrite Hrun in He. simpl in He.
      destruct (snd (fst (CreateDisk cloud _ _ _))) as [err|].
      * injection He as <-. eexists _, _. split; [reflexivity|]. simpl. auto.
      * destruct (fst (fst (CreateDisk cloud _ _ _))); discriminate.
  - intros req e He. destruct (empty_or_not (dv_VolumeId req)) as [H|H].
    + rewrite (DeleteVolume_invalid cloud req w H) in He. injection He as <-.
      eexists _, _. split; [reflexivity|]. simpl. auto.
    + rewrite (DeleteVolume_run cloud req w H) in He. simpl in He.
      destruct (snd (fst (DeleteDisk cloud _ _))) as [err|]; [|discriminate].
      destruct (bool_decide (err = ErrNotFound)); [discriminate|].
      injection He as <-. eexists _, _. split; [reflexivity|]. simpl. auto.
  - intros req e He. destruct (publishRequestValid req) eqn:Hv.
    + rewrite (ControllerPublishVolume_run cloud K req w Hv) in He. cbv zeta in He.
      destruct (negb _).
      { injection He as <-. eexists _, _. split; [reflexivity|]. simpl. auto. }
      destruct (snd (fst (GetDiskByID cloud _ _))) as [err|].
      { simpl in He. destruct (bool_decide (err = ErrNotFound));
          injection He as <-; eexists _, _; (split; [reflexivity|]); simpl; auto. }
      destruct (snd (fst (AttachDisk cloud _ _ _))) as [err|]; [|discriminate].
      simpl in He. destruct (bool_decide (err = ErrAlreadyExists));
        injection He as <-; eexists _, _; (split; [reflexivity|]); simpl; auto.
    + destruct (ControllerPublishVolume_invalid cloud K req w Hv) as [m Hm].
      rewrite Hm in He. injection He as <-. eexists _, _. split; [reflexivity|].
      simpl. auto.
  - intros req e He.
    destruct (empty_or_not (cu_VolumeId req)) as [Hv|Hv];
      [destruct (ControllerUnpublishVolume_invalid cloud req w (or_introl Hv))
         as [m Hm]; rewrite Hm in He; injection He as <-;
       eexists _, _; (split; [reflexivity|]); simpl; auto|].
    destruct (empty_or_not (cu_NodeId req)) as [Hn|Hn];
      [destruct (ControllerUnpublishVolume_invalid cloud req w (or_intror Hn))
         as [m Hm]; rewrite Hm in He; injection He as <-;
       eexists _, _; (split; [reflexivity|]); simpl; auto|].
    rewrite (ControllerUnpublishVolume_run cloud req w Hv Hn) in He. simpl in He.
    destruct (fst (DetachDisk cloud _ _ _)); [|discriminate].
    injection He as <-. eexists _, _. split; [reflexivity|]. simpl. auto.
  - intros req e He.
    destruct (empty_or_not (vc_VolumeId req)) as [Hv|Hv];
      [destruct (ValidateVolumeCapabilities_invalid cloud req w (or_introl Hv))
         as [m Hm]; rewrite Hm in He; injection He as <-;
       eexists _, _; (split; [reflexivity|]); simpl; auto|].
    destruct (vc_VolumeCapabilities req) as [|c cs] eqn:Hc;
      [destruct (ValidateVolumeCapabilities_invalid cloud req w (or_intror Hc))
         as [m Hm]; rewrite Hm in He; injection He as <-;
       eexists _, _; (split; [reflexivity|]); simpl; auto|].
    rewrite (ValidateVolumeCapabilities_run cloud req w Hv) in He
      by (rewrite Hc; discriminate).
    simpl in He. destruct (snd (fst (GetDiskByID cloud _ _))) as [err|]; [|discriminate].
    destruct (bool_decide (err = ErrNotFound));
      injection He as <-; eexists _, _; (split; [reflexivity|]); simpl; auto.
  - intros req e He. destruct (reachesSnapshotLookup req) eqn:Hreach.
    + rewrite (CreateSnapshot_lookup cloud K req w Hreach) in He. cbv zeta in He.
      assert (Htr : forall snap (w' : World S),
                    fst (newCreateSnapshotResponse snap w') = Err e ->
                    exists err, e = PlainError err).
      { intros [snap|] w'; unfold newCreateSnapshotResponse; [|discriminate].
        destruct (TimestampProto (CreationTime snap)) as [ts [err|]]; [|discriminate].
        intros [= <-]. eauto. }
      destruct (snd (fst (GetSnapshotByName cloud (cs_Name req) (backend w))))
        as [e0|];
        [destruct (bool_decide (e0 = ErrNotFound));
         [|injection He as <-; left; eauto]|];
        (destruct (fst (fst (GetSnapshotByName cloud (cs_Name req) (backend w))))
           as [snap|];
         [destruct (bool_decide (SourceVolumeID snap = cs_SourceVolumeId req));
          [left; exact (Htr _ _ He)
          |injection He as <-; right; eexists _, _; (split; [reflexivity|]);
           simpl; auto]
         |destruct (snd (fst (CreateSnapshot_ cloud _ _ _))) as [err|];
          [injection He as <-; right; eexists _, _; (split; [reflexivity|]);
           simpl; auto
          |left; exact (Htr _ _ He)]]).
    + destruct (CreateSnapshot_rejects cloud K req w Hreach) as [m Hm].
      rewrite Hm in He. injection He as <-. right. eexists _, _.
      split; [reflexivity|]. simpl. auto.
  - intros req e He. destruct (empty_or_not (ds_SnapshotId req)) as [H|H].
    + rewrite (DeleteSnapshot_invalid cloud req w H) in He. injection He as <-.
      eexists _, _. split; [reflexivity|]. simpl. auto.
    + rewrite (DeleteSnapshot_run cloud req w H) in He. simpl in He.
      destruct (snd (fst (DeleteSnapshot_ cloud _ _))) as [err|]; [|discriminate].
      destruct (bool_decide (err = ErrNotFound)); [discriminate|].
      injection He as <-. eexists _, _. split; [reflexivity|]. simpl. auto.
Qed.

(** X15. When the lookup finds the volume, the answer of CreateVolume
    depends on the request only through its name, its normalised size and
    its filesystem-type parameter: two accepted requests that agree on these
    get the same answer, a success, whatever their volume type, IOPS,
    encryption, content source and topology are, and even if one of them
    would be refused on the create path. *)
Theorem CreateVolume_replay_ignores_creation_parameters
    (req1 req2 : CreateVolumeRequest) (w : World S) (disk : Disk) :
  reachesLookup req1 = true -> reachesLookup req2 = true ->
  cv_Name req1 = cv_Name req2 ->
  volSizeBytesOf K req1 = volSizeBytesOf K req2 ->
  index (cv_Parameters req1) (FsTypeKey K) = index (cv_Parameters req2) (FsTypeKey K) ->
  let look := GetDiskByName cloud (cv_Name req1) (volSizeBytesOf K req1) (backend w) in
  fst (fst look) = Some disk ->
  (snd (fst look) = None \/ snd (fst look) = Some ErrNotFound) ->
  CreateVolume cloud K req1 w = CreateVolume cloud K req2 w
  /\ fst (CreateVolume cloud K req2 w) =
       Ok (newCreateVolumeResponse K
             (Disk_setFsType disk (index (cv_Parameters req1) (FsTypeKey K)))).
Proof.
  intros Hr1 Hr2 Hname Hsize Hfs look Hdisk Herr.
  rewrite (CreateVolume_lookup cloud K req1 w Hr1),
          (CreateVolume_lookup cloud K req2 w Hr2).
  cbv zeta. rewrite <- Hname, <- Hsize, <- Hfs. fold look. rewrite Hdisk.
  destruct Herr as [-> | ->]; split; reflexivity.
Qed.

End StatusCodes.

(** ** Single backend calls *)

(** X16. With a non-empty identifier each delete handler makes exactly one
    backend call, the delete of that identifier, with no lookup before it,
    and ValidateVolumeCapabilities with a valid request makes exactly one,
    the lookup by id.  Their answers depend on the backend's result only
    through its error: the boolean a delete returns and the record a lookup
    returns are not looked at. *)
Theorem single_call_handlers {S1 S2 : Type} (c1 : Cloud S1) (c2 : Cloud S2)
    (w1 : World S1) (w2 : World S2) :
  (forall req, dv_VolumeId req <> "" ->
     callsSince w1 (snd (DeleteVolume c1 req w1)) = [CallDeleteDisk (dv_VolumeId req)]
     /\ (snd (fst (DeleteDisk c1 (dv_VolumeId req) (backend w1)))
         = snd (fst (DeleteDisk c2 (dv_VolumeId req) (backend w2))) ->
         fst (DeleteVolume c1 req w1) = fst (DeleteVolume c2 req w2)))
  /\ (forall req, ds_SnapshotId req <> "" ->
     callsSince w1 (snd (DeleteSnapshot c1 req w1))
       = [CallDeleteSnapshot (ds_SnapshotId req)]
     /\ (snd (fst (DeleteSnapshot_ c1 (ds_SnapshotId req) (backend w1)))
         = snd (fst (DeleteSnapshot_ c2 (ds_SnapshotId req) (backend w2))) ->
         fst (DeleteSnapshot c1 req w1) = fst (DeleteSnapshot c2 req w2)))
  /\ (forall req, vc_VolumeId req <> "" -> vc_VolumeCapabilities req <> [] ->
     callsSince w1 (snd (ValidateVolumeCapabilities c1 req w1))
       = [CallGetDiskByID (vc_VolumeId req)]
     /\ (snd (fst (GetDiskByID c1 (vc_VolumeId req) (backend w1)))
         = snd (fst (GetDiskByID c2 (vc_VolumeId req) (backend w2))) ->
         fst (ValidateVolumeCapabilities c1 req w1)
         = fst (ValidateVolumeCapabilities c2 req w2))
     /\ (forall e, snd (fst (GetDiskByID c1 (vc_VolumeId req) (backend w1))) = Some e ->
           e <> ErrNotFound ->
           exists m, fst (ValidateVolumeCapabilities c1 req w1)
                     = Err (StatusError Internal m))).
Proof.
  split; [|split].
  - intros req Hid. rewrite (DeleteVolume_run c1 req w1 Hid),
                            (DeleteVolume_run c2 req w2 Hid).
    simpl. rewrite callsSince_logged1. split; [reflexivity|]. intros ->. reflexivity.
  - intros req Hid. rewrite (DeleteSnapshot_run c1 req w1 Hid),
                            (DeleteSnapshot_run c2 req w2 Hid).
    simpl. rewrite callsSince_logged1. split; [reflexivity|]. intros ->. reflexivity.
  - intros req Hid Hcaps.
    rewrite (ValidateVolumeCapabilities_run c1 req w1 Hid Hcaps),
            (ValidateVolumeCapabilities_run c2 req w2 Hid Hcaps).
    simpl. rewrite callsSince_logged1. split; [reflexivity|]. split.
    + intros ->. reflexivity.
    + intros e -> Hne. rewrite bool_decide_eq_false_2 by exact Hne. eauto.
Qed.

(** ** Further runs on the in-memory backends *)

Lemma backend_called_iff_request_valid_witness :
  (exists m,
     DeleteVolume Fake.cloud {| dv_VolumeId := "" |} Fake.start
     = (Err (StatusError InvalidArgument m), Fake.start))
  /\ (exists m,
        CreateSnapshot Fake.cloud Fake.constants (Fake.snapshotReq "s" "") Fake.start
        = (Err (StatusError InvalidArgument m), Fake.start)).
Proof.
  destruct (backend_called_iff_request_valid Fake.cloud Fake.constants Fake.start)
    as (_ & Hdel & _ & _ & _ & Hsnap & _).
  split.
  - destruct (Hdel {| dv_VolumeId := "" |}) as [Hrej _]. exact (Hrej eq_refl).
  - destruct (Hsnap (Fake.snapshotReq "s" "")) as [Hrej _].
    apply Hrej. right. reflexivity.
Defined.

Lemma ControllerUnpublishVolume_detaches_witness :
  callsSince Fake.populated
    (snd (ControllerUnpublishVolume Fake.cloud
            {| cu_VolumeId := "vol-1"; cu_NodeId := "i-1" |} Fake.populated))
  = [CallDetachDisk "vol-1" "i-1"]
  /\ (exists m,
        fst (ControllerUnpublishVolume Offline.cloud
               {| cu_VolumeId := "vol-1"; cu_NodeId := "i-1" |} Offline.start)
        = Err (StatusError Internal m)).
Proof.
  split.
  - destruct (ControllerUnpublishVolume_detaches Fake.cloud
                {| cu_VolumeId := "vol-1"; cu_NodeId := "i-1" |} Fake.populated
                ltac:(discriminate) ltac:(discriminate)) as (Hcalls & _).
    exact Hcalls.
  - destruct (ControllerUnpublishVolume_detaches Offline.cloud
                {| cu_VolumeId := "vol-1"; cu_NodeId := "i-1" |} Offline.start
                ltac:(discriminate) ltac:(discriminate)) as (_ & _ & _ & Herr & _).
    eexists. apply (Herr Offline.unreachable). reflexivity.
Defined.

Lemma CreateVolume_call_footprint_witness :
  existsb is_create_disk
    (callsSince Fake.start
       (snd (CreateVolume Fake.cloud Fake.constants (Fake.createReq "v" None)
               Fake.start))) = true.
Proof.
  destruct (CreateVolume_call_footprint Fake.cloud Fake.constants
              (Fake.createReq "v" None) Fake.start) as [_ Hiff].
  apply Hiff. split; [vm_compute; reflexivity|].
  split; [split; [vm_compute; reflexivity|right; vm_compute; reflexivity]|].
  split.
  - intros H. vm_compute in H. discriminate H.
  - left. reflexivity.
Defined.

Lemma CreateVolume_respects_limit_witness :
  In (CallGetDiskByName "v" GiB)
    (callsSince Fake.start
       (snd (CreateVolume Fake.cloud Fake.constants
               (Fake.createReq "v" (Some {| RequiredBytes := 1; LimitBytes := 2 * GiB |}))
               Fake.start)))
  /\ GiB <= LimitBytes {| RequiredBytes := 1; LimitBytes := 2 * GiB |}.
Proof.
  assert (Hin : In (CallGetDiskByName "v" GiB)
    (callsSince Fake.start
       (snd (CreateVolume Fake.cloud Fake.constants
               (Fake.createReq "v" (Some {| RequiredBytes := 1; LimitBytes := 2 * GiB |}))
               Fake.start)))).
  { vm_compute. left. reflexivity. }
  split; [exact Hin|].
  exact (CreateVolume_respects_limit Fake.cloud Fake.constants
           (Fake.createReq "v" (Some {| RequiredBytes := 1; LimitBytes := 2 * GiB |}))
           Fake.start {| RequiredBytes := 1; LimitBytes := 2 * GiB |}
           eq_refl ltac:(reflexivity) (CallGetDiskByName "v" GiB) Hin).
Defined.

Lemma CreateVolume_iops_witness :
  exists m,
    CreateVolume Fake.cloud Fake.constants Samples.io1NoIops Fake.start
    = (Err (StatusError InvalidArgument m),
       logged Fake.start (CallGetDiskByName "v" (100 * GiB)) Fake.empty).
Proof.
  destruct (CreateVolume_iops Fake.cloud Fake.constants Samples.io1NoIops Fake.start)
    as [_ Hrefused].
  apply Hrefused.
  - vm_compute. reflexivity.
  - split; [vm_compute; reflexivity|right; vm_compute; reflexivity].
  - vm_compute. reflexivity.
  - right. vm_compute. reflexivity.
Defined.

Lemma CreateVolume_encryption_witness :
  index (cv_Parameters Samples.encryptedCapital) "kmsKeyId" = "key-1"
  /\ do_KmsKeyID Samples.encryptedCapitalOptions = "".
Proof.
  split; [vm_compute; reflexivity|].
  destruct (CreateVolume_encryption Fake.cloud Fake.constants Samples.encryptedCapital
              Fake.start "v" Samples.encryptedCapitalOptions) as (_ & _ & Hplain).
  - vm_compute. right. left. reflexivity.
  - apply Hplain. reflexivity.
Defined.

Lemma CreateVolume_content_source_witness :
  exists m,
    CreateVolume Fake.cloud Fake.constants Samples.fromVolume Fake.start
    = (Err (StatusError InvalidArgument m),
       logged Fake.start (CallGetDiskByName "v" (100 * GiB)) Fake.empty).
Proof.
  destruct (CreateVolume_content_source Fake.cloud Fake.constants Samples.fromVolume
              Fake.start) as [_ Hrefused].
  apply (Hrefused ltac:(vm_compute; reflexivity)
           ltac:(split; [vm_compute; reflexivity|right; vm_compute; reflexivity])
           (VolumeContentSource_Volume (Some {| SourceVolume := "vol-1" |}))
           eq_refl).
  intros s. discriminate.
Defined.

Lemma CreateVolume_fresh_outcome_witness :
  exists resp,
    fst (CreateVolume Fake.cloud Fake.constants (Fake.createReq "v" None) Fake.start)
    = Ok resp
    /\ VolumeId (cv_Volume resp) = "vol-v".
Proof.
  destruct (CreateVolume_fresh_outcome Fake.cloud Fake.constants
              (Fake.createReq "v" None) Fake.start)
    as (opts & _ & _ & _ & Hok & _).
  - vm_compute. reflexivity.
  - split; [vm_compute; reflexivity|right; vm_compute; reflexivity].
  - intros H. vm_compute in H. discriminate H.
  - left. reflexivity.
  - destruct (Hok _ eq_refl) as (resp & Hrun & Hid & _).
    exists resp. split; [exact Hrun|exact Hid].
Defined.

Lemma CreateSnapshot_lookup_failure_witness :
  CreateSnapshot Offline.cloud Fake.constants (Fake.snapshotReq "s" "vol-1")
    Offline.start
  = (Err (PlainError Offline.unreachable),
     logged Offline.start (CallGetSnapshotByName "s") tt).
Proof.
  destruct (CreateSnapshot_lookup_failure Offline.cloud Fake.constants
              (Fake.snapshotReq "s" "vol-1") Offline.start Offline.unreachable
              eq_refl eq_refl ltac:(discriminate)) as [Hrun _].
  exact Hrun.
Defined.

Lemma CreateSnapshot_creates_iff_absent_witness :
  callsSince Fake.populated
    (snd (CreateSnapshot Fake.cloud Fake.constants (Fake.snapshotReq "new" "vol-1")
            Fake.populated))
  = [CallGetSnapshotByName "new";
     CallCreateSnapshot "vol-1" {| so_Tags := {[ "CSIVolumeSnapshotName" := "new" ]} |}].
Proof.
  destruct (CreateSnapshot_creates_iff_absent Fake.cloud Fake.constants
              (Fake.snapshotReq "new" "vol-1") Fake.populated eq_refl)
    as (_ & Habsent & _).
  destruct Habsent as [Hcalls _].
  - split; [vm_compute; reflexivity|right; vm_compute; reflexivity].
  - exact Hcalls.
Defined.

Lemma Fake_createSnapshot_conventional (v : string) (opts : SnapshotOptions)
    (s : Fake.State) :
  conventional (fst (CreateSnapshot_ Fake.cloud v opts s)).
Proof.
  simpl. unfold Fake.createSnapshot.
  destruct (map_to_list (so_Tags opts)) as [|[k name] [|p l]];
    split; simpl; intros H; try discriminate H; congruence.
Qed.

Lemma snapshot_handlers_panic_only_on_empty_creation_witness :
  fst (CreateSnapshot Faulty.cloud Fake.constants (Fake.snapshotReq "new" "vol-1")
         Fake.populated) = Panic
  /\ fst (CreateSnapshot Fake.cloud Fake.constants (Fake.snapshotReq "new" "vol-1")
            Fake.populated) <> Panic.
Proof.
  split.
  - destruct (snapshot_handlers_panic_only_on_empty_creation Faulty.cloud
                Fake.constants Fake.populated) as [Hiff _].
    apply (Hiff (Fake.snapshotReq "new" "vol-1")).
    split; [reflexivity|].
    split; [split; [vm_compute; reflexivity|right; vm_compute; reflexivity]|].
    reflexivity.
  - destruct (snapshot_handlers_panic_only_on_empty_creation Fake.cloud
                Fake.constants Fake.populated) as (_ & Hconv & _).
    apply Hconv. exact Fake_createSnapshot_conventional.
Defined.

Lemma isValidVolumeCapabilities_conjunction_witness :
  isValidVolumeCapabilities [Fake.writer; Fake.multiWriter]
  = isValidVolumeCapabilities [Fake.multiWriter; Fake.writer]
  /\ isValidVolumeCapabilities [Fake.writer; {| AccessMode := None |}] = false.
Proof.
  destruct isValidVolumeCapabilities_conjunction as (_ & _ & _ & Hperm & _ & Hnil).
  split.
  - apply Hperm. apply perm_swap.
  - apply (Hnil {| AccessMode := None |} [Fake.writer] []). reflexivity.
Defined.

Lemma pickAvailabilityZone_offered_and_skips_witness :
  exists r t,
    cv_AccessibilityRequirements (Fake.createReq "v" None) = Some r
    /\ In t (Preferred r ++ Requisite r)%list
    /\ zoneOf Fake.constants t = Some "a".
Proof.
  destruct (pickAvailabilityZone_offered_and_skips Fake.constants) as [Hoffered _].
  apply Hoffered; [vm_compute; reflexivity|discriminate].
Defined.

Lemma handler_status_codes_witness :
  exists c m,
    StatusError InvalidArgument (Msg "Volume ID not provided") = StatusError c m
    /\ In c [InvalidArgument; Internal].
Proof.
  destruct (handler_status_codes Fake.cloud Fake.constants Fake.start)
    as (_ & Hdel & _).
  apply (Hdel {| dv_VolumeId := "" |}). reflexivity.
Defined.

Lemma CreateVolume_replay_ignores_creation_parameters_witness :
  CreateVolume Fake.cloud Fake.constants
    (Fake.createReq "one" (Some {| RequiredBytes := 1; LimitBytes := 0 |}))
    Fake.populated
  = CreateVolume Fake.cloud Fake.constants Samples.replayOne Fake.populated
  /\ fst (CreateVolume Fake.cloud Fake.constants Samples.replayOne Fake.populated)
     = Ok (newCreateVolumeResponse Fake.constants
             (Disk_setFsType Fake.volume1 "ext4")).
Proof.
  apply (CreateVolume_replay_ignores_creation_parameters Fake.cloud Fake.constants
           (Fake.createReq "one" (Some {| RequiredBytes := 1; LimitBytes := 0 |}))
           Samples.replayOne Fake.populated Fake.volume1);
    try (vm_compute; reflexivity).
  left. vm_compute. reflexivity.
Defined.

Lemma single_call_handlers_witness :
  callsSince Fake.start
    (snd (DeleteVolume Fake.cloud {| dv_VolumeId := "vol-gone" |} Fake.start))
  = [CallDeleteDisk "vol-gone"]
  /\ fst (DeleteVolume Fake.cloud {| dv_VolumeId := "vol-gone" |} Fake.start)
     = fst (DeleteVolume Fake.cloud {| dv_VolumeId := "vol-gone" |} Fake.populated).
Proof.
  destruct (single_call_handlers Fake.cloud Fake.cloud Fake.start Fake.populated)
    as [Hdel _].
  destruct (Hdel {| dv_VolumeId := "vol-gone" |} ltac:(discriminate)) as [Hcalls Hsame].
  split; [exact Hcalls|]. apply Hsame. vm_compute. reflexivity.
Defined.
